(** * LunarCalendar: a shallow embedding of [LunarCalendar.py]

    The Python class [LunarCalendar] converts between Gregorian (solar) dates
    and the Chinese lunisolar calendar.  This development embeds the methods
    of the class as Rocq functions and states the properties of the
    conversion engine over them.

    Conventions of the embedding:
    - Python [int] is [Z]; [&], [<<], [>>] are [Z.land], [Z.shiftl],
      [Z.shiftr]; [%] with a positive modulus is [Z.modulo].
    - Python [str] is [string] (the bytes of the UTF-8 encoding).
    - An expression that may raise is a computation in [result]; the value
      dictionaries returned by the public methods are inductive types with
      one constructor for the [{'error': 100, ...}] dictionary.
    - [list] indexing is [py_index]: negative indices count from the end,
      anything else out of bounds raises [IndexError].
    - [float] is IEEE-754 binary64, computed with the Standard Library's
      [SpecFloat] operations at precision 53.
    - [datetime.date], [datetime.datetime] and [datetime.timedelta] follow
      CPython's proleptic Gregorian ordinal arithmetic.
    - [lunarInfo.csv] is read at class-creation time; the table it yields is
      the section variable [lunarInfo]. *)

From Stdlib Require Import ZArith List String Ascii Bool Lia DecimalString.
From Stdlib Require Import Floats.SpecFloat.
From stdpp Require Import base gmap.

Import ListNotations.
Local Open Scope string_scope.
Local Open Scope Z_scope.

(** ** Exceptions and the error monad *)

Inductive exn : Type :=
| IndexError
| ValueError
| OverflowError.

Inductive result (A : Type) : Type :=
| Ok (a : A)
| Raise (e : exn).

Arguments Ok {A} a.
Arguments Raise {A} e.

Definition rbind {A B : Type} (c : result A) (k : A -> result B) : result B :=
  match c with
  | Ok a => k a
  | Raise e => Raise e
  end.

Notation "'let*' x ':=' c 'in' k" := (rbind c (fun x => k))
  (at level 10, x name, c at level 100, k at level 200).
Notation "'let*' ' p ':=' c 'in' k" := (rbind c (fun x => match x with p => k end))
  (at level 10, p pattern, c at level 100, k at level 200).

Definition is_ok {A : Type} (c : result A) : bool :=
  match c with Ok _ => true | Raise _ => false end.

(** A [for] loop over the items of a list, threading the loop state and
    stopping at the first exception. *)
Fixpoint for_each {A S : Type} (body : S -> A -> result S) (xs : list A) (s : S)
  : result S :=
  match xs with
  | [] => Ok s
  | x :: xs' => let* s' := body s x in for_each body xs' s'
  end.

(** [range(n)] as the list [0; 1; ...; n-1]. *)
Definition range (n : Z) : list Z :=
  List.map Z.of_nat (List.seq 0 (Z.to_nat n)).

(** [range(hi, -1, -1)] as the list [hi; hi-1; ...; 0]. *)
Definition range_down (hi : Z) : list Z :=
  List.rev (range (hi + 1)).

(** ** Python sequences *)

Definition py_len {A : Type} (l : list A) : Z := Z.of_nat (List.length l).

(** [l[i]]: a negative index counts from the end. *)
Definition py_index {A : Type} (l : list A) (i : Z) : result A :=
  let j := if i <? 0 then i + py_len l else i in
  if (0 <=? j) && (j <? py_len l)
  then match List.nth_error l (Z.to_nat j) with
       | Some a => Ok a
       | None => Raise IndexError
       end
  else Raise IndexError.

(** [sum(l)] *)
Definition py_sum (l : list Z) : Z := List.fold_right Z.add 0 l.

(** [str(n)] for an [int]. *)
Definition str (n : Z) : string := NilZero.string_of_int (Z.to_int n).

(** [s[-1]] for a [str]: its last character. *)
Fixpoint last_char (s : string) : result ascii :=
  match s with
  | EmptyString => Raise IndexError
  | String c EmptyString => Ok c
  | String _ rest => last_char rest
  end.

(** [int(c)] for a one-character [str]. *)
Definition int_of_char (c : ascii) : result Z :=
  let n := Z.of_nat (nat_of_ascii c) in
  if (48 <=? n) && (n <=? 57) then Ok (n - 48) else Raise ValueError.

(** [int(s[-1])] *)
Definition int_of_last_char (s : string) : result Z :=
  let* c := last_char s in
  int_of_char c.

(** A [dict] with [str] keys, in insertion order.  [d[k] = v] overwrites in
    place when [k] is present and appends otherwise. *)
Definition dict : Type := list (string * string).

Fixpoint dict_set (d : dict) (k v : string) : dict :=
  match d with
  | [] => [(k, v)]
  | (k', v') :: d' =>
      if String.eqb k' k then (k', v) :: d' else (k', v') :: dict_set d' k v
  end.

Fixpoint dict_get (d : dict) (k : string) : option string :=
  match d with
  | [] => None
  | (k', v') :: d' => if String.eqb k' k then Some v' else dict_get d' k
  end.

(** ** The Gregorian calendar of [datetime] *)

Module Gregorian.

Definition MINYEAR : Z := 1.
Definition MAXYEAR : Z := 9999.
Definition MAXORDINAL : Z := 3652059.

Definition DAYS_IN_MONTH : list Z :=
  [-1; 31; 28; 31; 30; 31; 30; 31; 31; 30; 31; 30; 31].

Definition DAYS_BEFORE_MONTH : list Z :=
  [-1; 0; 31; 59; 90; 120; 151; 181; 212; 243; 273; 304; 334].

Definition tbl (t : list Z) (i : Z) : Z := List.nth (Z.to_nat i) t 0.

Definition is_leap (year : Z) : bool :=
  (year mod 4 =? 0) && (negb (year mod 100 =? 0) || (year mod 400 =? 0)).

Definition days_before_year (year : Z) : Z :=
  let y := year - 1 in
  y * 365 + y / 4 - y / 100 + y / 400.

Definition days_in_month (year month : Z) : Z :=
  if (month =? 2) && is_leap year then 29 else tbl DAYS_IN_MONTH month.

Definition days_before_month (year month : Z) : Z :=
  tbl DAYS_BEFORE_MONTH month
  + (if (month >? 2) && is_leap year then 1 else 0).

Definition ymd2ord (year month day : Z) : Z :=
  days_before_year year + days_before_month year month + day.

Definition DI400Y : Z := 146097.
Definition DI100Y : Z := 36524.
Definition DI4Y : Z := 1461.

(** ordinal -> (year, month, day), considering 01-Jan-0001 as day 1. *)
Definition ord2ymd (n : Z) : Z * Z * Z :=
  let n := n - 1 in
  let n400 := n / DI400Y in
  let n := n mod DI400Y in
  let year := n400 * 400 + 1 in
  let n100 := n / DI100Y in
  let n := n mod DI100Y in
  let n4 := n / DI4Y in
  let n := n mod DI4Y in
  let n1 := n / 365 in
  let n := n mod 365 in
  let year := year + n100 * 100 + n4 * 4 + n1 in
  if (n1 =? 4) || (n100 =? 4) then (year - 1, 12, 31)
  else
    let leapyear := (n1 =? 3) && (negb (n4 =? 24) || (n100 =? 3)) in
    let month := Z.shiftr (n + 50) 5 in
    let preceding :=
      tbl DAYS_BEFORE_MONTH month
      + (if (month >? 2) && leapyear then 1 else 0) in
    if preceding >? n
    then
      let month := month - 1 in
      let preceding :=
        preceding
        - (tbl DAYS_IN_MONTH month
           + (if (month =? 2) && leapyear then 1 else 0)) in
      (year, month, n - preceding + 1)
    else (year, month, n - preceding + 1).

(** A [datetime.date] value. *)
Record date : Type := mkdate { d_year : Z; d_month : Z; d_day : Z }.

Definition INT_MIN : Z := - 2 ^ 31.
Definition INT_MAX : Z := 2 ^ 31 - 1.

(** An argument that CPython converts to a C [int]. *)
Definition c_int (v : Z) : result Z :=
  if (INT_MIN <=? v) && (v <=? INT_MAX) then Ok v else Raise OverflowError.

(** [datetime.date(year, month, day)] *)
Definition date_new (year month day : Z) : result date :=
  let* year := c_int year in
  let* month := c_int month in
  let* day := c_int day in
  if negb ((MINYEAR <=? year) && (year <=? MAXYEAR)) then Raise ValueError
  else if negb ((1 <=? month) && (month <=? 12)) then Raise ValueError
  else if negb ((1 <=? day) && (day <=? days_in_month year month))
  then Raise ValueError
  else Ok (mkdate year month day).

Definition toordinal (d : date) : Z :=
  ymd2ord (d_year d) (d_month d) (d_day d).

Definition fromordinal (n : Z) : date :=
  let '(y, m, d) := ord2ymd n in mkdate y m d.

(** A [datetime.timedelta], as its total number of microseconds. *)
Definition timedelta : Type := Z.

Definition US_PER_DAY : Z := 86400000000.
Definition MAX_DELTA_DAYS : Z := 999999999.

Definition td_days (td : timedelta) : Z := td / US_PER_DAY.

Definition timedelta_of_us (us : Z) : result timedelta :=
  if (- MAX_DELTA_DAYS <=? td_days us) && (td_days us <=? MAX_DELTA_DAYS)
  then Ok us else Raise OverflowError.

(** [datetime.timedelta(days=n)] *)
Definition timedelta_days (n : Z) : result timedelta :=
  timedelta_of_us (n * US_PER_DAY).

(** [d + td] for a [date] [d]: only the days of [td] count. *)
Definition date_add (d : date) (td : timedelta) : result date :=
  let o := toordinal d + td_days td in
  if (1 <=? o) && (o <=? MAXORDINAL) then Ok (fromordinal o)
  else Raise OverflowError.

(** [d1 - d0] for two [date]s. *)
Definition date_sub (d1 d0 : date) : timedelta :=
  (toordinal d1 - toordinal d0) * US_PER_DAY.

(** [dt + td] for the [datetime] at [h:mi:s] of the day [d]; the result is
    returned as the date part, which is all the callers read. *)
Definition datetime_add (d : date) (h mi s : Z) (td : timedelta) : result date :=
  let total :=
    toordinal d * US_PER_DAY + ((h * 60 + mi) * 60 + s) * 1000000 + td in
  let o := total / US_PER_DAY in
  if (1 <=? o) && (o <=? MAXORDINAL) then Ok (fromordinal o)
  else Raise OverflowError.

End Gregorian.

(** ** Binary64 floating point, as far as [__getTerm] uses it *)

Module Float.

Definition prec : Z := 53.
Definition emax : Z := 1024.

Definition float : Type := spec_float.

(** Conversion of an [int] operand of a float operation. *)
Definition of_int (n : Z) : result float :=
  match binary_normalize prec emax n 0 false with
  | S754_infinity _ => Raise OverflowError
  | f => Ok f
  end.

Definition mul (x y : float) : float := SFmul prec emax x y.
Definition add (x y : float) : float := SFadd prec emax x y.

(** The literal [31556925974.7]: the binary64 number nearest to it. *)
Definition orbital_period_ms : float :=
  S754_finite false 8272458802711757 (-18).

(** The literal [1000.0] ([us_per_ms] as a double). *)
Definition thousand : float := S754_finite false 8796093022208000 (-43).

(** C's [modf] followed by [PyLong_FromDouble] on the integral part: the
    integral part as an [int], the fractional part as a float. *)
Definition modf (f : float) : result (Z * float) :=
  match f with
  | S754_zero s => Ok (0, S754_zero s)
  | S754_infinity _ => Raise OverflowError
  | S754_nan => Raise ValueError
  | S754_finite s m e =>
      let v := cond_Zopp s (Zpos m) in
      if 0 <=? e then Ok (v * 2 ^ e, S754_zero s)
      else Ok (Z.quot v (2 ^ (- e)),
               binary_normalize prec emax (Z.rem v (2 ^ (- e))) e s)
  end.

Definition is_zero (f : float) : bool :=
  match f with S754_zero _ => true | _ => false end.

(** The whole number of microseconds that [delta_new] adds for a leftover
    fraction [left] (of magnitude below one) on top of the integer [x]:
    to nearest, ties to the value that makes [x + _] even. *)
Definition round_leftover (x : Z) (left : float) : Z :=
  match left with
  | S754_finite s m e =>
      match Z.compare (Zpos m * 2) (2 ^ (- e)) with
      | Lt => 0
      | Eq => if Z.odd x then cond_Zopp s 1 else 0
      | Gt => cond_Zopp s 1
      end
  | _ => 0
  end.

(** [datetime.timedelta(milliseconds=ms)] for a float [ms] (CPython's
    [delta_new] and [accum]). *)
Definition timedelta_milliseconds (ms : float) : result Gregorian.timedelta :=
  let* '(intpart, fracpart) := modf ms in
  let x := intpart * 1000 in
  if is_zero fracpart then Gregorian.timedelta_of_us x
  else
    let* '(intpart', leftover) := modf (mul thousand fracpart) in
    let x := x + intpart' in
    Gregorian.timedelta_of_us (x + round_leftover x leftover).

End Float.

(** ** The class [LunarCalendar] *)

(** The dictionary [{'error': code, 'msg': msg}] or a payload. *)
Inductive outcome (A : Type) : Type :=
| ErrorDict (code : Z) (msg : string)
| Value (a : A).

Arguments ErrorDict {A} code msg.
Arguments Value {A} a.

(** The result dictionary of [__getLunarYearDays]. *)
Record LunarYearDays : Type := mkLunarYearDays {
  yearDays : Z;
  monthDays : list Z
}.

(** The result dictionary of [lunarToSolar]. *)
Record SolarInfo : Type := mkSolarInfo {
  year : Z;
  month : Z;
  day : Z
}.

(** The result dictionary of [solarToLunar]. *)
Record LunarInfo : Type := mkLunarInfo {
  zodiac : string;
  GanZhiYear : string;
  GanZhiMonth : string;
  GanZhiDay : string;
  term : option string;
  lunarYear : Z;
  lunarMonth : Z;
  lunarDay : Z;
  lunarMonthName : string;
  lunarDayName : string;
  lunarLeapMonth : Z
}.

Definition formatDayD4 (month day : Z) : string :=
  let month := month + 1 in
  let month := if month <? 10 then "0" ++ str month else str month in
  let day := if day <? 10 then "0" ++ str day else str day in
  "d" ++ month ++ day.

Definition minYear : Z := 1890.
Definition maxYear : Z := 2100.

Definition heavenlyStems : list string :=
  ["甲"; "乙"; "丙"; "丁"; "戊"; "己"; "庚"; "辛"; "壬"; "癸"].
Definition earthlyBranches : list string :=
  ["子"; "丑"; "寅"; "卯"; "辰"; "巳"; "午"; "未"; "申"; "酉"; "戌"; "亥"].
Definition zodiacTable : list string :=
  ["鼠"; "牛"; "虎"; "兔"; "龍"; "蛇"; "馬"; "羊"; "猴"; "雞"; "狗"; "豬"].
Definition solarTerm : list string :=
  ["小寒"; "大寒"; "立春"; "雨水"; "驚蟄"; "春分";
   "清明"; "穀雨"; "立夏"; "小滿"; "芒種"; "夏至";
   "小暑"; "大暑"; "立秋"; "處暑"; "白露"; "秋分";
   "寒露"; "霜降"; "立冬"; "小雪"; "大雪"; "冬至"].
Definition monthCn : list string :=
  ["正"; "二"; "三"; "四"; "五"; "六";
   "七"; "八"; "九"; "十"; "十一"; "十二"].
Definition dateCn : list string :=
  ["初一"; "初二"; "初三"; "初四"; "初五"; "初六";
   "初七"; "初八"; "初九"; "初十"; "十一"; "十二";
   "十三"; "十四"; "十五"; "十六"; "十七"; "十八";
   "十九"; "二十"; "廿一"; "廿二"; "廿三"; "廿四";
   "廿五"; "廿六"; "廿七"; "廿八"; "廿九"; "三十"; "卅一"].

Definition termInfo : list Z :=
  [0; 21208; 42467; 63836; 85337; 107014; 128867; 150921;
   173149; 195551; 218072; 240693; 263343; 285989; 308563;
   331033; 353350; 375494; 397447; 419210; 440795; 462224;
   483532; 504758].

(** *** Methods that do not read the table *)

Definition getDaysBetweenSolar (year month day year1 month1 day1 : Z)
  : result Z :=
  let* d0 := Gregorian.date_new year (month + 1) day in
  let* d1 := Gregorian.date_new year1 (month1 + 1) day1 in
  let delta := Gregorian.date_sub d1 d0 in
  Ok (Gregorian.td_days delta).

Definition getTerm (y n : Z) : result Z :=
  let* years := Float.of_int (y - 1890) in
  let prod := Float.mul Float.orbital_period_ms years in
  let* t := py_index termInfo n in
  let* minutes := Float.of_int (t * 60000) in
  let offsetms := Float.add prod minutes in
  let* epoch := Gregorian.date_new 1890 1 5 in
  let* delta := Float.timedelta_milliseconds offsetms in
  let* offDate := Gregorian.datetime_add epoch 16 2 31 delta in
  Ok (Gregorian.d_day offDate).

Definition getYearTerm (year : Z) : result dict :=
  let* '(res, _) :=
    for_each
      (fun '(res, month) i =>
         let* day := getTerm year i in
         if i mod 2 =? 0 then
           let month := month + 1 in
           let* name := py_index solarTerm i in
           Ok (dict_set res (formatDayD4 (month - 1) day) name, month)
         else Ok (res, month))
      (range 24) ([], 0) in
  Ok res.

Definition getYearZodiac (year : Z) : result string :=
  let num := year - 1890 + 25 in
  py_index zodiacTable (num mod 12).

Definition cyclical (num : Z) : result string :=
  let* stem := py_index heavenlyStems (num mod 10) in
  let* branch := py_index earthlyBranches (num mod 12) in
  Ok (stem ++ branch).

Definition getLunarYearName (year offset : Z) : result string :=
  cyclical (year - 1890 + 25 + offset).

Definition getLunarMonthName (year month offset : Z) : result string :=
  cyclical ((year - 1890) * 12 + month + 12 + offset).

Definition getLunarDayName (year month day : Z) : result string :=
  let* d := Gregorian.date_new year (month + 1) day in
  let* td := Gregorian.timedelta_days (29219 + 18) in
  let* d' := Gregorian.date_add d td in
  let* d0 := Gregorian.date_new 1970 1 1 in
  let dayCyclical := Gregorian.date_sub d' d0 in
  cyclical (Gregorian.td_days dayCyclical).

Definition isLeapYear (year : Z) : bool :=
  ((year mod 4 =? 0) && negb (year mod 100 =? 0)) || (year mod 400 =? 0).

Definition getSolarMonthDays (year month : Z) : result Z :=
  py_index [31; if isLeapYear year then 29 else 28;
            31; 30; 31; 30; 31; 31; 30; 31; 30; 31] month.

(** [__formatDate] with all three date arguments given; [_minYear] is the
    optional fourth argument. *)
Definition formatDate (year month day : Z) (_minYear : option Z)
  : outcome (Z * Z * Z) :=
  let month := month - 1 in
  if (year <? (match _minYear with Some m => m | None => minYear + 1 end))
     || (year >? maxYear)
  then ErrorDict 100 "Year out of range"
  else Value (year, month, day).

(** *** Methods that read the table and the cache *)

(** [self.__cache]: solar year -> the term table of that year. *)
Abbreviation cache_t := (gmap Z dict).

Section LunarCalendar.

(** [__lunarInfo]: one row of integers per line of [lunarInfo.csv],
    [[leap month; month of the first lunar day; its day; month lengths]]. *)
Variable lunarInfo : list (list Z).

Definition getLunarLeapYear (year : Z) : result Z :=
  let* yearData := py_index lunarInfo (year - minYear) in
  py_index yearData 0.

Definition getLunarYearDays (year : Z) : result LunarYearDays :=
  let* yearData := py_index lunarInfo (year - minYear) in
  let* leapMonth := py_index yearData 0 in
  let* monthData := py_index yearData 3 in
  let monthDataArr :=
    List.map (fun i => Z.shiftr (Z.land monthData (Z.shiftl 1 i)) i)
             (range_down 15) in
  let numMonthsInYear := if leapMonth =? 0 then 12 else 13 in
  let* '(yearDays, monthDays) :=
    for_each
      (fun '(yearDays, monthDays) i =>
         let* b := py_index monthDataArr i in
         if b =? 0 then Ok (yearDays + 29, (monthDays ++ [29])%list)
         else Ok (yearDays + 30, (monthDays ++ [30])%list))
      (range numMonthsInYear) (0, []) in
  Ok (mkLunarYearDays yearDays monthDays).

(** The loop of [__getLunarDateByBetween] over the remaining indices [idx],
    from the state [(tempDays, month)]; it stops at the [break]. *)
Fixpoint find_month (monthDays : list Z) (end_ : Z) (idx : list Z)
         (tempDays month : Z) : result (Z * Z) :=
  match idx with
  | [] => Ok (tempDays, month)
  | i :: idx' =>
      let* md := py_index monthDays i in
      let tempDays := tempDays + md in
      if tempDays >? end_ then Ok (tempDays - md, i)
      else find_month monthDays end_ idx' tempDays month
  end.

Definition getLunarDateByBetween (year between : Z) : result (Z * Z * Z) :=
  let* lunarYearDays := getLunarYearDays year in
  let end_ :=
    if between >? 0 then between else yearDays lunarYearDays + between in
  let monthDays := monthDays lunarYearDays in
  let* '(tempDays, month) :=
    find_month monthDays end_ (range (py_len monthDays)) 0 0 in
  Ok (year, month, end_ - tempDays + 1).

Definition getLunarByBetween (year month day : Z) : result (Z * Z * Z) :=
  let* yearData := py_index lunarInfo (year - minYear) in
  let* zenMonth := py_index yearData 1 in
  let* zenDay := py_index yearData 2 in
  let* between :=
    getDaysBetweenSolar year (zenMonth - 1) zenDay year month day in
  if between =? 0 then Ok (year, 0, 1)
  else
    let lunarYear := if between >? 0 then year else year - 1 in
    getLunarDateByBetween lunarYear between.

(** The loop of [__getDaysBetweenZheng] over the remaining indices. *)
Fixpoint sum_before (monthDays : list Z) (month : Z) (idx : list Z) (days : Z)
  : result Z :=
  match idx with
  | [] => Ok days
  | i :: idx' =>
      if i <? month then
        let* md := py_index monthDays i in
        sum_before monthDays month idx' (days + md)
      else Ok days
  end.

Definition getDaysBetweenZheng (year month day : Z) : result Z :=
  let* lunarYearDays := getLunarYearDays year in
  let monthDays := monthDays lunarYearDays in
  let* days := sum_before monthDays month (range (py_len monthDays)) 0 in
  Ok (days + day - 1).

Definition lunarToSolar (_year _month _day : Z) : result (outcome SolarInfo) :=
  match formatDate _year _month _day None with
  | ErrorDict code msg => Ok (ErrorDict code msg)
  | Value (year, month, day) =>
      let* between := getDaysBetweenZheng year month day in
      let* yearData := py_index lunarInfo (year - minYear) in
      let* zenMonth := py_index yearData 1 in
      let* zenDay := py_index yearData 2 in
      let* d0 := Gregorian.date_new year zenMonth zenDay in
      let* td := Gregorian.timedelta_days between in
      let* offDate := Gregorian.date_add d0 td in
      Ok (Value (mkSolarInfo (Gregorian.d_year offDate)
                             (Gregorian.d_month offDate)
                             (Gregorian.d_day offDate)))
  end.

(** The [try: termList = self.__cache[year] / except KeyError] block. *)
Definition cachedYearTerm (cache : cache_t) (year : Z)
  : result dict * cache_t :=
  match cache !! year with
  | Some termList => (Ok termList, cache)
  | None =>
      match getYearTerm year with
      | Ok termList => (Ok termList, <[ year := termList ]> cache)
      | Raise e => (Raise e, cache)
      end
  end.

(** [int([k for (k, v) in termList.items() if v == '立春'][0][-1])] *)
Definition parseTerm2 (termList : dict) : result Z :=
  let* term2 :=
    py_index
      (List.map fst
         (List.filter (fun '(k, v) => String.eqb v "立春") termList)) 0 in
  int_of_last_char term2.

(** The body of [solarToLunar] after the term table has been fetched. *)
Definition solarToLunar_body (termList : dict) (year month day : Z)
  : result LunarInfo :=
  let* term2 := parseTerm2 termList in
  let* firstTerm := getTerm year (month * 2) in
  let GanZhiYear :=
    if (month >? 1) || ((month =? 1) && (day >=? term2))
    then year + 1 else year in
  let GanZhiMonth := if day >=? firstTerm then month + 1 else month in
  let* '(ld0, ld1, ld2) := getLunarByBetween year month day in
  let* lunarLeapMonth := getLunarLeapYear ld0 in
  let* lunarMonthName :=
    if (lunarLeapMonth >? 0) && (lunarLeapMonth =? ld1) then
      let* n := py_index monthCn (ld1 - 1) in Ok ("閏" ++ n ++ "月")
    else if (lunarLeapMonth >? 0) && (ld1 >? lunarLeapMonth) then
      let* n := py_index monthCn (ld1 - 1) in Ok (n ++ "月")
    else
      let* n := py_index monthCn ld1 in Ok (n ++ "月") in
  let term := dict_get termList (formatDayD4 month day) in
  let* zodiac := getYearZodiac GanZhiYear in
  let* gzYear := getLunarYearName GanZhiYear 0 in
  let* gzMonth := getLunarMonthName year GanZhiMonth 0 in
  let* gzDay := getLunarDayName year month day in
  let* lunarDayName := py_index dateCn (ld2 - 1) in
  Ok (mkLunarInfo zodiac gzYear gzMonth gzDay term
                  ld0 (ld1 + 1) ld2 lunarMonthName lunarDayName
                  lunarLeapMonth).

Definition solarToLunar (cache : cache_t) (_year _month _day : Z)
  : result (outcome LunarInfo) * cache_t :=
  match formatDate _year _month _day (Some minYear) with
  | ErrorDict code msg => (Ok (ErrorDict code msg), cache)
  | Value (year, month, day) =>
      match cachedYearTerm cache year with
      | (Raise e, cache') => (Raise e, cache')
      | (Ok termList, cache') =>
          (let* r := solarToLunar_body termList year month day in
           Ok (Value r),
           cache')
      end
  end.

End LunarCalendar.


(** ** Definitions used to state the properties *)

(** The exact instant of a solar term, following the specification's words:
    1890-01-05T16:02:31 UTC plus [31556925974.7 * (y - 1890)] milliseconds
    plus [t * 60000] milliseconds, for [t] the term's entry of the minutes
    table.  The unit is the microsecond, counted from the start of the day
    of ordinal 0, so that every quantity is an integer. *)
Definition termInstant (y t : Z) : Z :=
  Gregorian.ymd2ord 1890 1 5 * Gregorian.US_PER_DAY
  + ((16 * 60 + 2) * 60 + 31) * 1000000
  + 31556925974700 * (y - 1890)
  + t * 60000 * 1000.

(** The calendar day-of-month of an instant. *)
Definition dayOfInstant (us : Z) : Z :=
  Gregorian.d_day (Gregorian.fromordinal (us / Gregorian.US_PER_DAY)).

(** [__getTerm] as the specification words it, on exact numbers. *)
Definition termDay_spec (y n : Z) : result Z :=
  let* t := py_index termInfo n in
  Ok (dayOfInstant (termInstant y t)).

(** [__getYearTerm] over the exact term days. *)
Definition yearTerm_spec (year : Z) : result dict :=
  let* '(res, _) :=
    for_each
      (fun '(res, month) i =>
         let* day := termDay_spec year i in
         if i mod 2 =? 0 then
           let month := month + 1 in
           let* name := py_index solarTerm i in
           Ok (dict_set res (formatDayD4 (month - 1) day) name, month)
         else Ok (res, month))
      (range 24) ([], 0) in
  Ok res.

(** The dates that [datetime.date] accepts. *)
Definition valid_date (y m d : Z) : Prop :=
  Gregorian.MINYEAR <= y <= Gregorian.MAXYEAR
  /\ 1 <= m <= 12
  /\ 1 <= d <= Gregorian.days_in_month y m.

(** A solar date inside one year, [(month index, day)], and the calendar
    order on such dates. *)
Definition solar_le (a b : Z * Z) : Prop :=
  fst a < fst b \/ (fst a = fst b /\ snd a <= snd b).

(** The [i]-th term of a year with its month anchor [i // 2]. *)
Definition termDate (year i : Z) : result (Z * Z) :=
  let* day := getTerm year i in
  Ok (i / 2, day).

(** The length of the lunar month of index [k], from its bit of the mask:
    the most significant of the sixteen bits is month 0. *)
Definition monthLength (monthData k : Z) : Z :=
  if Z.testbit monthData (15 - k) then 30 else 29.

(** A record of the table for the year [y]: four fields, a leap month index
    in [0, 12], and a first lunar day that is a date of [y]. *)
Definition row_ok (y : Z) (row : list Z) : bool :=
  match row with
  | [leap; zenMonth; zenDay; _] =>
      (0 <=? leap) && (leap <=? 12)
      && is_ok (Gregorian.date_new y zenMonth zenDay)
  | _ => false
  end.

(** A table with one such record per year from [minYear] to [maxYear]. *)
Definition table_ok (t : list (list Z)) : bool :=
  (py_len t =? maxYear - minYear + 1)
  && forallb
       (fun k => match py_index t k with
                 | Ok row => row_ok (minYear + k) row
                 | Raise _ => false
                 end)
       (range (maxYear - minYear + 1)).

(** The states of [self.__cache] that the class can reach: it starts empty
    and only [solarToLunar] stores into it. *)
Definition cache_ok (cache : cache_t) : Prop :=
  forall (y : Z) (termList : dict),
    cache !! y = Some termList -> getYearTerm y = Ok termList.

(** The lunar date [(year, month index, day)] that a successful
    [solarToLunar] reports. *)
Definition lunarDateOf (r : LunarInfo) : Z * Z * Z :=
  (lunarYear r, lunarMonth r - 1, lunarDay r).

(** ** A table to run the definitions on

    [lunarInfo.csv] holds 211 records.  The table below has the same shape:
    the records of 1890, 1891 and 1892 (new year on 21 January 1890 with a
    leap second month, on 9 February 1891, on 30 January 1892 with a leap
    sixth month), followed by records made up by [records]: months of 30 and
    29 days in turn, a thirteenth month whenever twelve would bring the next
    new year before 21 January, and every new year on the day after the
    previous lunar year ends. *)
Module Sample.

Fixpoint records (n : nat) (y first : Z) : list (list Z) :=
  match n with
  | O => []
  | S n' =>
      let '(_, m, d) := Gregorian.ord2ymd first in
      let leap := first + 354 <? Gregorian.ymd2ord (y + 1) 1 21 in
      (if leap then [6; m; d; 43688] else [0; m; d; 43680])
        :: records n' (y + 1) (first + (if leap then 384 else 354))
  end.

Definition lunarInfo : list (list Z) :=
  [2; 1; 21; 22184] :: [0; 2; 9; 21936] :: [6; 1; 30; 9656]
    :: records 208 1893 (Gregorian.ymd2ord 1893 2 17).

End Sample.


(** ** Checks over the supported years

    Properties of the 211 supported years and their 24 terms that are
    decided by running the definitions. *)

Definition all_years (p : Z -> bool) : bool :=
  List.forallb (fun k => p (minYear + k)) (range (maxYear - minYear + 1)).

Definition result_eqb (a b : result Z) : bool :=
  match a, b with
  | Ok x, Ok y => x =? y
  | _, _ => false
  end.

(** [__getTerm] and the exact term day agree on the 24 terms of [y]. *)
Definition check_getTerm (y : Z) : bool :=
  List.forallb (fun n => result_eqb (getTerm y n) (termDay_spec y n))
               (range 24).

(** A test of two results that both returned. *)
Definition on_ok2 {A B : Type} (a : result A) (b : result B)
           (f : A -> B -> bool) : bool :=
  match a, b with
  | Ok x, Ok y => f x y
  | _, _ => false
  end.

(** In each pair of terms of [y], the first falls no later in the month. *)
Definition check_termOrder (y : Z) : bool :=
  List.forallb
    (fun k => on_ok2 (termDay_spec y (2 * k)) (termDay_spec y (2 * k + 1))
                     Z.leb)
    (range 12).

(** The term table of [y] exists, the digit parsed from its start-of-spring
    key is the last digit of that term's day, and the day is between 1 and
    9. *)
Definition check_term2 (y : Z) : bool :=
  on_ok2 (yearTerm_spec y) (termDay_spec y 2)
         (fun termList d =>
            result_eqb (parseTerm2 termList) (Ok (d mod 10))
            && (1 <=? d) && (d <? 10)).

(** ** Consistency of the table

    The ordinal of the first day of the lunar year of a record, and the
    ordinal of the day after its last day. *)
Definition lunarYearStart (t : list (list Z)) (y : Z) : result Z :=
  let* yearData := py_index t (y - minYear) in
  let* zenMonth := py_index yearData 1 in
  let* zenDay := py_index yearData 2 in
  Ok (Gregorian.ymd2ord y zenMonth zenDay).

Definition lunarYearEnd (t : list (list Z)) (y : Z) : result Z :=
  let* start := lunarYearStart t y in
  let* r := getLunarYearDays t y in
  Ok (start + yearDays r).

(** Each lunar year ends where the next record starts, and the last one
    ends after the last solar year does. *)
Definition table_consistent (t : list (list Z)) : bool :=
  List.forallb
    (fun k => on_ok2 (lunarYearEnd t (minYear + k))
                     (lunarYearStart t (minYear + k + 1)) Z.eqb)
    (range (maxYear - minYear))
  && on_ok2 (lunarYearEnd t maxYear) (Ok (Gregorian.ymd2ord maxYear 12 31))
            Z.gtb.

(** The names of the sixty positions of the cycle differ from one
    another. *)
Definition cyclical_distinct : bool :=
  List.forallb
    (fun i =>
       List.forallb
         (fun j => (i =? j) || negb (on_ok2 (cyclical i) (cyclical j) String.eqb))
         (range 60))
    (range 60).

(** The month index and the day that the key [dMMDD] of a term table stands
    for. *)
Definition parseDayD4 (key : string) : option (Z * Z) :=
  match key with
  | String _ (String a (String b (String c (String e EmptyString)))) =>
      let digit := fun x : ascii => Z.of_nat (nat_of_ascii x) - 48 in
      Some (digit a * 10 + digit b - 1, digit c * 10 + digit e)
  | _ => None
  end.

(** The keys of the twelve months and the days 1 to 31 are read back. *)
Definition check_formatDayD4 : bool :=
  List.forallb
    (fun m =>
       List.forallb
         (fun d =>
            match parseDayD4 (formatDayD4 m (d + 1)) with
            | Some (m', d') => (m' =? m) && (d' =? d + 1)
            | None => false
            end)
         (range 31))
    (range 12).

(** The day of the term [i] of a year, 0 if [__getTerm] raises. *)
Definition termDayOf (year i : Z) : Z :=
  match getTerm year i with
  | Ok day => day
  | Raise _ => 0
  end.
(** * Properties *)

(** ** The error monad, ranges and indexing *)

Lemma rbind_ok {A B : Type} (c : result A) (k : A -> result B) (b : B) :
  rbind c k = Ok b -> exists a, c = Ok a /\ k a = Ok b.
Proof.
  destruct c as [a|e]; simpl; intros H; [eauto | discriminate].
Qed.

Lemma rbind_raise {A B : Type} (c : result A) (k : A -> result B) :
  (forall a, exists e, k a = Raise e) -> exists e, rbind c k = Raise e.
Proof.
  intros H. destruct c as [a|e]; simpl; eauto.
Qed.

Ltac inv_bind H :=
  let a := fresh "a" in
  let Ha := fresh "Ha" in
  apply rbind_ok in H; destruct H as (a & Ha & H).

Lemma in_range (n k : Z) : List.In k (range n) <-> 0 <= k < n.
Proof.
  unfold range. rewrite List.in_map_iff. split.
  - intros (i & <- & Hi). apply List.in_seq in Hi. lia.
  - intros Hk. exists (Z.to_nat k). split; [lia|].
    apply List.in_seq. lia.
Qed.

Lemma forallb_range (f : Z -> bool) (n : Z) :
  List.forallb f (range n) = true -> forall k, 0 <= k < n -> f k = true.
Proof.
  intros H k Hk. rewrite List.forallb_forall in H. apply H, in_range, Hk.
Qed.

Lemma range_succ (n : Z) :
  0 <= n -> range (n + 1) = (range n ++ [n])%list.
Proof.
  intros Hn. unfold range.
  replace (Z.to_nat (n + 1)) with (Z.to_nat n + 1)%nat by lia.
  rewrite List.seq_app, List.map_app. simpl.
  now rewrite Z2Nat.id by lia.
Qed.

Lemma py_index_nth {A : Type} (l : list A) (i : Z) (d : A) :
  0 <= i < py_len l -> py_index l i = Ok (List.nth (Z.to_nat i) l d).
Proof.
  intros Hi. unfold py_index.
  destruct (Z.ltb_spec i 0); [lia|].
  destruct (Z.leb_spec 0 i); [|lia].
  destruct (Z.ltb_spec i (py_len l)); [|lia]. simpl.
  destruct (List.nth_error l (Z.to_nat i)) eqn:E.
  - now rewrite (List.nth_error_nth _ _ _ E).
  - apply List.nth_error_None in E. unfold py_len in Hi. lia.
Qed.

Lemma py_index_ok_inv {A : Type} (l : list A) (i : Z) (a : A) :
  py_index l i = Ok a ->
  - py_len l <= i < py_len l
  /\ List.nth_error l (Z.to_nat (if i <? 0 then i + py_len l else i)) = Some a.
Proof.
  unfold py_index. intros H.
  set (j := if i <? 0 then i + py_len l else i) in *.
  destruct (Z.leb_spec 0 j), (Z.ltb_spec j (py_len l));
    simpl in H; try discriminate.
  destruct (List.nth_error l (Z.to_nat j)) eqn:E; [|discriminate].
  injection H as ->. split; [|reflexivity].
  subst j. destruct (Z.ltb_spec i 0); lia.
Qed.

(** A negative index reads from the end: position [-1] is the last one. *)
Lemma py_index_neg {A : Type} (l : list A) (i : Z) :
  - py_len l <= i < 0 -> py_index l i = py_index l (i + py_len l).
Proof.
  intros Hi. unfold py_index.
  destruct (Z.ltb_spec i 0); [|lia].
  destruct (Z.ltb_spec (i + py_len l) 0); [lia|]. reflexivity.
Qed.

Lemma py_sum_app (l1 l2 : list Z) :
  py_sum (l1 ++ l2) = py_sum l1 + py_sum l2.
Proof.
  unfold py_sum. induction l1 as [|x l1 IH]; simpl; [reflexivity|].
  rewrite IH. lia.
Qed.

Lemma py_sum_cons (x : Z) (l : list Z) : py_sum (x :: l) = x + py_sum l.
Proof. reflexivity. Qed.

Lemma for_each_ext {A S : Type} (f g : S -> A -> result S) (xs : list A) :
  (forall s x, List.In x xs -> f s x = g s x) ->
  forall s, for_each f xs s = for_each g xs s.
Proof.
  induction xs as [|x xs IH]; intros H s; simpl; [reflexivity|].
  rewrite H by (left; reflexivity).
  destruct (g s x) as [s'|e]; simpl; [|reflexivity].
  apply IH. intros s0 x0 Hx. apply H. right. exact Hx.
Qed.

(** ** Decoding the month lengths *)

Lemma bit_extract (a i : Z) :
  0 <= i -> Z.shiftr (Z.land a (Z.shiftl 1 i)) i = Z.b2z (Z.testbit a i).
Proof.
  intros Hi. apply Z.bits_inj'. intros n Hn.
  rewrite Z.shiftr_spec, Z.land_spec, Z.shiftl_spec by lia.
  replace (n + i - i) with n by lia.
  assert (H1 : forall b : bool, Z.testbit (Z.b2z b) n = b && (n =? 0)).
  { intros b. destruct (Z.eqb_spec n 0) as [->|Hn0].
    - rewrite Z.b2z_bit0. now destruct b.
    - destruct b; simpl Z.b2z.
      + rewrite Z.bits_above_log2 by (try change (Z.log2 1) with 0; lia). reflexivity.
      + rewrite Z.bits_0. reflexivity. }
  rewrite H1. specialize (H1 true). simpl in H1. rewrite H1.
  destruct (Z.eqb_spec n 0) as [->|Hn0].
  - rewrite Z.add_0_l. reflexivity.
  - now rewrite !Bool.andb_false_r.
Qed.

(** [monthDataArr[k]] is bit [15 - k] of the mask. *)
Lemma monthDataArr_index (monthData k : Z) :
  0 <= k <= 15 ->
  py_index
    (List.map (fun i => Z.shiftr (Z.land monthData (Z.shiftl 1 i)) i)
              (range_down 15)) k
  = Ok (Z.b2z (Z.testbit monthData (15 - k))).
Proof.
  intros Hk.
  set (f := fun i => Z.shiftr (Z.land monthData (Z.shiftl 1 i)) i).
  assert (Hlen : py_len (List.map f (range_down 15)) = 16).
  { unfold py_len. rewrite List.length_map. reflexivity. }
  rewrite (py_index_nth _ _ (f 0)) by lia.
  rewrite List.map_nth. unfold f. rewrite bit_extract.
  - do 3 f_equal.
    assert (E : k = 0 \/ k = 1 \/ k = 2 \/ k = 3 \/ k = 4 \/ k = 5 \/ k = 6
                \/ k = 7 \/ k = 8 \/ k = 9 \/ k = 10 \/ k = 11 \/ k = 12
                \/ k = 13 \/ k = 14 \/ k = 15) by lia.
    repeat (destruct E as [->|E]); try subst k; reflexivity.
  - assert (E : List.In (List.nth (Z.to_nat k) (range_down 15) 0)
                        (range_down 15)).
    { apply List.nth_In. unfold range_down. rewrite List.length_rev.
      unfold range. rewrite List.length_map, List.length_seq. lia. }
    unfold range_down in *. apply List.in_rev in E.
    apply in_range in E. lia.
Qed.

(** The second loop of [__getLunarYearDays], from any state. *)
Lemma monthDays_loop (monthData : Z) (idx : list Z) (acc : Z) (l : list Z) :
  (forall i, List.In i idx -> 0 <= i <= 15) ->
  for_each
    (fun '(yearDays, monthDays) i =>
       let* b :=
         py_index
           (List.map (fun i => Z.shiftr (Z.land monthData (Z.shiftl 1 i)) i)
                     (range_down 15)) i in
       if b =? 0 then Ok (yearDays + 29, (monthDays ++ [29])%list)
       else Ok (yearDays + 30, (monthDays ++ [30])%list))
    idx (acc, l)
  = Ok (acc + py_sum (List.map (monthLength monthData) idx),
        (l ++ List.map (monthLength monthData) idx)%list).
Proof.
  revert acc l. induction idx as [|i idx IH]; intros acc l Hidx.
  - simpl. now rewrite Z.add_0_r, List.app_nil_r.
  - cbn [for_each]. rewrite monthDataArr_index by (apply Hidx; now left).
    cbn [rbind List.map].
    assert (Hml :
      (if Z.b2z (Z.testbit monthData (15 - i)) =? 0
       then Ok (acc + 29, (l ++ [29])%list)
       else Ok (acc + 30, (l ++ [30])%list))
      = Ok (acc + monthLength monthData i,
            (l ++ [monthLength monthData i])%list)).
    { unfold monthLength.
      destruct (Z.testbit monthData (15 - i)); reflexivity. }
    rewrite Hml. cbn [rbind].
    rewrite IH by (intros; apply Hidx; now right).
    rewrite py_sum_cons, <- List.app_assoc. cbn [List.app].
    f_equal. f_equal. lia.
Qed.

Lemma py_len_range (n : Z) : 0 <= n -> py_len (range n) = n.
Proof.
  intros Hn. unfold py_len, range.
  rewrite List.length_map, List.length_seq. lia.
Qed.

Lemma nth_range (n k : Z) :
  0 <= k < n -> List.nth (Z.to_nat k) (range n) 0 = k.
Proof.
  intros Hk. unfold range.
  change 0 with (Z.of_nat 0) at 1. rewrite List.map_nth.
  rewrite List.seq_nth by lia. lia.
Qed.

Lemma py_index_map_range {A : Type} (f : Z -> A) (n k : Z) :
  0 <= k < n -> py_index (List.map f (range n)) k = Ok (f k).
Proof.
  intros Hk.
  rewrite (py_index_nth _ _ (f 0)).
  - now rewrite List.map_nth, nth_range.
  - unfold py_len. rewrite List.length_map.
    fold (py_len (range n)). rewrite py_len_range; lia.
Qed.

(** The month lengths of a year whose record has the leap month index
    [leapMonth] and the mask [monthData]. *)
Lemma getLunarYearDays_eq (lunarInfo : list (list Z)) (year : Z)
      (yearData : list Z) (leapMonth monthData : Z) :
  py_index lunarInfo (year - minYear) = Ok yearData ->
  py_index yearData 0 = Ok leapMonth ->
  py_index yearData 3 = Ok monthData ->
  getLunarYearDays lunarInfo year
  = Ok (mkLunarYearDays
          (py_sum (List.map (monthLength monthData)
                            (range (if leapMonth =? 0 then 12 else 13))))
          (List.map (monthLength monthData)
                    (range (if leapMonth =? 0 then 12 else 13)))).
Proof.
  intros Hrow Hleap Hbits. unfold getLunarYearDays.
  rewrite Hrow. cbn [rbind]. rewrite Hleap. cbn [rbind].
  rewrite Hbits. cbn [rbind].
  rewrite monthDays_loop.
  - reflexivity.
  - intros i Hi. apply in_range in Hi.
    destruct (leapMonth =? 0); lia.
Qed.

(** The month lengths that [__getLunarYearDays] returns for a record. *)
Lemma getLunarYearDays_decode (lunarInfo : list (list Z)) (year : Z)
        (yearData : list Z) (leapMonth monthData : Z) :
  py_index lunarInfo (year - minYear) = Ok yearData ->
  py_index yearData 0 = Ok leapMonth ->
  py_index yearData 3 = Ok monthData ->
  exists r : LunarYearDays,
    getLunarYearDays lunarInfo year = Ok r
    /\ py_len (monthDays r) = (if leapMonth =? 0 then 12 else 13)
    /\ (forall k : Z,
          0 <= k < py_len (monthDays r) ->
          py_index (monthDays r) k
          = Ok (if Z.testbit monthData (15 - k) then 30 else 29))
    /\ (forall x : Z, List.In x (monthDays r) -> x = 29 \/ x = 30)
    /\ yearDays r = py_sum (monthDays r).
Proof.
  intros Hrow Hleap Hbits.
  eexists. split; [apply (getLunarYearDays_eq _ _ _ _ _ Hrow Hleap Hbits)|].
  cbn [monthDays yearDays].
  assert (Hlen : py_len (List.map (monthLength monthData)
                           (range (if leapMonth =? 0 then 12 else 13)))
                 = (if leapMonth =? 0 then 12 else 13)).
  { unfold py_len. rewrite List.length_map.
    fold (py_len (range (if leapMonth =? 0 then 12 else 13))).
    apply py_len_range. destruct (leapMonth =? 0); lia. }
  repeat split.
  - exact Hlen.
  - intros k Hk. rewrite Hlen in Hk. now apply py_index_map_range.
  - intros x Hx. apply List.in_map_iff in Hx. destruct Hx as (k & <- & _).
    unfold monthLength. destruct (Z.testbit monthData (15 - k)); auto.
Qed.

(** C3 (table decoding).  For every year whose record the table holds,
    [__getLunarYearDays] succeeds; [monthDays] has 12 entries when the
    record's leap month is 0 and 13 otherwise; the entry of index [k] is 30
    when bit [15 - k] of the 16-bit mask is set and 29 when it is clear (the
    most significant bit comes first); and [yearDays] is the sum of the
    entries. *)
Theorem C3_table_decoding (lunarInfo : list (list Z)) (year : Z)
        (yearData : list Z) (leapMonth monthData : Z) :
  py_index lunarInfo (year - minYear) = Ok yearData ->
  py_index yearData 0 = Ok leapMonth ->
  py_index yearData 3 = Ok monthData ->
  exists r : LunarYearDays,
    getLunarYearDays lunarInfo year = Ok r
    /\ py_len (monthDays r) = (if leapMonth =? 0 then 12 else 13)
    /\ (forall k : Z,
          0 <= k < py_len (monthDays r) ->
          py_index (monthDays r) k
          = Ok (if Z.testbit monthData (15 - k) then 30 else 29))
    /\ (forall x : Z, List.In x (monthDays r) -> x = 29 \/ x = 30)
    /\ yearDays r = py_sum (monthDays r).
Proof.
  exact (getLunarYearDays_decode lunarInfo year yearData leapMonth monthData).
Qed.

(** The theorem at the record of 1891 of the sample table. *)
Lemma C3_table_decoding_witness :
  exists r : LunarYearDays,
    getLunarYearDays Sample.lunarInfo 1891 = Ok r
    /\ py_len (monthDays r) = (if 0 =? 0 then 12 else 13)
    /\ (forall k : Z,
          0 <= k < py_len (monthDays r) ->
          py_index (monthDays r) k
          = Ok (if Z.testbit 21936 (15 - k) then 30 else 29))
    /\ (forall x : Z, List.In x (monthDays r) -> x = 29 \/ x = 30)
    /\ yearDays r = py_sum (monthDays r).
Proof.
  apply (C3_table_decoding Sample.lunarInfo 1891 [0; 2; 9; 21936] 0 21936);
    reflexivity.
Defined.

(** ** Offsets inside a lunar year *)

Section Prefix.

Variable l : list Z.
Hypothesis Hpos : forall x, List.In x l -> 0 < x.

(** The days before the month of index [i]. *)
Local Abbreviation prefix i := (py_sum (List.firstn i l)).

Lemma prefix_S (s : nat) :
  (s < List.length l)%nat ->
  prefix (S s) = prefix s + List.nth s l 0.
Proof using Type.
  clear Hpos. revert s. induction l as [|x l' IH]; intros s Hs.
  - simpl in Hs. lia.
  - destruct s as [|s].
    + simpl. unfold py_sum. simpl. lia.
    + simpl in Hs. specialize (IH s ltac:(lia)).
      change (py_sum (x :: List.firstn (S s) l')
              = py_sum (x :: List.firstn s l') + List.nth s l' 0).
      rewrite !py_sum_cons. lia.
Qed.

Lemma nth_pos (s : nat) : (s < List.length l)%nat -> 0 < List.nth s l 0.
Proof using Hpos.
  intros Hs. apply Hpos. now apply List.nth_In.
Qed.

Lemma prefix_le (i j : nat) : (i <= j)%nat -> prefix i <= prefix j.
Proof using Hpos.
  intros Hij. induction Hij as [|j Hij IH]; [lia|].
  destruct (Nat.lt_ge_cases j (List.length l)) as [Hj|Hj].
  - rewrite prefix_S by exact Hj. pose proof (nth_pos j Hj). lia.
  - rewrite (List.firstn_all2 (n := S j)) by lia.
    rewrite (List.firstn_all2 (n := j)) in IH by lia. exact IH.
Qed.

Lemma prefix_lt (i j : nat) :
  (i < j <= List.length l)%nat -> prefix i < prefix j.
Proof using Hpos.
  intros [Hij Hj].
  pose proof (prefix_le (S i) j Hij) as H.
  rewrite prefix_S in H by lia. pose proof (nth_pos i ltac:(lia)). lia.
Qed.

Lemma prefix_all : prefix (List.length l) = py_sum l.
Proof using Type. now rewrite List.firstn_all. Qed.

Lemma prefix_0 : prefix 0 = 0.
Proof using Type. reflexivity. Qed.

(** The loop of [__getLunarDateByBetween], entered at the index [s] with
    the days before it in [tempDays] and not beyond [end_]: it stops at
    the month that holds the offset [end_], or runs through when the
    offset is past the year. *)
Lemma find_month_from (end_ : Z) (len s : nat) (mo : Z) :
  (s + len = List.length l)%nat ->
  prefix s <= end_ ->
  (exists j : nat,
      (s <= j < List.length l)%nat
      /\ prefix j <= end_ < prefix (S j)
      /\ find_month l end_ (List.map Z.of_nat (List.seq s len)) (prefix s) mo
         = Ok (prefix j, Z.of_nat j))
  \/ (py_sum l <= end_
      /\ find_month l end_ (List.map Z.of_nat (List.seq s len)) (prefix s) mo
         = Ok (py_sum l, mo)).
Proof using Hpos.
  revert s. induction len as [|len IH]; intros s Hlen Hs.
  - right. rewrite Nat.add_0_r in Hlen. subst s.
    rewrite prefix_all in *. split; [exact Hs | reflexivity].
  - cbn [List.seq List.map find_month].
    rewrite (py_index_nth _ _ 0) by (unfold py_len; lia).
    cbn [rbind]. rewrite Nat2Z.id, <- prefix_S by lia.
    destruct (Z.gtb_spec (prefix (S s)) end_) as [Hgt|Hle].
    + left. exists s. split; [lia|]. split; [lia|].
      rewrite (prefix_S s) by lia. do 2 f_equal. lia.
    + destruct (IH (S s) ltac:(lia) Hle) as [(j & Hj & Hb & E)|[Hb E]].
      * left. exists j. split; [lia|]. split; [exact Hb | exact E].
      * right. split; [exact Hb | exact E].
Qed.

(** The loop of [__getDaysBetweenZheng] adds the lengths of the months
    before [month]. *)
Lemma sum_before_from (month : Z) (len s : nat) :
  (s + len = List.length l)%nat ->
  sum_before l month (List.map Z.of_nat (List.seq s len)) (prefix s)
  = Ok (prefix (Nat.max s (Z.to_nat month))).
Proof using Type.
  clear Hpos. revert s. induction len as [|len IH]; intros s Hlen.
  - cbn [List.seq List.map sum_before]. rewrite Nat.add_0_r in Hlen.
    subst s. rewrite (List.firstn_all2 (n := Nat.max _ _)) by lia.
    now rewrite List.firstn_all.
  - cbn [List.seq List.map sum_before].
    destruct (Z.ltb_spec (Z.of_nat s) month) as [Hlt|Hge].
    + rewrite (py_index_nth _ _ 0) by (unfold py_len; lia).
      cbn [rbind]. rewrite Nat2Z.id, <- prefix_S by lia.
      rewrite (IH (S s)) by lia. do 2 f_equal. f_equal. lia.
    + do 2 f_equal. f_equal. lia.
Qed.

End Prefix.

Lemma getLunarYearDays_inv (lunarInfo : list (list Z)) (year : Z)
      (r : LunarYearDays) :
  getLunarYearDays lunarInfo year = Ok r ->
  exists (yearData : list Z) (leapMonth monthData : Z),
    py_index lunarInfo (year - minYear) = Ok yearData
    /\ py_index yearData 0 = Ok leapMonth
    /\ py_index yearData 3 = Ok monthData
    /\ r = mkLunarYearDays
             (py_sum (List.map (monthLength monthData)
                               (range (if leapMonth =? 0 then 12 else 13))))
             (List.map (monthLength monthData)
                       (range (if leapMonth =? 0 then 12 else 13))).
Proof.
  intros H. pose proof H as H'. unfold getLunarYearDays in H'.
  apply rbind_ok in H'. destruct H' as (yearData & Hrow & H').
  apply rbind_ok in H'. destruct H' as (leapMonth & Hleap & H').
  apply rbind_ok in H'. destruct H' as (monthData & Hbits & _).
  exists yearData, leapMonth, monthData. repeat split; try assumption.
  rewrite (getLunarYearDays_eq _ _ _ _ _ Hrow Hleap Hbits) in H.
  now injection H.
Qed.

(** What every successful [__getLunarYearDays] returns. *)
Lemma getLunarYearDays_shape (lunarInfo : list (list Z)) (year : Z)
      (r : LunarYearDays) :
  getLunarYearDays lunarInfo year = Ok r ->
  yearDays r = py_sum (monthDays r)
  /\ (forall x, List.In x (monthDays r) -> x = 29 \/ x = 30)
  /\ (List.length (monthDays r) = 12 \/ List.length (monthDays r) = 13)%nat.
Proof.
  intros H. apply getLunarYearDays_inv in H.
  destruct H as (yearData & leapMonth & monthData & _ & _ & _ & ->).
  cbn [yearDays monthDays]. repeat split.
  - intros x Hx. apply List.in_map_iff in Hx. destruct Hx as (k & <- & _).
    unfold monthLength. destruct (Z.testbit monthData (15 - k)); auto.
  - rewrite List.length_map. destruct (leapMonth =? 0); [left|right];
      reflexivity.
Qed.

Lemma range_py_len {A : Type} (l : list A) :
  range (py_len l) = List.map Z.of_nat (List.seq 0 (List.length l)).
Proof.
  unfold range, py_len. now rewrite Nat2Z.id.
Qed.

Lemma getDaysBetweenZheng_eq (lunarInfo : list (list Z)) (year : Z)
      (r : LunarYearDays) (month day : Z) :
  getLunarYearDays lunarInfo year = Ok r ->
  getDaysBetweenZheng lunarInfo year month day
  = Ok (py_sum (List.firstn (Z.to_nat month) (monthDays r)) + day - 1).
Proof.
  intros Hr. unfold getDaysBetweenZheng. rewrite Hr. cbn [rbind].
  rewrite range_py_len.
  pose proof (sum_before_from (monthDays r) month
                (List.length (monthDays r)) 0 eq_refl) as H.
  change (py_sum (List.firstn 0 (monthDays r))) with 0 in H.
  rewrite H. cbn [rbind]. now rewrite Nat.max_0_l.
Qed.

(** [__getLunarDateByBetween] undoes [__getDaysBetweenZheng] on the days of
    a month. *)
Lemma offset_inverse (lunarInfo : list (list Z)) (year : Z)
        (r : LunarYearDays) (m d md : Z) :
  getLunarYearDays lunarInfo year = Ok r ->
  0 <= m ->
  py_index (monthDays r) m = Ok md ->
  1 <= d <= md ->
  getDaysBetweenZheng lunarInfo year m d
  = Ok (py_sum (List.firstn (Z.to_nat m) (monthDays r)) + d - 1)
  /\ getLunarDateByBetween lunarInfo year
       (py_sum (List.firstn (Z.to_nat m) (monthDays r)) + d - 1)
     = Ok (year, m, d).
Proof.
  intros Hr Hm Hmd Hd. split; [now apply getDaysBetweenZheng_eq|].
  destruct (getLunarYearDays_shape _ _ _ Hr) as (Hsum & Hval & _).
  set (l := monthDays r) in *.
  assert (Hpos : forall x, List.In x l -> 0 < x).
  { intros x Hx. destruct (Hval x Hx); lia. }
  apply py_index_ok_inv in Hmd. destruct Hmd as [Hlen Hnth].
  destruct (Z.ltb_spec m 0) as [?|_]; [lia|].
  assert (Hml : (Z.to_nat m < List.length l)%nat)
    by (unfold py_len in Hlen; lia).
  assert (HS : py_sum (List.firstn (S (Z.to_nat m)) l)
               = py_sum (List.firstn (Z.to_nat m) l) + md).
  { rewrite prefix_S by exact Hml.
    now rewrite (List.nth_error_nth _ _ 0 Hnth). }
  pose proof (prefix_le l Hpos 0 (Z.to_nat m) ltac:(lia)) as H0.
  pose proof (prefix_le l Hpos (S (Z.to_nat m)) (List.length l) ltac:(lia))
    as Hall.
  rewrite prefix_all in Hall. change (py_sum (List.firstn 0 l)) with 0 in H0.
  set (off := py_sum (List.firstn (Z.to_nat m) l) + d - 1) in *.
  unfold getLunarDateByBetween. rewrite Hr. cbn [rbind]. fold l.
  rewrite Hsum. fold l. rewrite range_py_len.
  destruct (Z.gtb_spec off 0) as [Hoff|Hoff].
  - destruct (find_month_from l Hpos off (List.length l) 0 0 eq_refl)
      as [(j & Hj & Hb & E)|[Hb E]].
    + change (py_sum (List.firstn 0 l)) with 0. lia.
    + change (py_sum (List.firstn 0 l)) with 0 in E. rewrite E.
      cbn [rbind].
      assert (j = Z.to_nat m).
      { destruct (Nat.lt_trichotomy j (Z.to_nat m)) as [Hlt|[Heq|Hgt]].
        - pose proof (prefix_le l Hpos (S j) (Z.to_nat m) ltac:(lia)). lia.
        - exact Heq.
        - pose proof (prefix_le l Hpos (S (Z.to_nat m)) j ltac:(lia)). lia. }
      subst j. do 2 f_equal; [f_equal|]; lia.
    + lia.
  - assert (Hm0 : Z.to_nat m = 0%nat).
    { destruct (Z.to_nat m) as [|k] eqn:Ek; [reflexivity|].
      pose proof (prefix_lt l Hpos 0 (S k) ltac:(lia)) as Hlt.
      change (py_sum (List.firstn 0 l)) with 0 in Hlt. lia. }
    assert (off = 0) by lia.
    destruct (find_month_from l Hpos (py_sum l + off) (List.length l) 0 0
                eq_refl) as [(j & Hj & Hb & E)|[Hb E]].
    + change (py_sum (List.firstn 0 l)) with 0. lia.
    + pose proof (prefix_le l Hpos (S j) (List.length l) ltac:(lia)) as Hc.
      rewrite prefix_all in Hc. lia.
    + change (py_sum (List.firstn 0 l)) with 0 in E. rewrite E.
      cbn [rbind]. do 2 f_equal; [f_equal|]; lia.
Qed.

(** C4 (offset inverse).  In a year whose month lengths [__getLunarYearDays]
    returns, for a month index [m] that has an entry [md] in [monthDays] and
    a day [d] with [1 <= d <= md]: [__getDaysBetweenZheng] is the sum of the
    entries before [m] plus [d - 1], and [__getLunarDateByBetween] maps that
    offset back to [[year, m, d]]. *)
Theorem C4_offset_inverse (lunarInfo : list (list Z)) (year : Z)
        (r : LunarYearDays) (m d md : Z) :
  getLunarYearDays lunarInfo year = Ok r ->
  0 <= m ->
  py_index (monthDays r) m = Ok md ->
  1 <= d <= md ->
  getDaysBetweenZheng lunarInfo year m d
  = Ok (py_sum (List.firstn (Z.to_nat m) (monthDays r)) + d - 1)
  /\ getLunarDateByBetween lunarInfo year
       (py_sum (List.firstn (Z.to_nat m) (monthDays r)) + d - 1)
     = Ok (year, m, d).
Proof.
  exact (offset_inverse lunarInfo year r m d md).
Qed.

(** The theorem at the fifth day of the third month of the sample's 1891. *)
Lemma C4_offset_inverse_witness :
  getDaysBetweenZheng Sample.lunarInfo 1891 2 5 = Ok (29 + 30 + 5 - 1)
  /\ getLunarDateByBetween Sample.lunarInfo 1891 (29 + 30 + 5 - 1)
     = Ok (1891, 2, 5).
Proof.
  apply (C4_offset_inverse Sample.lunarInfo 1891
           (mkLunarYearDays 355 [29; 30; 29; 30; 29; 30; 29; 30; 30; 29; 30; 30])
           2 5 29).
  - reflexivity.
  - lia.
  - reflexivity.
  - lia.
Defined.

(** ** The solar terms of the supported years *)

Lemma all_years_spec (p : Z -> bool) :
  all_years p = true -> forall y, minYear <= y <= maxYear -> p y = true.
Proof.
  intros H y Hy. unfold all_years in H.
  pose proof (forallb_range _ _ H (y - minYear)) as Hk. cbv beta in Hk.
  replace (minYear + (y - minYear)) with y in Hk by lia.
  apply Hk. lia.
Qed.

Lemma result_eqb_eq (a b : result Z) : result_eqb a b = true -> a = b.
Proof.
  destruct a as [x|], b as [y|]; simpl; try discriminate.
  intros H. apply Z.eqb_eq in H. now subst.
Qed.

Lemma on_ok2_true {A B : Type} (a : result A) (b : result B)
      (f : A -> B -> bool) :
  on_ok2 a b f = true -> exists x y, a = Ok x /\ b = Ok y /\ f x y = true.
Proof.
  destruct a as [x|]; [|discriminate]. destruct b as [y|]; [|discriminate].
  intros H. exists x, y. auto.
Qed.

Lemma check_getTerm_all : all_years check_getTerm = true.
Proof. vm_compute. reflexivity. Qed.

Lemma check_termOrder_all : all_years check_termOrder = true.
Proof. vm_compute. reflexivity. Qed.

Lemma check_term2_all : all_years check_term2 = true.
Proof. vm_compute. reflexivity. Qed.

Lemma check_getTerm_inv (y n : Z) :
  check_getTerm y = true -> 0 <= n < 24 -> getTerm y n = termDay_spec y n.
Proof.
  unfold check_getTerm. intros H Hn.
  apply result_eqb_eq. apply (forallb_range _ _ H n Hn).
Qed.

Lemma check_termOrder_inv (y k : Z) :
  check_termOrder y = true ->
  0 <= k < 12 ->
  exists a b,
    termDay_spec y (2 * k) = Ok a /\ termDay_spec y (2 * k + 1) = Ok b
    /\ a <= b.
Proof.
  unfold check_termOrder. intros H Hk.
  pose proof (forallb_range _ _ H k Hk) as H'.
  apply on_ok2_true in H'. destruct H' as (a & b & Ea & Eb & Hab).
  apply Z.leb_le in Hab. eauto.
Qed.

Lemma check_term2_inv (y : Z) :
  check_term2 y = true ->
  exists (termList : dict) (d : Z),
    yearTerm_spec y = Ok termList
    /\ termDay_spec y 2 = Ok d
    /\ parseTerm2 termList = Ok (d mod 10)
    /\ 1 <= d < 10.
Proof.
  unfold check_term2. intros H.
  apply on_ok2_true in H. destruct H as (termList & d & E1 & E2 & H).
  apply andb_prop in H. destruct H as [H H3].
  apply andb_prop in H. destruct H as [H1 H2].
  apply result_eqb_eq in H1. apply Z.leb_le in H2. apply Z.ltb_lt in H3.
  exists termList, d. repeat split; assumption.
Qed.

(** On the supported years [__getTerm], computed in binary64, returns the
    day of the exact instant. *)
Lemma getTerm_spec (y n : Z) :
  minYear <= y <= maxYear -> 0 <= n <= 23 ->
  getTerm y n = termDay_spec y n.
Proof.
  intros Hy Hn. apply check_getTerm_inv; [|lia].
  exact (all_years_spec _ check_getTerm_all y Hy).
Qed.

Lemma termDay_spec_ok (y n : Z) :
  0 <= n <= 23 ->
  exists t, py_index termInfo n = Ok t
            /\ termDay_spec y n = Ok (dayOfInstant (termInstant y t)).
Proof.
  intros Hn. unfold termDay_spec.
  rewrite (py_index_nth _ _ 0) by (change (py_len termInfo) with 24; lia).
  eexists. split; reflexivity.
Qed.

Lemma getYearTerm_spec (y : Z) :
  minYear <= y <= maxYear -> getYearTerm y = yearTerm_spec y.
Proof.
  intros Hy. unfold getYearTerm, yearTerm_spec. f_equal.
  apply for_each_ext. intros [res month] i Hi.
  apply in_range in Hi. rewrite getTerm_spec by lia. reflexivity.
Qed.

(** The binary64 constant is the correctly rounded quotient of
    315569259747 by 10, that is the literal [31556925974.7]. *)
Lemma orbital_period_ms_literal :
  Ok Float.orbital_period_ms
  = (let* a := Float.of_int 315569259747 in
     let* b := Float.of_int 10 in
     Ok (SFdiv Float.prec Float.emax a b))
  /\ valid_binary Float.prec Float.emax Float.orbital_period_ms = true.
Proof. split; vm_compute; reflexivity. Qed.

(** C5 (solar-term algorithm).  For a year [y] from 1890 to 2100 and a term
    index [n] from 0 to 23, [__getTerm(y, n)] returns the day-of-month of the
    instant 1890-01-05T16:02:31 UTC plus [31556925974.7 * (y - 1890)]
    milliseconds plus [termInfo[n] * 60000] milliseconds, [termInfo] being
    the table of 24 entries. *)
Theorem C5_solar_term_day (y n : Z) :
  minYear <= y <= maxYear ->
  0 <= n <= 23 ->
  py_len termInfo = 24
  /\ exists t : Z,
       py_index termInfo n = Ok t
       /\ getTerm y n = Ok (dayOfInstant (termInstant y t)).
Proof.
  intros Hy Hn. split; [reflexivity|].
  destruct (termDay_spec_ok y n Hn) as (t & Ht & E).
  exists t. split; [exact Ht|]. now rewrite getTerm_spec.
Qed.

(** The theorem at the start of spring of 2024. *)
Lemma C5_solar_term_day_witness :
  py_len termInfo = 24
  /\ exists t : Z,
       py_index termInfo 2 = Ok t
       /\ getTerm 2024 2 = Ok (dayOfInstant (termInstant 2024 t)).
Proof.
  apply (C5_solar_term_day 2024 2); unfold minYear, maxYear; lia.
Defined.

(** The month counter of [__getYearTerm] gives the term of even index [i]
    the month index [i // 2]: entered at the index [s] with the counter at
    [(s + 1) // 2], the loop computes the same as one that takes the key
    from [i]. *)
Lemma getYearTerm_loop_anchor (year : Z) (len s : nat) (res : dict) :
  for_each
    (fun '(res, month) i =>
       let* day := getTerm year i in
       if i mod 2 =? 0 then
         let month := month + 1 in
         let* name := py_index solarTerm i in
         Ok (dict_set res (formatDayD4 (month - 1) day) name, month)
       else Ok (res, month))
    (List.map Z.of_nat (List.seq s len)) (res, (Z.of_nat s + 1) / 2)
  = for_each
      (fun '(res, month) i =>
         let* day := getTerm year i in
         if i mod 2 =? 0 then
           let* name := py_index solarTerm i in
           Ok (dict_set res (formatDayD4 (i / 2) day) name, month + 1)
         else Ok (res, month))
      (List.map Z.of_nat (List.seq s len)) (res, (Z.of_nat s + 1) / 2).
Proof.
  revert s res. induction len as [|len IH]; intros s res; [reflexivity|].
  cbn [List.seq List.map for_each].
  destruct (getTerm year (Z.of_nat s)) as [day|e]; cbn [rbind];
    [|reflexivity].
  destruct (Z.eqb_spec (Z.of_nat s mod 2) 0) as [Heven|Hodd].
  - cbv zeta.
    destruct (py_index solarTerm (Z.of_nat s)) as [name|e]; cbn [rbind];
      [|reflexivity].
    replace ((Z.of_nat s + 1) / 2 + 1 - 1) with (Z.of_nat s / 2)
      by (Z.div_mod_to_equations; lia).
    replace ((Z.of_nat s + 1) / 2 + 1) with ((Z.of_nat (S s) + 1) / 2)
      by (Z.div_mod_to_equations; lia).
    apply IH.
  - replace ((Z.of_nat s + 1) / 2) with ((Z.of_nat (S s) + 1) / 2)
      by (Z.div_mod_to_equations; lia).
    apply IH.
Qed.

Lemma getYearTerm_anchor (year : Z) :
  getYearTerm year
  = (let* '(res, _) :=
       for_each
         (fun '(res, month) i =>
            let* day := getTerm year i in
            if i mod 2 =? 0 then
              let* name := py_index solarTerm i in
              Ok (dict_set res (formatDayD4 (i / 2) day) name, month + 1)
            else Ok (res, month))
         (range 24) ([], 0) in
     Ok res).
Proof.
  unfold getYearTerm.
  change (range 24) with (List.map Z.of_nat (List.seq 0 24)).
  change (@nil (string * string), 0)
    with (@nil (string * string), (Z.of_nat 0 + 1) / 2).
  rewrite getYearTerm_loop_anchor. reflexivity.
Qed.

(** C8 (term monotonicity).  In a year from 1890 to 2100 the solar dates
    of the 24 terms, each term [i] taken in the month of index [i // 2] on
    the day [__getTerm(year, i)], never go back as [i] grows. *)
Theorem C8_term_monotonicity (year i j : Z) :
  minYear <= year <= maxYear ->
  0 <= i <= j ->
  j <= 23 ->
  exists a b : Z * Z,
    termDate year i = Ok a /\ termDate year j = Ok b /\ solar_le a b.
Proof.
  intros Hy Hij Hj. unfold termDate.
  rewrite !getTerm_spec by lia.
  destruct (termDay_spec_ok year i ltac:(lia)) as (ti & _ & Ei).
  destruct (termDay_spec_ok year j ltac:(lia)) as (tj & _ & Ej).
  pose proof Ei as Ei'. pose proof Ej as Ej'.
  rewrite Ei, Ej. cbn [rbind]. do 2 eexists.
  split; [reflexivity|]. split; [reflexivity|].
  unfold solar_le. cbn [fst snd].
  destruct (Z.lt_ge_cases (i / 2) (j / 2)) as [Hlt|Hge]; [left; exact Hlt|].
  right. split; [Z.div_mod_to_equations; lia|].
  destruct (Z.eq_dec i j) as [->|Hne].
  - rewrite Ei' in Ej'. injection Ej' as ->. lia.
  - assert (Hk : 0 <= i / 2 < 12 /\ i = 2 * (i / 2) /\ j = 2 * (i / 2) + 1)
      by (Z.div_mod_to_equations; lia).
    destruct Hk as (Hk & Hi2 & Hj2).
    remember (i / 2) as k eqn:Ek. clear Ek Hge. subst i j.
    pose proof (all_years_spec _ check_termOrder_all year Hy) as H.
    destruct (check_termOrder_inv year k H Hk) as (a & b & Ea & Eb & Hab).
    rewrite Ei' in Ea. rewrite Ej' in Eb.
    injection Ea as <-. injection Eb as <-. exact Hab.
Qed.

(** The theorem at the terms 4 and 5 of 2024. *)
Lemma C8_term_monotonicity_witness :
  exists a b : Z * Z,
    termDate 2024 4 = Ok a /\ termDate 2024 5 = Ok b /\ solar_le a b.
Proof.
  apply (C8_term_monotonicity 2024 4 5); unfold minYear, maxYear; lia.
Defined.

Lemma last_char_app (a b : string) :
  b <> "" -> last_char (a ++ b) = last_char b.
Proof.
  intros Hb. induction a as [|c a IH]; [reflexivity|].
  change (last_char (String c a ++ b))
    with (match a ++ b with
          | EmptyString => Ok c
          | String _ _ => last_char (a ++ b)
          end).
  destruct (a ++ b) eqn:E; [|exact IH].
  destruct a; [exact (False_ind _ (Hb E)) | discriminate].
Qed.

(** The last character of a key of the term table is the last digit of the
    day. *)
Lemma formatDayD4_last_digit (month day : Z) :
  1 <= day <= 31 -> int_of_last_char (formatDayD4 month day) = Ok (day mod 10).
Proof.
  intros Hd. unfold int_of_last_char, formatDayD4.
  assert (E : forall s, s <> "" ->
            int_of_last_char s = Ok (day mod 10) ->
            (let* c := last_char ("d" ++ (if month + 1 <? 10
                                         then "0" ++ str (month + 1)
                                         else str (month + 1)) ++ s)
             in int_of_char c) = Ok (day mod 10)).
  { intros s Hs Hl.
    rewrite last_char_app.
    - rewrite last_char_app by exact Hs. exact Hl.
    - destruct (if month + 1 <? 10 then _ else _);
        [exact Hs | discriminate]. }
  apply E.
  - assert (C : day = 1 \/ day = 2 \/ day = 3 \/ day = 4 \/ day = 5
                \/ day = 6 \/ day = 7 \/ day = 8 \/ day = 9 \/ 10 <= day)
      by lia.
    repeat (destruct C as [->|C]; [discriminate|]).
    destruct (Z.ltb_spec day 10); [lia|].
    unfold str. destruct day as [|p|p]; try lia.
    cbn. destruct (Pos.to_uint p); discriminate.
  - assert (C : day = 1 \/ day = 2 \/ day = 3 \/ day = 4 \/ day = 5
                \/ day = 6 \/ day = 7 \/ day = 8 \/ day = 9 \/ day = 10
                \/ day = 11 \/ day = 12 \/ day = 13 \/ day = 14 \/ day = 15
                \/ day = 16 \/ day = 17 \/ day = 18 \/ day = 19 \/ day = 20
                \/ day = 21 \/ day = 22 \/ day = 23 \/ day = 24 \/ day = 25
                \/ day = 26 \/ day = 27 \/ day = 28 \/ day = 29 \/ day = 30
                \/ day = 31) by lia.
    repeat (destruct C as [->|C]; [reflexivity|]). subst day. reflexivity.
Qed.

(** What the check of a year's start-of-spring key says. *)
Lemma check_term2_spec (year : Z) :
  minYear <= year <= maxYear ->
  exists (termList : dict) (d : Z),
    getYearTerm year = Ok termList
    /\ getTerm year 2 = Ok d
    /\ parseTerm2 termList = Ok (d mod 10)
    /\ 1 <= d < 10.
Proof.
  intros Hy.
  pose proof (all_years_spec _ check_term2_all year Hy) as H.
  destruct (check_term2_inv year H) as (termList & d & E1 & E2 & H1 & Hd).
  exists termList, d.
  split; [rewrite getYearTerm_spec by exact Hy; exact E1|].
  split; [rewrite getTerm_spec by (try exact Hy; lia); exact E2|].
  split; [exact H1 | exact Hd].
Qed.

(** ** Validation of the year *)

Lemma formatDate_value (y m d : Z) (lo : option Z) :
  match lo with Some b => b | None => minYear + 1 end <= y <= maxYear ->
  formatDate y m d lo = Value (y, m - 1, d).
Proof.
  intros Hy. unfold formatDate.
  destruct (Z.ltb_spec y (match lo with Some b => b | None => minYear + 1 end));
    [lia|].
  destruct (Z.gtb_spec y maxYear); [lia|]. reflexivity.
Qed.

Lemma formatDate_error (y m d : Z) (lo : option Z) :
  y < match lo with Some b => b | None => minYear + 1 end \/ maxYear < y ->
  formatDate y m d lo = ErrorDict 100 "Year out of range".
Proof.
  intros Hy. unfold formatDate.
  destruct (Z.ltb_spec y (match lo with Some b => b | None => minYear + 1 end));
    [reflexivity|].
  destruct (Z.gtb_spec y maxYear); [reflexivity | lia].
Qed.

(** [solarToLunar] answers with the error dictionary exactly for the years
    outside [1890, 2100]. *)
Lemma solarToLunar_error_iff (lunarInfo : list (list Z)) (cache : cache_t)
      (y m d : Z) :
  (exists code msg,
      fst (solarToLunar lunarInfo cache y m d) = Ok (ErrorDict code msg))
  <-> (y < 1890 \/ 2100 < y).
Proof.
  unfold solarToLunar. split.
  - intros (code & msg & H).
    destruct (Z.lt_ge_cases y 1890) as [?|Hlo]; [now left|].
    destruct (Z.lt_ge_cases 2100 y) as [?|Hhi]; [now right|]. exfalso.
    rewrite (formatDate_value y m d (Some minYear)) in H
      by (cbn; unfold minYear, maxYear; lia).
    destruct (cachedYearTerm cache y) as [[termList|e] cache'];
      cbn [fst] in H; [|discriminate].
    destruct (solarToLunar_body lunarInfo termList y (m - 1) d);
      discriminate.
  - intros Hy.
    rewrite (formatDate_error y m d (Some minYear))
      by (cbn; unfold minYear, maxYear; lia).
    eexists _, _. reflexivity.
Qed.

(** [lunarToSolar] answers with the error dictionary exactly for the years
    outside [1891, 2100]. *)
Lemma lunarToSolar_error_iff (lunarInfo : list (list Z)) (y m d : Z) :
  (exists code msg, lunarToSolar lunarInfo y m d = Ok (ErrorDict code msg))
  <-> (y < 1891 \/ 2100 < y).
Proof.
  unfold lunarToSolar. split.
  - intros (code & msg & H).
    destruct (Z.lt_ge_cases y 1891) as [?|Hlo]; [now left|].
    destruct (Z.lt_ge_cases 2100 y) as [?|Hhi]; [now right|]. exfalso.
    rewrite (formatDate_value y m d None) in H
      by (cbn; unfold minYear, maxYear; lia).
    repeat (apply rbind_ok in H; destruct H as (? & _ & H)).
    discriminate.
  - intros Hy.
    rewrite (formatDate_error y m d None)
      by (cbn; unfold minYear, maxYear; lia).
    eexists _, _. reflexivity.
Qed.

(** C1 (validation boundaries), as the code has them: the two lower bounds
    are the other way round.  [solarToLunar] passes [__minYear] to
    [__formatDate] and so returns the error dictionary exactly outside
    [1890, 2100]; [lunarToSolar] passes nothing, gets the default
    [__minYear + 1], and returns the error dictionary exactly outside
    [1891, 2100].  For the year 1890 [lunarToSolar] returns the error
    dictionary and [solarToLunar] does not. *)
Theorem C1_validation_bounds_in_code (lunarInfo : list (list Z))
        (cache : cache_t) (y m d : Z) :
  ((exists code msg,
       fst (solarToLunar lunarInfo cache y m d) = Ok (ErrorDict code msg))
   <-> (y < 1890 \/ 2100 < y))
  /\ ((exists code msg,
          lunarToSolar lunarInfo y m d = Ok (ErrorDict code msg))
      <-> (y < 1891 \/ 2100 < y))
  /\ lunarToSolar lunarInfo 1890 m d = Ok (ErrorDict 100 "Year out of range")
  /\ (forall code msg,
         fst (solarToLunar lunarInfo cache 1890 m d)
         <> Ok (ErrorDict code msg)).
Proof.
  split; [apply solarToLunar_error_iff|].
  split; [apply lunarToSolar_error_iff|].
  split; [reflexivity|].
  intros code msg H.
  assert (E : 1890 < 1890 \/ 2100 < 1890)
    by (apply (solarToLunar_error_iff lunarInfo cache 1890 m d); eauto).
  lia.
Qed.

(** ** Gregorian dates *)

Lemma c_int_small (v : Z) :
  - 2 ^ 31 <= v <= 2 ^ 31 - 1 -> Gregorian.c_int v = Ok v.
Proof.
  intros Hv. unfold Gregorian.c_int, Gregorian.INT_MIN, Gregorian.INT_MAX.
  destruct (Z.leb_spec (- 2 ^ 31) v); [|lia].
  destruct (Z.leb_spec v (2 ^ 31 - 1)); [reflexivity | lia].
Qed.

Lemma c_int_inv (v w : Z) : Gregorian.c_int v = Ok w -> w = v.
Proof.
  unfold Gregorian.c_int.
  destruct ((Gregorian.INT_MIN <=? v) && (v <=? Gregorian.INT_MAX));
    congruence.
Qed.

Ltac calendar_compute :=
  cbv [Z.to_nat Pos.to_nat Pos.iter_op Nat.add List.nth Z.eqb Z.gtb Z.compare
       Pos.compare Pos.compare_cont andb Pos.eqb
       Gregorian.DAYS_IN_MONTH Gregorian.DAYS_BEFORE_MONTH] in *.

Lemma days_in_month_le (y m : Z) : Gregorian.days_in_month y m <= 31.
Proof.
  unfold Gregorian.days_in_month, Gregorian.tbl.
  destruct ((m =? 2) && Gregorian.is_leap y); [lia|].
  destruct (Z.to_nat m) as [|[|[|[|[|[|[|[|[|[|[|[|[|[|k]]]]]]]]]]]]]];
    cbn; lia.
Qed.

Lemma date_new_ok (y m d : Z) :
  valid_date y m d -> Gregorian.date_new y m d = Ok (Gregorian.mkdate y m d).
Proof.
  intros (Hy & Hm & Hd). pose proof (days_in_month_le y m).
  unfold Gregorian.MINYEAR, Gregorian.MAXYEAR in Hy.
  unfold Gregorian.date_new.
  rewrite !c_int_small by lia. cbn [rbind].
  unfold Gregorian.MINYEAR, Gregorian.MAXYEAR.
  destruct (Z.leb_spec 1 y); [|lia]. destruct (Z.leb_spec y 9999); [|lia].
  destruct (Z.leb_spec 1 m); [|lia]. destruct (Z.leb_spec m 12); [|lia].
  destruct (Z.leb_spec 1 d); [|lia].
  destruct (Z.leb_spec d (Gregorian.days_in_month y m)); [|lia].
  reflexivity.
Qed.

Lemma date_new_inv (y m d : Z) (dt : Gregorian.date) :
  Gregorian.date_new y m d = Ok dt ->
  valid_date y m d /\ dt = Gregorian.mkdate y m d.
Proof.
  unfold Gregorian.date_new. intros H.
  apply rbind_ok in H. destruct H as (y' & Ey & H).
  apply rbind_ok in H. destruct H as (m' & Em & H).
  apply rbind_ok in H. destruct H as (d' & Ed & H).
  apply c_int_inv in Ey, Em, Ed. subst y' m' d'.
  destruct (Z.leb_spec Gregorian.MINYEAR y);
    destruct (Z.leb_spec y Gregorian.MAXYEAR); cbn in H; try discriminate.
  destruct (Z.leb_spec 1 m); destruct (Z.leb_spec m 12);
    cbn in H; try discriminate.
  destruct (Z.leb_spec 1 d);
    destruct (Z.leb_spec d (Gregorian.days_in_month y m));
    cbn in H; try discriminate.
  injection H as <-. unfold valid_date. repeat split; assumption.
Qed.

(** [datetime.date] raises on everything else. *)
Lemma date_new_raise (y m d : Z) :
  ~ valid_date y m d -> exists e, Gregorian.date_new y m d = Raise e.
Proof.
  intros Hn. destruct (Gregorian.date_new y m d) as [dt|e] eqn:E; [|eauto].
  apply date_new_inv in E. tauto.
Qed.

(** The ordinal of a date lies inside its year. *)
Lemma ymd2ord_in_year (y m d : Z) :
  valid_date y m d ->
  Gregorian.days_before_year y + 1 <= Gregorian.ymd2ord y m d
  <= Gregorian.days_before_year y + 366.
Proof.
  intros (_ & Hm & Hd).
  unfold Gregorian.ymd2ord, Gregorian.days_before_month.
  unfold Gregorian.days_in_month in Hd. unfold Gregorian.tbl in *.
  assert (C : m = 1 \/ m = 2 \/ m = 3 \/ m = 4 \/ m = 5 \/ m = 6 \/ m = 7
              \/ m = 8 \/ m = 9 \/ m = 10 \/ m = 11 \/ m = 12) by lia.
  destruct (Gregorian.is_leap y);
    repeat (destruct C as [->|C]; [calendar_compute; lia|]);
    subst m; calendar_compute; lia.
Qed.

Lemma days_before_year_supported (y : Z) :
  minYear - 1 <= y <= maxYear ->
  689578 <= Gregorian.days_before_year y <= 766644.
Proof.
  unfold minYear, maxYear, Gregorian.days_before_year. intros Hy.
  cbv zeta. Z.div_mod_to_equations. lia.
Qed.

Lemma td_days_of_days (n : Z) :
  Gregorian.td_days (n * Gregorian.US_PER_DAY) = n.
Proof.
  unfold Gregorian.td_days. apply Z.div_mul. discriminate.
Qed.

Lemma timedelta_days_ok (n : Z) :
  - Gregorian.MAX_DELTA_DAYS <= n <= Gregorian.MAX_DELTA_DAYS ->
  Gregorian.timedelta_days n = Ok (n * Gregorian.US_PER_DAY).
Proof.
  intros Hn. unfold Gregorian.timedelta_days, Gregorian.timedelta_of_us.
  rewrite td_days_of_days.
  destruct (Z.leb_spec (- Gregorian.MAX_DELTA_DAYS) n); [|lia].
  destruct (Z.leb_spec n Gregorian.MAX_DELTA_DAYS); [reflexivity | lia].
Qed.

Lemma date_add_ok (dt : Gregorian.date) (n : Z) :
  1 <= Gregorian.toordinal dt + n <= Gregorian.MAXORDINAL ->
  Gregorian.date_add dt (n * Gregorian.US_PER_DAY)
  = Ok (Gregorian.fromordinal (Gregorian.toordinal dt + n)).
Proof.
  intros Ho. unfold Gregorian.date_add. rewrite td_days_of_days.
  destruct (Z.leb_spec 1 (Gregorian.toordinal dt + n)); [|lia].
  destruct (Z.leb_spec (Gregorian.toordinal dt + n) Gregorian.MAXORDINAL);
    [reflexivity | lia].
Qed.

(** [__getDaysBetweenSolar] on two dates of one year. *)
Lemma getDaysBetweenSolar_ok (y m0 d0 m1 d1 : Z) :
  valid_date y (m0 + 1) d0 ->
  valid_date y (m1 + 1) d1 ->
  getDaysBetweenSolar y m0 d0 y m1 d1
  = Ok (Gregorian.ymd2ord y (m1 + 1) d1 - Gregorian.ymd2ord y (m0 + 1) d0)
  /\ - 365 <= Gregorian.ymd2ord y (m1 + 1) d1
              - Gregorian.ymd2ord y (m0 + 1) d0 <= 365.
Proof.
  intros H0 H1. unfold getDaysBetweenSolar.
  rewrite (date_new_ok _ _ _ H0), (date_new_ok _ _ _ H1). cbn [rbind].
  unfold Gregorian.date_sub, Gregorian.toordinal.
  cbn [Gregorian.d_year Gregorian.d_month Gregorian.d_day].
  rewrite td_days_of_days.
  pose proof (ymd2ord_in_year _ _ _ H0).
  pose proof (ymd2ord_in_year _ _ _ H1).
  split; [reflexivity | lia].
Qed.

(** ** Names *)

Lemma cyclical_ok (num : Z) : exists s, cyclical num = Ok s.
Proof.
  unfold cyclical.
  rewrite (py_index_nth heavenlyStems (num mod 10) "")
    by (change (py_len heavenlyStems) with 10; apply Z.mod_pos_bound; lia).
  rewrite (py_index_nth earthlyBranches (num mod 12) "")
    by (change (py_len earthlyBranches) with 12; apply Z.mod_pos_bound; lia).
  cbn [rbind]. eauto.
Qed.

Lemma getYearZodiac_ok (year : Z) : exists s, getYearZodiac year = Ok s.
Proof.
  unfold getYearZodiac.
  rewrite (py_index_nth zodiacTable _ "")
    by (change (py_len zodiacTable) with 12; apply Z.mod_pos_bound; lia).
  eauto.
Qed.

Lemma getLunarDayName_ok (y m d : Z) :
  minYear <= y <= maxYear ->
  valid_date y (m + 1) d ->
  exists s, getLunarDayName y m d = Ok s.
Proof.
  intros Hy Hv. unfold getLunarDayName.
  rewrite (date_new_ok _ _ _ Hv). cbn [rbind].
  rewrite timedelta_days_ok by (unfold Gregorian.MAX_DELTA_DAYS; lia).
  cbn [rbind].
  pose proof (ymd2ord_in_year _ _ _ Hv) as Ho.
  pose proof (days_before_year_supported y ltac:(lia)) as Hb.
  rewrite date_add_ok.
  - cbn [rbind]. change (Gregorian.date_new 1970 1 1)
      with (Ok (Gregorian.mkdate 1970 1 1)). cbn [rbind].
    apply cyclical_ok.
  - unfold Gregorian.toordinal, Gregorian.MAXORDINAL.
    cbn [Gregorian.d_year Gregorian.d_month Gregorian.d_day]. lia.
Qed.

(** ** Well-formed tables *)

Lemma row_ok_inv (y : Z) (row : list Z) :
  row_ok y row = true ->
  exists leap zenMonth zenDay monthData,
    row = [leap; zenMonth; zenDay; monthData]
    /\ 0 <= leap <= 12
    /\ valid_date y zenMonth zenDay.
Proof.
  unfold row_ok.
  destruct row as [|leap [|zm [|zd [|bits [|]]]]]; try discriminate.
  intros H. apply andb_prop in H. destruct H as [H H3].
  apply andb_prop in H. destruct H as [H1 H2].
  apply Z.leb_le in H1, H2.
  destruct (Gregorian.date_new y zm zd) as [dt|] eqn:E; [|discriminate].
  apply date_new_inv in E. destruct E as [Hv _].
  exists leap, zm, zd, bits.
  split; [reflexivity|]. split; [lia | exact Hv].
Qed.

Lemma table_ok_len (t : list (list Z)) :
  table_ok t = true -> py_len t = 211.
Proof.
  unfold table_ok. intros H. apply andb_prop in H. destruct H as [H _].
  apply Z.eqb_eq in H. exact H.
Qed.

(** The record of a supported year. *)
Lemma table_ok_row (t : list (list Z)) (y : Z) :
  table_ok t = true ->
  minYear <= y <= maxYear ->
  exists leap zenMonth zenDay monthData,
    py_index t (y - minYear) = Ok [leap; zenMonth; zenDay; monthData]
    /\ 0 <= leap <= 12
    /\ valid_date y zenMonth zenDay.
Proof.
  unfold table_ok. intros H Hy. apply andb_prop in H. destruct H as [_ H].
  pose proof (forallb_range _ _ H (y - minYear)) as Hk. cbv beta in Hk.
  specialize (Hk ltac:(unfold minYear, maxYear in *; lia)).
  destruct (py_index t (y - minYear)) as [row|]; [|discriminate].
  replace (minYear + (y - minYear)) with y in Hk by lia.
  destruct (row_ok_inv _ _ Hk) as (leap & zm & zd & bits & -> & Hl & Hv).
  exists leap, zm, zd, bits.
  split; [reflexivity|]. split; [lia | exact Hv].
Qed.

(** The year before the first one reads the last record, the one of 2100. *)
Lemma table_ok_wraparound (t : list (list Z)) :
  table_ok t = true ->
  py_index t (minYear - 1 - minYear) = py_index t (maxYear - minYear).
Proof.
  intros H. apply table_ok_len in H.
  replace (minYear - 1 - minYear) with (-1) by lia.
  rewrite py_index_neg by lia. rewrite H. reflexivity.
Qed.

(** The record that [solarToLunar] reads for the lunar year of a date of the
    year [y]: the one of [y], or the one before it. *)
Lemma table_ok_row_lunar (t : list (list Z)) (ly : Z) :
  table_ok t = true ->
  minYear - 1 <= ly <= maxYear ->
  exists leap zenMonth zenDay monthData,
    py_index t (ly - minYear) = Ok [leap; zenMonth; zenDay; monthData]
    /\ 0 <= leap <= 12.
Proof.
  intros H Hy. destruct (Z.eq_dec ly (minYear - 1)) as [->|Hne].
  - rewrite table_ok_wraparound by exact H.
    destruct (table_ok_row t maxYear H ltac:(unfold minYear, maxYear; lia))
      as (leap & zm & zd & bits & E & Hl & _).
    exists leap, zm, zd, bits. split; assumption.
  - destruct (table_ok_row t ly H ltac:(lia))
      as (leap & zm & zd & bits & E & Hl & _).
    exists leap, zm, zd, bits. split; assumption.
Qed.

(** ** [solarToLunar] returns *)

Lemma py_sum_bounds (l : list Z) :
  (forall x, List.In x l -> x = 29 \/ x = 30) ->
  29 * py_len l <= py_sum l <= 30 * py_len l.
Proof.
  unfold py_len. induction l as [|x l IH]; intros H.
  - cbn. lia.
  - rewrite py_sum_cons. cbn [List.length].
    specialize (IH (fun y Hy => H y (or_intror Hy))).
    destruct (H x (or_introl eq_refl)); lia.
Qed.

(** The loop of [__getLunarDateByBetween] always ends with a month index of
    the year; the day it leaves is in [1, 30] when the offset lies inside
    the year. *)
Lemma find_month_total (l : list Z) (end_ : Z) :
  (forall x, List.In x l -> x = 29 \/ x = 30) ->
  l <> [] ->
  exists tempDays month,
    find_month l end_ (range (py_len l)) 0 0 = Ok (tempDays, month)
    /\ 0 <= month < py_len l
    /\ ((end_ < 0 /\ tempDays = 0)
        \/ (0 <= end_ < py_sum l /\ 1 <= end_ - tempDays + 1 <= 30)
        \/ (py_sum l <= end_ /\ tempDays = py_sum l)).
Proof.
  intros Hval Hne.
  assert (Hpos : forall x, List.In x l -> 0 < x).
  { intros x Hx. destruct (Hval x Hx); lia. }
  assert (Hlen : 0 < py_len l).
  { unfold py_len. destruct l; [congruence | cbn; lia]. }
  rewrite range_py_len.
  destruct (Z.lt_ge_cases end_ 0) as [Hneg|Hnn].
  - destruct l as [|x l']; [congruence|].
    cbn [List.length List.seq List.map find_month].
    change (py_index (x :: l') (Z.of_nat 0)) with (Ok x). cbn [rbind].
    pose proof (Hpos x (or_introl eq_refl)).
    destruct (Z.gtb_spec (0 + x) end_); [|lia].
    exists (0 + x - x), (Z.of_nat 0). split; [reflexivity|].
    split; [lia|]. left. lia.
  - destruct (find_month_from l Hpos end_ (List.length l) 0 0 eq_refl)
      as [(j & Hj & Hb & E)|[Hb E]].
    + exact Hnn.
    + change (py_sum (List.firstn 0 l)) with 0 in E.
      exists (py_sum (List.firstn j l)), (Z.of_nat j).
      split; [exact E|]. split; [unfold py_len; lia|]. right. left.
      pose proof (prefix_le l Hpos (S j) (List.length l) ltac:(lia)) as Hc.
      rewrite prefix_all in Hc.
      rewrite prefix_S in Hb by lia.
      assert (List.nth j l 0 <= 30).
      { destruct (Hval (List.nth j l 0)); [apply List.nth_In|..]; lia. }
      rewrite prefix_S in Hc by lia. lia.
    + change (py_sum (List.firstn 0 l)) with 0 in E.
      exists (py_sum l), 0. split; [exact E|]. split; [lia|].
      right. right. lia.
Qed.

(** [__getLunarDateByBetween] on a record of four fields, for an offset of
    at most a solar year either way. *)
Lemma getLunarDateByBetween_total (t : list (list Z)) (ly between : Z)
      (leap zenMonth zenDay monthData : Z) :
  py_index t (ly - minYear) = Ok [leap; zenMonth; zenDay; monthData] ->
  - 365 <= between <= 365 ->
  exists month day,
    getLunarDateByBetween t ly between = Ok (ly, month, day)
    /\ 0 <= month < (if leap =? 0 then 12 else 13)
    /\ - 30 <= day <= 31.
Proof.
  intros Hrow Hb.
  destruct (getLunarYearDays_decode t ly _ leap monthData Hrow eq_refl eq_refl)
    as (r & Hr & Hlen & _ & Hval & Hsum).
  assert (Hl12 : 12 <= py_len (monthDays r) <= 13)
    by (rewrite Hlen; destruct (leap =? 0); lia).
  assert (Hne : monthDays r <> []).
  { intros E. rewrite E in Hl12. unfold py_len in Hl12.
    cbn [List.length Z.of_nat] in Hl12. lia. }
  pose proof (py_sum_bounds _ Hval) as Hs.
  unfold getLunarDateByBetween. rewrite Hr. cbn [rbind]. rewrite Hsum.
  set (end_ := if between >? 0 then between
               else py_sum (monthDays r) + between).
  destruct (find_month_total (monthDays r) end_ Hval Hne)
    as (tempDays & month & E & Hm & Hc).
  rewrite E. cbn [rbind]. exists month, (end_ - tempDays + 1).
  split; [reflexivity|]. split; [lia|].
  assert (He : - 17 <= end_
               /\ (py_sum (monthDays r) <= end_ ->
                   end_ - py_sum (monthDays r) <= 17)).
  { subst end_. destruct (Z.gtb_spec between 0); lia. }
  destruct Hc as [[? ->]|[[? ?]|[? ->]]]; lia.
Qed.

Lemma py_index_total {A : Type} (l : list A) (i : Z) :
  - py_len l <= i < py_len l -> exists a, py_index l i = Ok a.
Proof.
  intros Hi. destruct l as [|d l'] eqn:El.
  - unfold py_len in Hi. cbn in Hi. lia.
  - rewrite <- El in *. destruct (Z.lt_ge_cases i 0).
    + rewrite py_index_neg by lia.
      rewrite (py_index_nth _ _ d) by lia. eauto.
    + rewrite (py_index_nth _ _ d) by lia. eauto.
Qed.

Lemma getLunarLeapYear_row (t : list (list Z)) (y : Z) (row : list Z)
      (leap : Z) :
  py_index t (y - minYear) = Ok row ->
  py_index row 0 = Ok leap ->
  getLunarLeapYear t y = Ok leap.
Proof.
  intros Hrow Hleap. unfold getLunarLeapYear. rewrite Hrow. exact Hleap.
Qed.

(** [__getLunarByBetween] on a date of a supported year: the signed offset
    from the year's first lunar day, the lunar year it selects, and the
    bounds on the lunar date it returns. *)
Lemma getLunarByBetween_total (t : list (list Z)) (y m d : Z) :
  table_ok t = true ->
  minYear <= y <= maxYear ->
  valid_date y (m + 1) d ->
  exists leap zenMonth zenDay monthData between ly mo day leap',
    py_index t (y - minYear) = Ok [leap; zenMonth; zenDay; monthData]
    /\ valid_date y zenMonth zenDay
    /\ between = Gregorian.ymd2ord y (m + 1) d
                 - Gregorian.ymd2ord y zenMonth zenDay
    /\ ly = (if between <? 0 then y - 1 else y)
    /\ getLunarByBetween t y m d = Ok (ly, mo, day)
    /\ (between <> 0 -> getLunarDateByBetween t ly between = Ok (ly, mo, day))
    /\ (between = 0 -> mo = 0 /\ day = 1)
    /\ getLunarLeapYear t ly = Ok leap'
    /\ 0 <= leap' <= 12
    /\ 0 <= mo < (if leap' =? 0 then 12 else 13)
    /\ - 30 <= day <= 31.
Proof.
  intros Ht Hy Hv.
  destruct (table_ok_row t y Ht Hy) as (leap & zm & zd & bits & Hrow & Hl & Hz).
  assert (Hz' : valid_date y (zm - 1 + 1) zd)
    by (replace (zm - 1 + 1) with zm by lia; exact Hz).
  destruct (getDaysBetweenSolar_ok y (zm - 1) zd m d Hz' Hv) as [Hb Hbb].
  replace (zm - 1 + 1) with zm in Hb, Hbb by lia.
  set (between := Gregorian.ymd2ord y (m + 1) d - Gregorian.ymd2ord y zm zd)
    in *.
  set (ly := if between <? 0 then y - 1 else y).
  assert (Hly : minYear - 1 <= ly <= maxYear)
    by (subst ly; destruct (between <? 0); lia).
  destruct (table_ok_row_lunar t ly Ht Hly)
    as (leap' & zm' & zd' & bits' & Hrow' & Hl').
  destruct (getLunarDateByBetween_total t ly between _ _ _ _ Hrow' Hbb)
    as (mo & day & Eld & Hmo & Hday).
  assert (Eleap : getLunarLeapYear t ly = Ok leap')
    by (apply (getLunarLeapYear_row _ _ _ _ Hrow'); reflexivity).
  destruct (Z.eq_dec between 0) as [E0|Hne].
  - exists leap, zm, zd, bits, between, ly, 0, 1, leap'.
    assert (ly = y) by (subst ly; rewrite E0; reflexivity).
    repeat (split; [first [assumption | reflexivity | lia]|]).
    split.
    { unfold getLunarByBetween. rewrite Hrow. cbn [rbind].
      change (py_index [leap; zm; zd; bits] 1) with (Ok zm).
      change (py_index [leap; zm; zd; bits] 2) with (Ok zd). cbn [rbind].
      rewrite Hb. cbn [rbind]. rewrite E0. cbn. congruence. }
    split; [intros; contradiction|].
    split; [auto|].
    split; [assumption|]. split; [assumption|].
    split; [destruct (leap' =? 0); lia | lia].
  - exists leap, zm, zd, bits, between, ly, mo, day, leap'.
    repeat (split; [first [assumption | reflexivity | lia]|]).
    split.
    { unfold getLunarByBetween. rewrite Hrow. cbn [rbind].
      change (py_index [leap; zm; zd; bits] 1) with (Ok zm).
      change (py_index [leap; zm; zd; bits] 2) with (Ok zd). cbn [rbind].
      rewrite Hb. cbn [rbind].
      destruct (Z.eqb_spec between 0) as [?|_]; [contradiction|].
      replace (if between >? 0 then y else y - 1) with ly; [exact Eld|].
      subst ly. destruct (Z.gtb_spec between 0), (Z.ltb_spec between 0);
        lia. }
    split; [intros; assumption|].
    split; [intros; contradiction|].
    repeat (split; [assumption|]). assumption.
Qed.

(** The body of [solarToLunar] on a date of a supported year ([m] is the
    0-indexed month) and a term table whose start-of-spring key parses to
    [term2]: it returns, and the names of the year are those of the year
    [GanZhiYear] that the cutover test selects. *)
Lemma solarToLunar_body_total (t : list (list Z)) (termList : dict)
      (y m d term2 : Z) :
  table_ok t = true ->
  minYear <= y <= maxYear ->
  valid_date y (m + 1) d ->
  parseTerm2 termList = Ok term2 ->
  exists r : LunarInfo,
    solarToLunar_body t termList y m d = Ok r
    /\ getLunarByBetween t y m d = Ok (lunarDateOf r)
    /\ getLunarLeapYear t (lunarYear r) = Ok (lunarLeapMonth r)
    /\ getYearZodiac
         (if (m >? 1) || ((m =? 1) && (d >=? term2)) then y + 1 else y)
       = Ok (zodiac r)
    /\ getLunarYearName
         (if (m >? 1) || ((m =? 1) && (d >=? term2)) then y + 1 else y) 0
       = Ok (GanZhiYear r)
    /\ term r = dict_get termList (formatDayD4 m d).
Proof.
  intros Ht Hy Hv Hp.
  destruct (getLunarByBetween_total t y m d Ht Hy Hv)
    as (leap & zm & zd & bits & between & ly & mo & day & leap'
        & _ & _ & _ & _ & Eld & _ & _ & Eleap & Hl' & Hmo & Hday).
  assert (Hm : 0 <= m * 2 <= 23) by (destruct Hv as (_ & ? & _); lia).
  destruct (termDay_spec_ok y (m * 2) Hm) as (tm & _ & Eft).
  rewrite <- getTerm_spec in Eft by assumption.
  set (G := if (m >? 1) || ((m =? 1) && (d >=? term2)) then y + 1 else y).
  destruct (getYearZodiac_ok G) as (zo & Ezo).
  destruct (cyclical_ok (G - 1890 + 25 + 0)) as (gy & Egy).
  destruct (cyclical_ok
              ((y - 1890) * 12
               + (if d >=? dayOfInstant (termInstant y tm) then m + 1 else m)
               + 12 + 0)) as (gm & Egm).
  destruct (getLunarDayName_ok y m d Hy Hv) as (gd & Egd).
  destruct (py_index_total dateCn (day - 1)
              ltac:(change (py_len dateCn) with 31; lia)) as (dn & Edn).
  assert (Emn : exists mn,
    (if (leap' >? 0) && (leap' =? mo) then
       let* n := py_index monthCn (mo - 1) in Ok ("閏" ++ n ++ "月")
     else if (leap' >? 0) && (mo >? leap') then
       let* n := py_index monthCn (mo - 1) in Ok (n ++ "月")
     else
       let* n := py_index monthCn mo in Ok (n ++ "月")) = Ok mn).
  { destruct (Z.gtb_spec leap' 0) as [Hpos|Hz]; cbn [andb].
    - destruct (Z.eqb_spec leap' 0) as [?|_]; [lia|].
      destruct (Z.eqb_spec leap' mo) as [Heq|Hne].
      + rewrite (py_index_nth monthCn (mo - 1) "")
          by (change (py_len monthCn) with 12; lia).
        cbn [rbind]. eauto.
      + destruct (Z.gtb_spec mo leap') as [Hgt|Hle].
        * rewrite (py_index_nth monthCn (mo - 1) "")
            by (change (py_len monthCn) with 12; lia).
          cbn [rbind]. eauto.
        * rewrite (py_index_nth monthCn mo "")
            by (change (py_len monthCn) with 12; lia).
          cbn [rbind]. eauto.
    - assert (leap' = 0) by lia. subst leap'. cbn [Z.eqb] in Hmo.
      rewrite (py_index_nth monthCn mo "")
        by (change (py_len monthCn) with 12; lia).
      cbn [rbind]. eauto. }
  destruct Emn as (mn & Emn).
  unfold solarToLunar_body.
  rewrite Hp. cbn [rbind]. rewrite Eft. cbn [rbind].
  rewrite Eld. cbn [rbind]. rewrite Eleap. cbn [rbind].
  rewrite Emn. cbn [rbind]. fold G. rewrite Ezo. cbn [rbind].
  unfold getLunarYearName. rewrite Egy. cbn [rbind].
  unfold getLunarMonthName. rewrite Egm. cbn [rbind].
  rewrite Egd. cbn [rbind]. rewrite Edn. cbn [rbind].
  eexists. split; [reflexivity|].
  unfold lunarDateOf.
  cbn [lunarYear lunarMonth lunarDay lunarLeapMonth zodiac GanZhiYear term].
  replace (mo + 1 - 1) with mo by lia.
  repeat split; assumption.
Qed.

(** ** The cache *)

Lemma cache_ok_empty : cache_ok (∅ : cache_t).
Proof.
  intros y termList H. rewrite lookup_empty in H. discriminate.
Qed.

Lemma cachedYearTerm_cache_ok (cache : cache_t) (y : Z) :
  cache_ok cache -> cache_ok (snd (cachedYearTerm cache y)).
Proof.
  intros Hc. unfold cachedYearTerm.
  destruct (cache !! y) as [termList|] eqn:E; [exact Hc|].
  destruct (getYearTerm y) as [termList|e] eqn:Eg; [|exact Hc].
  cbn [snd]. intros y' termList' H.
  apply lookup_insert_Some in H. destruct H as [[<- <-]|[_ H]].
  - exact Eg.
  - apply (Hc _ _ H).
Qed.

(** Whatever the arguments, [solarToLunar] leaves the cache in a state that
    maps years to their term tables. *)
Lemma solarToLunar_cache_ok (t : list (list Z)) (cache : cache_t)
      (y m d : Z) :
  cache_ok cache -> cache_ok (snd (solarToLunar t cache y m d)).
Proof.
  intros Hc. unfold solarToLunar.
  destruct (formatDate y m d (Some minYear)) as [code msg|[[year month] day]];
    [exact Hc|].
  pose proof (cachedYearTerm_cache_ok cache year Hc) as H.
  destruct (cachedYearTerm cache year) as [[termList|e] cache']; exact H.
Qed.

(** A lookup for a supported year, in a cache of term tables, yields that
    year's term table either way. *)
Lemma cachedYearTerm_ok (cache : cache_t) (y : Z) :
  cache_ok cache ->
  minYear <= y <= maxYear ->
  exists (termList : dict) (cache' : cache_t) (d : Z),
    cachedYearTerm cache y = (Ok termList, cache')
    /\ cache_ok cache'
    /\ getYearTerm y = Ok termList
    /\ getTerm y 2 = Ok d
    /\ parseTerm2 termList = Ok d
    /\ 1 <= d < 10.
Proof.
  intros Hc Hy.
  destruct (check_term2_spec y Hy) as (termList & d & Eg & Et & Ep & Hd).
  rewrite Z.mod_small in Ep by lia.
  pose proof (cachedYearTerm_cache_ok cache y Hc) as Hc'.
  unfold cachedYearTerm in *.
  destruct (cache !! y) as [termList'|] eqn:E.
  - apply Hc in E. rewrite Eg in E. injection E as <-.
    exists termList, cache, d. repeat split; try assumption; lia.
  - rewrite Eg in *. cbn [snd] in Hc'.
    exists termList, (<[ y := termList ]> cache), d.
    repeat split; try assumption; lia.
Qed.

(** [solarToLunar] returns a result dictionary for every date of the
    Gregorian calendar in the years that it accepts. *)
Lemma solarToLunar_total (t : list (list Z)) (cache : cache_t) (y m d : Z) :
  table_ok t = true ->
  cache_ok cache ->
  minYear <= y <= maxYear ->
  valid_date y m d ->
  exists (r : LunarInfo) (cache' : cache_t) (sp : Z),
    solarToLunar t cache y m d = (Ok (Value r), cache')
    /\ cache_ok cache'
    /\ getTerm y 2 = Ok sp
    /\ 1 <= sp < 10
    /\ getLunarByBetween t y (m - 1) d = Ok (lunarDateOf r)
    /\ getLunarLeapYear t (lunarYear r) = Ok (lunarLeapMonth r)
    /\ getYearZodiac
         (if (m - 1 >? 1) || ((m - 1 =? 1) && (d >=? sp)) then y + 1 else y)
       = Ok (zodiac r)
    /\ getLunarYearName
         (if (m - 1 >? 1) || ((m - 1 =? 1) && (d >=? sp)) then y + 1 else y) 0
       = Ok (GanZhiYear r).
Proof.
  intros Ht Hc Hy Hv.
  destruct (cachedYearTerm_ok cache y Hc Hy)
    as (termList & cache' & sp & Ec & Hc' & _ & Esp & Ep & Hsp).
  assert (Hv' : valid_date y (m - 1 + 1) d)
    by (replace (m - 1 + 1) with m by lia; exact Hv).
  destruct (solarToLunar_body_total t termList y (m - 1) d sp Ht Hy Hv' Ep)
    as (r & Er & Eld & Eleap & Ezo & Egy & _).
  exists r, cache', sp.
  unfold solarToLunar.
  rewrite (formatDate_value y m d (Some minYear)) by (cbn; lia).
  rewrite Ec, Er. cbn [rbind].
  repeat split; try assumption; lia.
Qed.

(** ** The year of the names *)

(** C7 (sexagenary-year cutover at the start of spring).  For a date of the
    Gregorian calendar in a year that [solarToLunar] accepts, the call
    returns a result; with [sp] the start-of-spring day [__getTerm(year, 2)]
    and [G] equal to [year + 1] when the month is March or later, or
    February with the day on or after [sp], and to [year] otherwise, the
    result's zodiac is [zodiacTable[(G - 1890 + 25) mod 12]] and its
    stem-branch year name is [cyclical(G - 1890 + 25)]. *)
Theorem C7_ganzhi_year_cutover (t : list (list Z)) (cache : cache_t)
        (y m d : Z) :
  table_ok t = true ->
  cache_ok cache ->
  minYear <= y <= maxYear ->
  valid_date y m d ->
  exists (r : LunarInfo) (cache' : cache_t) (sp : Z),
    solarToLunar t cache y m d = (Ok (Value r), cache')
    /\ getTerm y 2 = Ok sp
    /\ let G := if (3 <=? m) || ((m =? 2) && (sp <=? d)) then y + 1 else y in
       py_index zodiacTable ((G - 1890 + 25) mod 12) = Ok (zodiac r)
       /\ cyclical (G - 1890 + 25) = Ok (GanZhiYear r).
Proof.
  intros Ht Hc Hy Hv.
  destruct (solarToLunar_total t cache y m d Ht Hc Hy Hv)
    as (r & cache' & sp & E & _ & Esp & _ & _ & _ & Ezo & Egy).
  exists r, cache', sp. split; [exact E|]. split; [exact Esp|].
  assert (EG : (if (m - 1 >? 1) || ((m - 1 =? 1) && (d >=? sp))
                then y + 1 else y)
               = (if (3 <=? m) || ((m =? 2) && (sp <=? d))
                  then y + 1 else y)).
  { destruct (Z.gtb_spec (m - 1) 1), (Z.leb_spec 3 m); try lia;
      cbn [orb]; try reflexivity.
    destruct (Z.eqb_spec (m - 1) 1), (Z.eqb_spec m 2); try lia;
      cbn [andb]; try reflexivity.
    destruct (Z.geb_spec d sp), (Z.leb_spec sp d); try lia; reflexivity. }
  rewrite EG in Ezo, Egy. cbv zeta.
  unfold getYearZodiac in Ezo. unfold getLunarYearName in Egy.
  rewrite Z.add_0_r in Egy. split; assumption.
Qed.

(** The theorem at 10 February 2024, on the sample table and a new
    object's empty cache. *)
Lemma C7_ganzhi_year_cutover_witness :
  exists (r : LunarInfo) (cache' : cache_t) (sp : Z),
    solarToLunar Sample.lunarInfo ∅ 2024 2 10 = (Ok (Value r), cache')
    /\ getTerm 2024 2 = Ok sp
    /\ let G := if (3 <=? 2) || ((2 =? 2) && (sp <=? 10))
                then 2024 + 1 else 2024 in
       py_index zodiacTable ((G - 1890 + 25) mod 12) = Ok (zodiac r)
       /\ cyclical (G - 1890 + 25) = Ok (GanZhiYear r).
Proof.
  apply (C7_ganzhi_year_cutover Sample.lunarInfo ∅ 2024 2 10).
  - vm_compute. reflexivity.
  - exact cache_ok_empty.
  - unfold minYear, maxYear. lia.
  - unfold valid_date, Gregorian.MINYEAR, Gregorian.MAXYEAR.
    change (Gregorian.days_in_month 2024 2) with 29. lia.
Defined.

(** ** Days outside the month *)

Lemma getLunarByBetween_raise (t : list (list Z)) (y m d : Z) :
  ~ valid_date y (m + 1) d ->
  exists e, getLunarByBetween t y m d = Raise e.
Proof.
  intros Hn. unfold getLunarByBetween.
  apply rbind_raise. intros yearData.
  apply rbind_raise. intros zenMonth.
  apply rbind_raise. intros zenDay.
  assert (H : exists e,
             getDaysBetweenSolar y (zenMonth - 1) zenDay y m d = Raise e).
  { unfold getDaysBetweenSolar. apply rbind_raise. intros d0.
    destruct (date_new_raise _ _ _ Hn) as (e & ->). eauto. }
  destruct H as (e & ->). eauto.
Qed.

(** [solarToLunar] raises on a month and day that are not a date of the
    year, whatever the table and the cache hold. *)
Lemma solarToLunar_raise (t : list (list Z)) (cache : cache_t) (y m d : Z) :
  minYear <= y <= maxYear ->
  ~ valid_date y m d ->
  exists e, fst (solarToLunar t cache y m d) = Raise e.
Proof.
  intros Hy Hn. unfold solarToLunar.
  rewrite (formatDate_value y m d (Some minYear)) by (cbn; lia).
  destruct (cachedYearTerm cache y) as [[termList|e] cache']; cbn [fst];
    [|eauto].
  assert (H : exists e, solarToLunar_body t termList y (m - 1) d = Raise e).
  { unfold solarToLunar_body.
    apply rbind_raise. intros term2. apply rbind_raise. intros firstTerm.
    cbv zeta.
    destruct (getLunarByBetween_raise t y (m - 1) d) as (e & ->); [|eauto].
    replace (m - 1 + 1) with m by lia. exact Hn. }
  destruct H as (e & ->). eauto.
Qed.

(** [lunarToSolar] on any month and day: the first lunar day of the year's
    record plus the offset that [__getDaysBetweenZheng] computes. *)
Lemma lunarToSolar_any_day (t : list (list Z)) (y m d : Z) :
  table_ok t = true ->
  minYear + 1 <= y <= maxYear ->
  - 100000 <= d <= 100000 ->
  exists leap zenMonth zenDay monthData between,
    py_index t (y - minYear) = Ok [leap; zenMonth; zenDay; monthData]
    /\ getDaysBetweenZheng t y (m - 1) d = Ok between
    /\ lunarToSolar t y m d
       = Ok (Value
               (let dt := Gregorian.fromordinal
                            (Gregorian.ymd2ord y zenMonth zenDay + between) in
                mkSolarInfo (Gregorian.d_year dt) (Gregorian.d_month dt)
                            (Gregorian.d_day dt))).
Proof.
  intros Ht Hy Hd.
  destruct (table_ok_row t y Ht ltac:(lia))
    as (leap & zm & zd & bits & Hrow & Hl & Hz).
  destruct (getLunarYearDays_decode t y _ leap bits Hrow eq_refl eq_refl)
    as (r & Hr & Hlen & _ & Hval & _).
  assert (Hpos : forall x, List.In x (monthDays r) -> 0 < x).
  { intros x Hx. destruct (Hval x Hx); lia. }
  pose proof (getDaysBetweenZheng_eq t y r (m - 1) d Hr) as Eb.
  set (k := Z.to_nat (m - 1)) in *.
  pose proof (prefix_le _ Hpos 0 k ltac:(lia)) as H0.
  change (py_sum (List.firstn 0 (monthDays r))) with 0 in H0.
  assert (Hk : py_sum (List.firstn k (monthDays r)) <= 390).
  { pose proof (py_sum_bounds _ Hval) as Hs.
    assert (py_len (monthDays r) <= 13)
      by (rewrite Hlen; destruct (leap =? 0); lia).
    destruct (Nat.le_gt_cases k (List.length (monthDays r))) as [Hle|Hgt].
    - pose proof (prefix_le _ Hpos k _ Hle) as H1.
      rewrite prefix_all in H1. lia.
    - rewrite List.firstn_all2 by lia. lia. }
  pose proof (ymd2ord_in_year _ _ _ Hz) as Ho.
  pose proof (days_before_year_supported y ltac:(lia)) as Hb.
  exists leap, zm, zd, bits,
    (py_sum (List.firstn k (monthDays r)) + d - 1).
  split; [exact Hrow|]. split; [exact Eb|].
  unfold lunarToSolar.
  rewrite (formatDate_value y m d None) by (cbn; lia).
  rewrite Eb. cbn [rbind]. rewrite Hrow. cbn [rbind].
  change (py_index [leap; zm; zd; bits] 1) with (Ok zm).
  change (py_index [leap; zm; zd; bits] 2) with (Ok zd). cbn [rbind].
  rewrite (date_new_ok _ _ _ Hz). cbn [rbind].
  rewrite timedelta_days_ok by (unfold Gregorian.MAX_DELTA_DAYS; lia).
  cbn [rbind]. rewrite date_add_ok.
  - reflexivity.
  - unfold Gregorian.toordinal, Gregorian.MAXORDINAL.
    cbn [Gregorian.d_year Gregorian.d_month Gregorian.d_day]. lia.
Qed.

(** ** Round trip *)

(** C2 (round trip), where the code breaks it.  A date of 1891 before the
    first lunar day of the 1891 record belongs to the lunar year 1890:
    [solarToLunar] returns it with [lunarYear = 1890], and [lunarToSolar],
    whose lower bound is 1891, answers that lunar date with the error
    dictionary instead of the solar date. *)
Theorem C2_roundtrip_broken_before_new_year_1891
        (t : list (list Z)) (cache : cache_t)
        (m d leap zenMonth zenDay monthData : Z) :
  table_ok t = true ->
  cache_ok cache ->
  valid_date 1891 m d ->
  py_index t (1891 - minYear) = Ok [leap; zenMonth; zenDay; monthData] ->
  Gregorian.ymd2ord 1891 m d < Gregorian.ymd2ord 1891 zenMonth zenDay ->
  exists (r : LunarInfo) (cache' : cache_t),
    solarToLunar t cache 1891 m d = (Ok (Value r), cache')
    /\ lunarYear r = 1890
    /\ lunarToSolar t (lunarYear r) (lunarMonth r) (lunarDay r)
       = Ok (ErrorDict 100 "Year out of range").
Proof.
  intros Ht Hc Hv Hrow Hlt.
  assert (Hy : minYear <= 1891 <= maxYear) by (unfold minYear, maxYear; lia).
  destruct (solarToLunar_total t cache 1891 m d Ht Hc Hy Hv)
    as (r & cache' & sp & E & _ & _ & _ & Eld & _).
  assert (Hv' : valid_date 1891 (m - 1 + 1) d)
    by (replace (m - 1 + 1) with m by lia; exact Hv).
  destruct (getLunarByBetween_total t 1891 (m - 1) d Ht Hy Hv')
    as (leap0 & zm & zd & bits & between & ly & mo & day & leap'
        & Hrow0 & _ & Hb & Hly & Eld' & _).
  rewrite Hrow in Hrow0. injection Hrow0 as <- <- <- <-.
  replace (m - 1 + 1) with m in Hb by lia.
  destruct (Z.ltb_spec between 0) as [_|?]; [|lia].
  rewrite Eld in Eld'. injection Eld' as Ey _ _. subst ly.
  exists r, cache'. split; [exact E|]. split; [exact Ey|].
  rewrite Ey. reflexivity.
Qed.

(** The theorem at 15 January 1891, on the sample table, whose records of
    1890 and 1891 put the new year on 21 January 1890 and on 9 February
    1891. *)
Lemma C2_roundtrip_broken_witness :
  exists (r : LunarInfo) (cache' : cache_t),
    solarToLunar Sample.lunarInfo ∅ 1891 1 15 = (Ok (Value r), cache')
    /\ lunarYear r = 1890
    /\ lunarToSolar Sample.lunarInfo (lunarYear r) (lunarMonth r) (lunarDay r)
       = Ok (ErrorDict 100 "Year out of range").
Proof.
  apply (C2_roundtrip_broken_before_new_year_1891
           Sample.lunarInfo ∅ 1 15 0 2 9 21936).
  - vm_compute. reflexivity.
  - exact cache_ok_empty.
  - unfold valid_date, Gregorian.MINYEAR, Gregorian.MAXYEAR.
    change (Gregorian.days_in_month 1891 1) with 31. lia.
  - reflexivity.
  - vm_compute. reflexivity.
Defined.

(** ** The Gregorian calendar: ordinals and dates *)

Lemma is_leap_decomp (a b c e : Z) :
  0 <= b <= 3 -> 0 <= c <= 24 -> 0 <= e <= 3 ->
  Gregorian.is_leap (400 * a + 100 * b + 4 * c + e + 1)
  = (e =? 3) && (negb (c =? 24) || (b =? 3)).
Proof.
  intros Hb Hc He. unfold Gregorian.is_leap.
  set (y := 400 * a + 100 * b + 4 * c + e + 1).
  assert (H4 : y mod 4 = (e + 1) mod 4)
    by (subst y; Z.div_mod_to_equations; lia).
  assert (H100 : y mod 100 = (4 * c + e + 1) mod 100)
    by (subst y; Z.div_mod_to_equations; lia).
  assert (H400 : y mod 400 = (100 * b + 4 * c + e + 1) mod 400)
    by (subst y; Z.div_mod_to_equations; lia).
  rewrite H4, H100, H400.
  destruct (Z.eqb_spec e 3), (Z.eqb_spec c 24), (Z.eqb_spec b 3);
    destruct (Z.eqb_spec ((e + 1) mod 4) 0);
    destruct (Z.eqb_spec ((4 * c + e + 1) mod 100) 0);
    destruct (Z.eqb_spec ((100 * b + 4 * c + e + 1) mod 400) 0);
    cbn; try reflexivity; exfalso; Z.div_mod_to_equations; lia.
Qed.

Ltac calendar_compute_in H :=
  cbv [Gregorian.tbl Z.to_nat Pos.to_nat Pos.iter_op Nat.add List.nth Z.eqb
       Z.gtb Z.compare Pos.compare Pos.compare_cont andb Pos.eqb
       Gregorian.DAYS_IN_MONTH Gregorian.DAYS_BEFORE_MONTH] in H.

Ltac is_Z_literal v :=
  lazymatch v with
  | Z0 => idtac
  | Zpos _ => idtac
  | Zneg _ => idtac
  end.

Ltac is_bool_literal v :=
  lazymatch v with
  | true => idtac
  | false => idtac
  end.

(** Evaluate the table lookups and the comparisons of literals. *)
Ltac eval_closed :=
  repeat match goal with
         | |- context [Gregorian.tbl ?T ?k] =>
             let v := eval vm_compute in (Gregorian.tbl T k) in
             is_Z_literal v; change (Gregorian.tbl T k) with v
         | |- context [?a >? ?b] =>
             let v := eval vm_compute in (a >? b) in
             is_bool_literal v; change (a >? b) with v
         | |- context [?a =? ?b] =>
             let v := eval vm_compute in (a =? b) in
             is_bool_literal v; change (a =? b) with v
         end;
  cbv beta iota delta [andb].

Ltac finish_month :=
  eval_closed;
  repeat match goal with
         | |- context [?a >? ?b] => destruct (Z.gtb_spec a b)
         end;
  first [ solve [repeat f_equal; lia]
        | exfalso; Z.div_mod_to_equations; lia ].

Ltac month_case :=
  eval_closed;
  match goal with
  | Hm : 1 <= ?k <= 12 |- context [(?n + 50) / 32] =>
      let q := fresh "q" in
      let Hq := fresh "Hq" in
      remember ((n + 50) / 32) as q eqn:Hq;
      let Ck := fresh "Ck" in
      assert (Ck : q = k \/ q = k + 1) by (Z.div_mod_to_equations; lia);
      destruct Ck as [Ck|Ck]; rewrite Ck in *; finish_month
  end.

Lemma year_decomp (y : Z) :
  1 <= y ->
  exists a b c e,
    0 <= a /\ 0 <= b <= 3 /\ 0 <= c <= 24 /\ 0 <= e <= 3
    /\ y = 400 * a + 100 * b + 4 * c + e + 1
    /\ Gregorian.days_before_year y
       = 146097 * a + 36524 * b + 1461 * c + 365 * e.
Proof.
  intros Hy.
  exists ((y - 1) / 400), ((y - 1) mod 400 / 100), ((y - 1) mod 100 / 4),
    ((y - 1) mod 4).
  unfold Gregorian.days_before_year. cbv zeta.
  Z.div_mod_to_equations. lia.
Qed.

(** The day of the year, counted from 0, of a date. *)
Lemma day_of_year_bounds (y m d : Z) :
  1 <= m <= 12 ->
  1 <= d <= Gregorian.days_in_month y m ->
  0 <= Gregorian.days_before_month y m + d - 1
    <= 364 + (if Gregorian.is_leap y then 1 else 0).
Proof.
  intros Hm Hd.
  unfold Gregorian.days_before_month.
  unfold Gregorian.days_in_month in Hd. unfold Gregorian.tbl in *.
  assert (C : m = 1 \/ m = 2 \/ m = 3 \/ m = 4 \/ m = 5 \/ m = 6 \/ m = 7
              \/ m = 8 \/ m = 9 \/ m = 10 \/ m = 11 \/ m = 12) by lia.
  destruct (Gregorian.is_leap y);
    repeat (destruct C as [->|C]; [calendar_compute; lia|]);
    subst m; calendar_compute; lia.
Qed.

(** The second half of [_ord2ymd]: from the day of the year [n], counted from
    0, and the leap flag to the month and the day. *)
Lemma month_day_of_doy (leapyear : bool) (year m d : Z) :
  1 <= m <= 12 ->
  1 <= d <= (if (m =? 2) && leapyear then 29
             else Gregorian.tbl Gregorian.DAYS_IN_MONTH m) ->
  let n := Gregorian.tbl Gregorian.DAYS_BEFORE_MONTH m
           + (if (m >? 2) && leapyear then 1 else 0) + d - 1 in
  (let month := Z.shiftr (n + 50) 5 in
   let preceding :=
     Gregorian.tbl Gregorian.DAYS_BEFORE_MONTH month
     + (if (month >? 2) && leapyear then 1 else 0) in
   if preceding >? n
   then
     let month := month - 1 in
     let preceding :=
       preceding
       - (Gregorian.tbl Gregorian.DAYS_IN_MONTH month
          + (if (month =? 2) && leapyear then 1 else 0)) in
     (year, month, n - preceding + 1)
   else (year, month, n - preceding + 1))
  = (year, m, d).
Proof.
  intros Hm Hd. cbv zeta. rewrite Z.shiftr_div_pow2 by lia.
  change (2 ^ 5) with 32.
  assert (C : m = 1 \/ m = 2 \/ m = 3 \/ m = 4 \/ m = 5 \/ m = 6 \/ m = 7
              \/ m = 8 \/ m = 9 \/ m = 10 \/ m = 11 \/ m = 12) by lia.
  destruct leapyear;
    repeat (destruct C as [->|C]; [calendar_compute_in Hd; month_case|]);
    subst m; calendar_compute_in Hd; month_case.
Qed.

Lemma ord2ymd_ymd2ord_from_1 (y m d : Z) :
  1 <= y ->
  1 <= m <= 12 ->
  1 <= d <= Gregorian.days_in_month y m ->
  Gregorian.ord2ymd (Gregorian.ymd2ord y m d) = (y, m, d).
Proof.
  intros Hy Hm Hd. pose proof (day_of_year_bounds y m d Hm Hd) as Hdoy.
  destruct (year_decomp y ltac:(lia))
    as (a & b & c & e & Ha & Hb & Hc & He & Ey & Edby).
  pose proof (is_leap_decomp a b c e Hb Hc He) as Eleap.
  rewrite <- Ey in Eleap.
  pose proof (month_day_of_doy (Gregorian.is_leap y) y m d Hm) as Hmd.
  unfold Gregorian.ymd2ord. rewrite Edby.
  unfold Gregorian.days_in_month in Hd. specialize (Hmd Hd).
  unfold Gregorian.days_before_month in *. cbv zeta in Hmd.
  set (L := Gregorian.is_leap y) in *.
  unfold Gregorian.ord2ymd. cbv zeta.
  unfold Gregorian.DI400Y, Gregorian.DI100Y, Gregorian.DI4Y.
  set (dbm := Gregorian.tbl Gregorian.DAYS_BEFORE_MONTH m
              + (if (m >? 2) && L then 1 else 0)) in *.
  replace (146097 * a + 36524 * b + 1461 * c + 365 * e + dbm + d - 1)
    with (146097 * a + (36524 * b + 1461 * c + 365 * e + (dbm + d - 1)))
    by lia.
  set (doy := dbm + d - 1) in *.
  assert (E1 : (146097 * a + (36524 * b + 1461 * c + 365 * e + doy)) / 146097
               = a) by (destruct L; Z.div_mod_to_equations; lia).
  assert (E2 : (146097 * a + (36524 * b + 1461 * c + 365 * e + doy))
                 mod 146097
               = 36524 * b + 1461 * c + 365 * e + doy)
    by (destruct L; Z.div_mod_to_equations; lia).
  rewrite E1, E2. clear E1 E2.
  assert (HL : L = true -> e = 3 /\ (c <> 24 \/ b = 3)).
  { intros HLt. rewrite HLt in Eleap. symmetry in Eleap.
    apply andb_prop in Eleap. destruct Eleap as [H1 H2].
    apply Z.eqb_eq in H1. split; [exact H1|].
    apply Bool.orb_prop in H2. destruct H2 as [H2|H2].
    - left. apply Bool.negb_true_iff, Z.eqb_neq in H2. exact H2.
    - right. apply Z.eqb_eq in H2. exact H2. }
  destruct (Z.eq_dec doy 365) as [E365|N365].
  - (* the last day of a leap year *)
    assert (HLt : L = true) by (destruct L; [reflexivity | lia]).
    destruct (HL HLt) as [-> Hcb].
    assert (Emd : m = 12 /\ d = 31).
    { subst doy dbm. rewrite HLt in *.
      assert (C : m = 1 \/ m = 2 \/ m = 3 \/ m = 4 \/ m = 5 \/ m = 6 \/ m = 7
                  \/ m = 8 \/ m = 9 \/ m = 10 \/ m = 11 \/ m = 12) by lia.
      clear Hmd Eleap HL.
      repeat (destruct C as [->|C];
              [calendar_compute_in Hd; calendar_compute_in E365; lia|]).
      subst m. calendar_compute_in Hd. calendar_compute_in E365. lia. }
    destruct Emd as [-> ->]. rewrite E365.
    destruct (Z.eq_dec c 24) as [->|Nc].
    + assert (b = 3) by lia. subst b.
      change (36524 * 3 + 1461 * 24 + 365 * 3 + 365) with 146096.
      change (146096 / 36524) with 4. change (146096 mod 36524) with 0.
      change (0 / 1461) with 0. change (0 mod 1461) with 0.
      change (0 / 365) with 0. change (4 =? 4) with true.
      rewrite Bool.orb_true_r. f_equal. f_equal. lia.
    + assert (E3 : (36524 * b + 1461 * c + 365 * 3 + 365) / 36524 = b)
        by (Z.div_mod_to_equations; lia).
      assert (E4 : (36524 * b + 1461 * c + 365 * 3 + 365) mod 36524
                   = 1461 * c + 1460) by (Z.div_mod_to_equations; lia).
      rewrite E3, E4.
      assert (E5 : (1461 * c + 1460) / 1461 = c)
        by (Z.div_mod_to_equations; lia).
      assert (E6 : (1461 * c + 1460) mod 1461 = 1460)
        by (Z.div_mod_to_equations; lia).
      rewrite E5, E6. change (1460 / 365) with 4.
      change (4 =? 4) with true. cbn [orb]. f_equal. f_equal. lia.
  - assert (Hd364 : 0 <= doy <= 364) by (destruct L; lia).
    assert (E3 : (36524 * b + 1461 * c + 365 * e + doy) / 36524 = b)
      by (Z.div_mod_to_equations; lia).
    assert (E4 : (36524 * b + 1461 * c + 365 * e + doy) mod 36524
                 = 1461 * c + 365 * e + doy)
      by (Z.div_mod_to_equations; lia).
    rewrite E3, E4. clear E3 E4.
    assert (E5 : (1461 * c + 365 * e + doy) / 1461 = c)
      by (Z.div_mod_to_equations; lia).
    assert (E6 : (1461 * c + 365 * e + doy) mod 1461 = 365 * e + doy)
      by (Z.div_mod_to_equations; lia).
    rewrite E5, E6. clear E5 E6.
    assert (E7 : (365 * e + doy) / 365 = e)
      by (Z.div_mod_to_equations; lia).
    assert (E8 : (365 * e + doy) mod 365 = doy)
      by (Z.div_mod_to_equations; lia).
    rewrite E7, E8. clear E7 E8.
    destruct (Z.eqb_spec e 4) as [?|_]; [lia|].
    destruct (Z.eqb_spec b 4) as [?|_]; [lia|]. cbn [orb].
    rewrite <- Eleap.
    replace (a * 400 + 1 + b * 100 + c * 4 + e) with y by lia.
    exact Hmd.
Qed.

(** [date.fromordinal(d.toordinal()) == d] *)
Lemma ord2ymd_ymd2ord (y m d : Z) :
  valid_date y m d ->
  Gregorian.ord2ymd (Gregorian.ymd2ord y m d) = (y, m, d).
Proof.
  intros (Hy & Hm & Hd). unfold Gregorian.MINYEAR in Hy.
  apply ord2ymd_ymd2ord_from_1; [lia | exact Hm | exact Hd].
Qed.

Lemma days_before_year_succ (y : Z) :
  1 <= y ->
  Gregorian.days_before_year (y + 1)
  = Gregorian.days_before_year y
    + (if Gregorian.is_leap y then 366 else 365).
Proof.
  intros Hy. unfold Gregorian.days_before_year, Gregorian.is_leap. cbv zeta.
  replace (y + 1 - 1) with y by lia.
  destruct (Z.eqb_spec (y mod 4) 0), (Z.eqb_spec (y mod 100) 0),
    (Z.eqb_spec (y mod 400) 0); cbn [negb andb orb];
    Z.div_mod_to_equations; lia.
Qed.

Lemma days_in_month_pos (y m : Z) :
  1 <= m <= 12 -> 28 <= Gregorian.days_in_month y m.
Proof.
  intros Hm. unfold Gregorian.days_in_month.
  assert (C : m = 1 \/ m = 2 \/ m = 3 \/ m = 4 \/ m = 5 \/ m = 6 \/ m = 7
              \/ m = 8 \/ m = 9 \/ m = 10 \/ m = 11 \/ m = 12) by lia.
  destruct (Gregorian.is_leap y);
    repeat (destruct C as [->|C]; [vm_compute; discriminate|]);
    subst m; vm_compute; discriminate.
Qed.

Lemma ymd2ord_next_month (y m : Z) :
  1 <= m < 12 ->
  Gregorian.ymd2ord y (m + 1) 1
  = Gregorian.ymd2ord y m (Gregorian.days_in_month y m) + 1.
Proof.
  intros Hm.
  unfold Gregorian.ymd2ord, Gregorian.days_before_month,
    Gregorian.days_in_month.
  assert (C : m = 1 \/ m = 2 \/ m = 3 \/ m = 4 \/ m = 5 \/ m = 6 \/ m = 7
              \/ m = 8 \/ m = 9 \/ m = 10 \/ m = 11) by lia.
  destruct (Gregorian.is_leap y);
    repeat (destruct C as [->|C]; [eval_closed; lia|]);
    subst m; eval_closed; lia.
Qed.

Lemma ymd2ord_next_year (y : Z) :
  1 <= y ->
  Gregorian.ymd2ord (y + 1) 1 1 = Gregorian.ymd2ord y 12 31 + 1.
Proof.
  intros Hy. unfold Gregorian.ymd2ord. rewrite days_before_year_succ by lia.
  unfold Gregorian.days_before_month.
  destruct (Gregorian.is_leap y), (Gregorian.is_leap (y + 1));
    eval_closed; lia.
Qed.

(** Every ordinal from 1 on is the ordinal of a date. *)
Lemma ordinal_is_date (o : Z) :
  1 <= o ->
  exists y m d,
    1 <= y /\ 1 <= m <= 12 /\ 1 <= d <= Gregorian.days_in_month y m
    /\ Gregorian.ymd2ord y m d = o.
Proof.
  intros Ho. replace o with (1 + (o - 1)) by lia.
  assert (Hn : 0 <= o - 1) by lia. revert Hn.
  generalize (o - 1). clear o Ho. intros n Hn. pattern n.
  apply natlike_ind; [| |exact Hn]; clear n Hn.
  - exists 1, 1, 1. repeat split; vm_compute; congruence.
  - intros n Hn (y & m & d & Hy & Hm & Hd & E).
    destruct (Z.lt_ge_cases d (Gregorian.days_in_month y m)) as [Hlt|Hge].
    + exists y, m, (d + 1). repeat split; try lia.
      unfold Gregorian.ymd2ord in *. lia.
    + assert (d = Gregorian.days_in_month y m) by lia. subst d.
      destruct (Z.lt_ge_cases m 12) as [Hm12|Hm12].
      * exists y, (m + 1), 1. pose proof (days_in_month_pos y (m + 1)).
        repeat split; try lia. rewrite ymd2ord_next_month by lia. lia.
      * assert (m = 12) by lia. subst m.
        exists (y + 1), 1, 1. pose proof (days_in_month_pos (y + 1) 1).
        repeat split; try lia. rewrite ymd2ord_next_year by lia.
        assert (E31 : Gregorian.days_in_month y 12 = 31)
          by (unfold Gregorian.days_in_month; eval_closed; reflexivity).
        rewrite E31 in E. lia.
Qed.

Lemma days_before_year_mono (y n : Z) :
  1 <= y -> 0 <= n ->
  Gregorian.days_before_year y + 365 * n
  <= Gregorian.days_before_year (y + n).
Proof.
  intros Hy Hn. pattern n. apply natlike_ind; [| |exact Hn]; cbv beta.
  - replace (y + 0) with y by lia. lia.
  - intros k Hk IH. replace (y + Z.succ k) with (y + k + 1) by lia.
    rewrite days_before_year_succ by lia.
    destruct (Gregorian.is_leap (y + k)); lia.
Qed.

(** [date.fromordinal(n)] is a date of the calendar, and
    [date.fromordinal(n).toordinal() == n]. *)
Lemma ymd2ord_ord2ymd (o : Z) :
  1 <= o <= Gregorian.MAXORDINAL ->
  exists y m d,
    Gregorian.ord2ymd o = (y, m, d)
    /\ valid_date y m d
    /\ Gregorian.ymd2ord y m d = o.
Proof.
  intros [Ho Hmax].
  destruct (ordinal_is_date o Ho) as (y & m & d & Hy & Hm & Hd & E).
  exists y, m, d. split; [|split].
  - rewrite <- E. now apply ord2ymd_ymd2ord_from_1.
  - unfold valid_date, Gregorian.MINYEAR, Gregorian.MAXYEAR.
    split; [|split; assumption]. split; [lia|].
    destruct (Z.le_gt_cases y 9999) as [?|Hbig]; [assumption|exfalso].
    pose proof (days_before_year_mono 10000 (y - 10000) ltac:(lia)
                  ltac:(lia)) as Hmono.
    replace (10000 + (y - 10000)) with y in Hmono by lia.
    change (Gregorian.days_before_year 10000) with 3652059 in Hmono.
    pose proof (day_of_year_bounds y m d Hm Hd).
    unfold Gregorian.ymd2ord, Gregorian.MAXORDINAL in *. lia.
  - exact E.
Qed.

(** ** Consistent tables *)

Lemma lunarYearStart_row (t : list (list Z)) (y leap zm zd bits : Z) :
  py_index t (y - minYear) = Ok [leap; zm; zd; bits] ->
  lunarYearStart t y = Ok (Gregorian.ymd2ord y zm zd).
Proof.
  intros Hrow. unfold lunarYearStart. rewrite Hrow. reflexivity.
Qed.

Lemma lunarYearEnd_row (t : list (list Z)) (y leap zm zd bits : Z)
      (r : LunarYearDays) :
  py_index t (y - minYear) = Ok [leap; zm; zd; bits] ->
  getLunarYearDays t y = Ok r ->
  lunarYearEnd t y = Ok (Gregorian.ymd2ord y zm zd + yearDays r).
Proof.
  intros Hrow Hr. unfold lunarYearEnd.
  rewrite (lunarYearStart_row _ _ _ _ _ _ Hrow). cbn [rbind].
  rewrite Hr. reflexivity.
Qed.

(** In a consistent table the lunar year of a record ends on the day before
    the next record's first day. *)
Lemma table_consistent_next (t : list (list Z)) (y : Z) (e s : Z) :
  table_consistent t = true ->
  minYear <= y < maxYear ->
  lunarYearEnd t y = Ok e ->
  lunarYearStart t (y + 1) = Ok s ->
  e = s.
Proof.
  unfold table_consistent. intros H Hy He Hs.
  apply andb_prop in H. destruct H as [H _].
  pose proof (forallb_range _ _ H (y - minYear) ltac:(lia)) as Hk.
  cbv beta in Hk.
  replace (minYear + (y - minYear)) with y in Hk by lia.
  rewrite He, Hs in Hk. apply Z.eqb_eq in Hk. exact Hk.
Qed.

Lemma table_consistent_last (t : list (list Z)) (e : Z) :
  table_consistent t = true ->
  lunarYearEnd t maxYear = Ok e ->
  Gregorian.ymd2ord maxYear 12 31 < e.
Proof.
  unfold table_consistent. intros H He.
  apply andb_prop in H. destruct H as [_ H].
  rewrite He in H. cbn [on_ok2] in H. apply Z.gtb_lt in H. exact H.
Qed.

Lemma sample_consistent : table_consistent Sample.lunarInfo = true.
Proof. vm_compute. reflexivity. Qed.

(** ** Round trips *)

(** [__getLunarDateByBetween] for an offset that falls inside the lunar
    year: the month that holds it and the day in that month. *)
Lemma getLunarDateByBetween_inside (t : list (list Z)) (ly between : Z)
      (r : LunarYearDays) :
  getLunarYearDays t ly = Ok r ->
  0 <= (if between >? 0 then between else yearDays r + between)
    < yearDays r ->
  exists j : nat,
    (j < List.length (monthDays r))%nat
    /\ py_sum (List.firstn j (monthDays r))
       <= (if between >? 0 then between else yearDays r + between)
       < py_sum (List.firstn (S j) (monthDays r))
    /\ getLunarDateByBetween t ly between
       = Ok (ly, Z.of_nat j,
             (if between >? 0 then between else yearDays r + between)
             - py_sum (List.firstn j (monthDays r)) + 1).
Proof.
  intros Hr Hend.
  destruct (getLunarYearDays_shape _ _ _ Hr) as (Hsum & Hval & _).
  assert (Hpos : forall x, List.In x (monthDays r) -> 0 < x).
  { intros x Hx. destruct (Hval x Hx); lia. }
  set (end_ := if between >? 0 then between else yearDays r + between) in *.
  unfold getLunarDateByBetween. rewrite Hr. cbn [rbind]. fold end_.
  rewrite range_py_len.
  destruct (find_month_from (monthDays r) Hpos end_
              (List.length (monthDays r)) 0 0 eq_refl)
    as [(j & Hj & Hb & E)|[Hb E]].
  - change (py_sum (List.firstn 0 (monthDays r))) with 0. lia.
  - change (py_sum (List.firstn 0 (monthDays r))) with 0 in E.
    exists j. split; [lia|]. split; [exact Hb|].
    rewrite E. reflexivity.
  - lia.
Qed.

(** [lunarToSolar] on the month of index [j] of a year from 1891 on: the
    first day of the record plus the days before the month plus the day. *)
Lemma lunarToSolar_of_offset (t : list (list Z)) (ly : Z) (j : nat)
      (day leap zm zd bits : Z) (r : LunarYearDays) :
  table_ok t = true ->
  minYear + 1 <= ly <= maxYear ->
  py_index t (ly - minYear) = Ok [leap; zm; zd; bits] ->
  getLunarYearDays t ly = Ok r ->
  - 100000 <= day <= 100000 ->
  lunarToSolar t ly (Z.of_nat j + 1) day
  = Ok (Value
          (let dt := Gregorian.fromordinal
                       (Gregorian.ymd2ord ly zm zd
                        + (py_sum (List.firstn j (monthDays r)) + day - 1))
           in mkSolarInfo (Gregorian.d_year dt) (Gregorian.d_month dt)
                          (Gregorian.d_day dt))).
Proof.
  intros Ht Hy Hrow Hr Hday.
  destruct (lunarToSolar_any_day t ly (Z.of_nat j + 1) day Ht Hy Hday)
    as (leap' & zm' & zd' & bits' & between & Hrow' & Eb & E).
  rewrite Hrow in Hrow'. injection Hrow' as <- <- <- <-.
  rewrite (getDaysBetweenZheng_eq t ly r _ day Hr) in Eb.
  injection Eb as <-.
  replace (Z.to_nat (Z.of_nat j + 1 - 1)) with j in E by lia.
  exact E.
Qed.

Lemma fromordinal_ymd2ord (y m d : Z) :
  valid_date y m d ->
  Gregorian.fromordinal (Gregorian.ymd2ord y m d) = Gregorian.mkdate y m d.
Proof.
  intros Hv. unfold Gregorian.fromordinal.
  now rewrite (ord2ymd_ymd2ord y m d Hv).
Qed.

(** The ordinal of a date is at most the last day of its year. *)
Lemma ymd2ord_le_year_end (y m d : Z) :
  valid_date y m d ->
  Gregorian.days_before_year y + 1 <= Gregorian.ymd2ord y m d
  <= Gregorian.ymd2ord y 12 31.
Proof.
  intros Hv. pose proof (ymd2ord_in_year y m d Hv) as H.
  destruct Hv as (_ & Hm & Hd).
  pose proof (day_of_year_bounds y m d Hm Hd) as Hdoy.
  unfold Gregorian.ymd2ord in *. split; [lia|].
  unfold Gregorian.days_before_month at 2.
  destruct (Gregorian.is_leap y); eval_closed; lia.
Qed.

Lemma ymd2ord_year_end (y : Z) :
  1 <= y ->
  Gregorian.ymd2ord y 12 31 = Gregorian.days_before_year (y + 1).
Proof.
  intros Hy. rewrite days_before_year_succ by lia.
  unfold Gregorian.ymd2ord, Gregorian.days_before_month.
  destruct (Gregorian.is_leap y); eval_closed; lia.
Qed.

(** The first lunar day of the next record, in a consistent table, comes
    after the last day of the solar year. *)
Lemma lunar_year_covers_solar_year (t : list (list Z)) (y leap zm zd bits : Z)
      (r : LunarYearDays) :
  table_ok t = true ->
  table_consistent t = true ->
  minYear <= y <= maxYear ->
  py_index t (y - minYear) = Ok [leap; zm; zd; bits] ->
  getLunarYearDays t y = Ok r ->
  Gregorian.ymd2ord y 12 31 < Gregorian.ymd2ord y zm zd + yearDays r.
Proof.
  intros Ht Hc Hy Hrow Hr.
  pose proof (lunarYearEnd_row t y _ _ _ _ r Hrow Hr) as He.
  destruct (Z.eq_dec y maxYear) as [->|Hne].
  - apply (table_consistent_last t _ Hc He).
  - destruct (table_ok_row t (y + 1) Ht ltac:(lia))
      as (leap' & zm' & zd' & bits' & Hrow' & _ & Hv').
    replace (y + 1 - minYear) with (y + 1 - minYear) in Hrow' by lia.
    pose proof (lunarYearStart_row t (y + 1) _ _ _ _ Hrow') as Hs.
    pose proof (table_consistent_next t y _ _ Hc ltac:(lia) He Hs) as E.
    rewrite E. pose proof (ymd2ord_le_year_end _ _ _ Hv') as Hb.
    rewrite ymd2ord_year_end by (unfold minYear in Hy; lia). lia.
Qed.

(** The year of the date of an ordinal that lies between the first days of
    two consecutive years. *)
Lemma ymd2ord_year_unique (y y' m d : Z) :
  1 <= y ->
  valid_date y' m d ->
  Gregorian.days_before_year y < Gregorian.ymd2ord y' m d
  <= Gregorian.days_before_year (y + 1) ->
  y' = y.
Proof.
  intros Hy Hv Hb.
  pose proof (ymd2ord_le_year_end _ _ _ Hv) as Hb'.
  assert (Hy' : 1 <= y') by (destruct Hv as ((? & _) & _); assumption).
  rewrite ymd2ord_year_end in Hb' by exact Hy'.
  destruct (Z.lt_trichotomy y' y) as [Hlt|[Heq|Hgt]]; [|exact Heq|].
  - pose proof (days_before_year_mono (y' + 1) (y - (y' + 1)) ltac:(lia)
                  ltac:(lia)) as Hm.
    replace (y' + 1 + (y - (y' + 1))) with y in Hm by lia. lia.
  - pose proof (days_before_year_mono (y + 1) (y' - (y + 1)) ltac:(lia)
                  ltac:(lia)) as Hm.
    replace (y + 1 + (y' - (y + 1))) with y' in Hm by lia. lia.
Qed.

(** X2 (round trip from the lunar side).  On a consistent table, for a day
    of a month of a lunar year from 1891 on, [solarToLunar] maps the solar
    date that [lunarToSolar] returns back to the lunar date, as long as that
    solar date is not past 2100. *)
Theorem lunar_solar_lunar_roundtrip (t : list (list Z)) (cache : cache_t)
        (ly m d md : Z) (r : LunarYearDays) (s : SolarInfo) :
  table_ok t = true ->
  table_consistent t = true ->
  cache_ok cache ->
  minYear + 1 <= ly <= maxYear ->
  getLunarYearDays t ly = Ok r ->
  1 <= m ->
  py_index (monthDays r) (m - 1) = Ok md ->
  1 <= d <= md ->
  lunarToSolar t ly m d = Ok (Value s) ->
  year s <= maxYear ->
  exists (r' : LunarInfo) (cache' : cache_t),
    solarToLunar t cache (year s) (month s) (day s) = (Ok (Value r'), cache')
    /\ lunarYear r' = ly /\ lunarMonth r' = m /\ lunarDay r' = d.
Proof.
  intros Ht Hcons Hc Hly Hr Hm Hmd Hd Hs Hmax.
  destruct (getLunarYearDays_shape _ _ _ Hr) as (Hsum & Hval & Hl13).
  assert (Hpos : forall x, List.In x (monthDays r) -> 0 < x).
  { intros x Hx. destruct (Hval x Hx); lia. }
  assert (Hyd : yearDays r <= 390).
  { pose proof (py_sum_bounds _ Hval) as Hs'. unfold py_len in Hs'. lia. }
  destruct (offset_inverse t ly r (m - 1) d md Hr ltac:(lia) Hmd Hd)
    as [_ Einv].
  pose proof Hmd as Hmd'. apply py_index_ok_inv in Hmd'.
  destruct Hmd' as [Hlen Hnth].
  destruct (Z.ltb_spec (m - 1) 0) as [?|_]; [lia|].
  set (j := Z.to_nat (m - 1)) in *.
  assert (Hj : (j < List.length (monthDays r))%nat)
    by (unfold py_len in Hlen; lia).
  set (off := py_sum (List.firstn j (monthDays r)) + d - 1) in *.
  assert (Hmdv : md <= 30)
    by (destruct (Hval md); [eapply List.nth_error_In; eauto|..]; lia).
  assert (Hoff : 0 <= off < yearDays r).
  { pose proof (prefix_le _ Hpos 0 j ltac:(lia)) as H0.
    change (py_sum (List.firstn 0 (monthDays r))) with 0 in H0.
    pose proof (prefix_le _ Hpos (S j) (List.length (monthDays r))
                  ltac:(lia)) as H1.
    rewrite prefix_all, prefix_S in H1 by exact Hj.
    rewrite (List.nth_error_nth _ _ 0 Hnth) in H1. lia. }
  destruct (table_ok_row t ly Ht ltac:(lia))
    as (leap & zm & zd & bits & Hrow & _ & Hz).
  pose proof (lunarToSolar_of_offset t ly j d _ _ _ _ r Ht Hly Hrow Hr
                ltac:(lia)) as Els.
  replace (Z.of_nat j + 1) with m in Els by lia. fold off in Els.
  rewrite Els in Hs. cbv zeta in Hs.
  remember (Gregorian.ymd2ord ly zm zd + off) as o eqn:Eodef.
  pose proof (ymd2ord_le_year_end _ _ _ Hz) as Hzb.
  pose proof (ymd2ord_in_year _ _ _ Hz) as Hzy.
  pose proof (days_before_year_supported ly ltac:(lia)) as Hdb.
  pose proof (lunar_year_covers_solar_year t ly _ _ _ _ r Ht Hcons
                ltac:(lia) Hrow Hr) as Hcov.
  destruct (ymd2ord_ord2ymd o) as (sy & sm & sd & Eo & Hsv & Eord).
  { unfold Gregorian.MAXORDINAL. lia. }
  assert (Ef : Gregorian.fromordinal o = Gregorian.mkdate sy sm sd).
  { unfold Gregorian.fromordinal. rewrite Eo. reflexivity. }
  rewrite Ef in Hs. injection Hs as <-. cbn [year month day] in Hmax |- *.
  assert (Hsy : minYear <= sy <= maxYear).
  { split; [|exact Hmax].
    destruct (Z.lt_ge_cases sy ly) as [Hlt|?]; [exfalso | lia].
    pose proof (ymd2ord_le_year_end _ _ _ Hsv) as Hsb.
    assert (1 <= sy) by (destruct Hsv as ((? & _) & _); assumption).
    rewrite ymd2ord_year_end in Hsb by assumption.
    pose proof (days_before_year_mono (sy + 1) (ly - (sy + 1)) ltac:(lia)
                  ltac:(lia)) as Hmono.
    replace (sy + 1 + (ly - (sy + 1))) with ly in Hmono by lia.
    lia. }
  destruct (solarToLunar_total t cache sy sm sd Ht Hc Hsy Hsv)
    as (r' & cache' & sp & E & _ & _ & _ & Eld & _).
  exists r', cache'. split; [exact E|].
  assert (Hsv' : valid_date sy (sm - 1 + 1) sd)
    by (replace (sm - 1 + 1) with sm by lia; exact Hsv).
  destruct (getLunarByBetween_total t sy (sm - 1) sd Ht Hsy Hsv')
    as (leapS & zmS & zdS & bitsS & between & ly' & mo & day & leap'
        & HrowS & HzS & Hb & Ely & Eld' & Edate & Ezero & _).
  replace (sm - 1 + 1) with sm in Hb by lia. rewrite Eord in Hb.
  rewrite Eld in Eld'. unfold lunarDateOf in Eld'.
  injection Eld' as Ey Em Ed.
  assert (Egoal : ly' = ly /\ mo = m - 1 /\ day = d);
    [|destruct Egoal as (? & ? & ?); repeat split; lia].
  destruct (Z.eq_dec sy ly) as [Esy|Nsy].
  - (* the solar date is in the year of the record *)
    subst sy. rewrite Hrow in HrowS. injection HrowS as <- <- <- <-.
    assert (Hbo : between = off) by lia. clear Hb. subst between.
    destruct (Z.ltb_spec off 0) as [?|_]; [lia|].
    split; [exact Ely|].
    destruct (Z.eq_dec off 0) as [E0|Hne].
    + destruct (Ezero E0) as [-> ->].
      assert (Hj0 : j = 0%nat).
      { destruct j as [|k] eqn:Ek; [reflexivity|exfalso].
        pose proof (prefix_lt _ Hpos 0 (S k) ltac:(lia)) as Hlt.
        change (py_sum (List.firstn 0 (monthDays r))) with 0 in Hlt.
        subst off. lia. }
      subst off. rewrite Hj0 in *.
      change (py_sum (List.firstn 0 (monthDays r))) with 0 in E0. lia.
    + specialize (Edate Hne). rewrite Ely in Edate.
      fold j in Einv. fold off in Einv. rewrite Einv in Edate.
      injection Edate as <- <-. split; reflexivity.
  - (* the solar date is in the next year *)
    assert (Hnext : sy = ly + 1).
    { assert (Hlt : ly < sy).
      { destruct (Z.lt_ge_cases ly sy) as [?|Hge]; [assumption|exfalso].
        assert (sy < ly) by lia.
        pose proof (ymd2ord_le_year_end _ _ _ Hsv) as Hsb.
        assert (1 <= sy) by (destruct Hsv as ((? & _) & _); assumption).
        rewrite ymd2ord_year_end in Hsb by assumption.
        pose proof (days_before_year_mono (sy + 1) (ly - (sy + 1))
                      ltac:(lia) ltac:(lia)) as Hmono.
        replace (sy + 1 + (ly - (sy + 1))) with ly in Hmono by lia.
        lia. }
      destruct (Z.eq_dec sy (ly + 1)) as [?|Hne2]; [assumption|exfalso].
      (* the lunar year ends on the first lunar day of the next record *)
      destruct (table_ok_row t (ly + 1) Ht ltac:(lia))
        as (l1 & zm1 & zd1 & b1 & Hrow1 & _ & Hz1).
      pose proof (lunarYearEnd_row t ly _ _ _ _ r Hrow Hr) as He.
      pose proof (lunarYearStart_row t (ly + 1) _ _ _ _ Hrow1) as Hs1.
      pose proof (table_consistent_next t ly _ _ Hcons ltac:(lia) He Hs1)
        as Econs.
      pose proof (ymd2ord_le_year_end _ _ _ Hz1) as Hz1b.
      rewrite ymd2ord_year_end in Hz1b by (unfold minYear in *; lia).
      pose proof (ymd2ord_le_year_end _ _ _ Hsv) as Hsb.
      pose proof (days_before_year_mono (ly + 1 + 1) (sy - (ly + 1 + 1))
                    ltac:(unfold minYear in *; lia) ltac:(lia)) as Hmono.
      replace (ly + 1 + 1 + (sy - (ly + 1 + 1))) with sy in Hmono by lia.
      lia. }
    subst sy.
    pose proof (lunarYearEnd_row t ly _ _ _ _ r Hrow Hr) as He.
    pose proof (lunarYearStart_row t (ly + 1) _ _ _ _ HrowS) as Hs1.
    pose proof (table_consistent_next t ly _ _ Hcons ltac:(lia) He Hs1)
      as Econs.
    assert (Hbneg : between < 0) by lia.
    destruct (Z.ltb_spec between 0) as [_|?]; [|lia].
    replace (ly + 1 - 1) with ly in Ely by lia.
    split; [exact Ely|]. subst ly'.
    specialize (Edate ltac:(lia)).
    assert (Eend : yearDays r + between = off) by lia.
    assert (Hoffpos : 0 < off).
    { pose proof (ymd2ord_le_year_end _ _ _ Hsv) as Hsb.
      rewrite ymd2ord_year_end in Hzb by (unfold minYear in *; lia).
      lia. }
    (* both calls run the month loop on the same offset *)
    assert (Esame : getLunarDateByBetween t ly between
                    = getLunarDateByBetween t ly off).
    { unfold getLunarDateByBetween. rewrite Hr. cbn [rbind].
      destruct (Z.gtb_spec between 0) as [?|_]; [lia|].
      destruct (Z.gtb_spec off 0) as [_|?]; [|lia].
      rewrite Eend. reflexivity. }
    rewrite Esame in Edate. fold j in Einv. fold off in Einv.
    rewrite Einv in Edate. injection Edate as <- <-. split; reflexivity.
Qed.

(** ** Where a solar date falls in the lunar year *)

(** On a consistent table, the lunar date that [__getLunarByBetween] finds
    for a solar date is a day of a month of the lunar year, and counting
    from the first lunar day of that year's record leads back to the solar
    date. *)
Lemma getLunarByBetween_located (t : list (list Z)) (y m d ly mo day : Z) :
  table_ok t = true ->
  table_consistent t = true ->
  minYear <= y <= maxYear ->
  valid_date y m d ->
  getLunarByBetween t y (m - 1) d = Ok (ly, mo, day) ->
  minYear <= ly ->
  exists (j : nat) (leap zm zd bits : Z) (rl : LunarYearDays),
    mo = Z.of_nat j
    /\ y - 1 <= ly <= y
    /\ py_index t (ly - minYear) = Ok [leap; zm; zd; bits]
    /\ getLunarYearDays t ly = Ok rl
    /\ (j < List.length (monthDays rl))%nat
    /\ 1 <= day <= List.nth j (monthDays rl) 0
    /\ Gregorian.ymd2ord ly zm zd
       + (py_sum (List.firstn j (monthDays rl)) + day - 1)
       = Gregorian.ymd2ord y m d.
Proof.
  intros Ht Hcons Hy Hv Eld Hly.
  assert (Hv' : valid_date y (m - 1 + 1) d)
    by (replace (m - 1 + 1) with m by lia; exact Hv).
  destruct (getLunarByBetween_total t y (m - 1) d Ht Hy Hv')
    as (leap & zm & zd & bits & between & ly0 & mo0 & day0 & leap'
        & Hrow & Hz & Hb & Ely & Eld' & Edate & Ezero & _).
  replace (m - 1 + 1) with m in Hb by lia.
  rewrite Eld in Eld'. injection Eld' as <- <- <-.
  assert (Hly' : minYear <= ly <= maxYear)
    by (split; [exact Hly|]; rewrite Ely; destruct (between <? 0); lia).
  assert (Hyy : y - 1 <= ly <= y)
    by (rewrite Ely; destruct (between <? 0); lia).
  destruct (table_ok_row t ly Ht Hly')
    as (leapL & zmL & zdL & bitsL & HrowL & _ & HzL).
  destruct (getLunarYearDays_decode t ly _ leapL bitsL HrowL eq_refl eq_refl)
    as (rl & Hrl & Hlen & _ & Hval & Hsum).
  assert (Hpos : forall x, List.In x (monthDays rl) -> 0 < x).
  { intros x Hx. destruct (Hval x Hx); lia. }
  destruct (Z.eq_dec between 0) as [E0|Hne].
  - destruct (Ezero E0) as [-> ->].
    assert (Hl : (0 < List.length (monthDays rl))%nat)
      by (unfold py_len in Hlen; destruct (leapL =? 0); lia).
    assert (Hn : List.nth 0 (monthDays rl) 0 = 29
                 \/ List.nth 0 (monthDays rl) 0 = 30)
      by (apply Hval, List.nth_In; exact Hl).
    assert (Ey : ly = y) by (rewrite Ely, E0; reflexivity).
    exists 0%nat, leapL, zmL, zdL, bitsL, rl.
    split; [reflexivity|]. split; [exact Hyy|]. split; [exact HrowL|].
    split; [exact Hrl|]. split; [exact Hl|]. split; [lia|].
    change (py_sum (List.firstn 0 (monthDays rl))) with 0.
    rewrite Ey in HrowL. rewrite Hrow in HrowL.
    injection HrowL as <- <- <- <-. rewrite Ey. lia.
  - specialize (Edate Hne).
    assert (Hend : 0 <= (if between >? 0 then between
                         else yearDays rl + between) < yearDays rl
                   /\ Gregorian.ymd2ord ly zmL zdL
                      + (if between >? 0 then between
                         else yearDays rl + between)
                      = Gregorian.ymd2ord y m d).
    { destruct (Z.gtb_spec between 0) as [Hp|Hneg].
      - destruct (Z.ltb_spec between 0) as [?|_]; [lia|]. subst ly.
        rewrite Hrow in HrowL. injection HrowL as <- <- <- <-.
        pose proof (lunar_year_covers_solar_year t y _ _ _ _ rl Ht Hcons Hy
                      Hrow Hrl) as Hcov.
        pose proof (ymd2ord_le_year_end _ _ _ Hv). lia.
      - destruct (Z.ltb_spec between 0) as [_|?]; [|lia]. subst ly.
        pose proof (lunarYearEnd_row t (y - 1) _ _ _ _ rl HrowL Hrl) as He.
        pose proof (lunarYearStart_row t y _ _ _ _ Hrow) as Hs.
        replace y with (y - 1 + 1) in Hs at 1 by lia.
        pose proof (table_consistent_next t (y - 1) _ _ Hcons ltac:(lia)
                      He Hs) as E.
        pose proof (ymd2ord_le_year_end _ _ _ HzL) as HbL.
        rewrite ymd2ord_year_end in HbL by (unfold minYear in *; lia).
        replace (y - 1 + 1) with y in HbL by lia.
        pose proof (ymd2ord_le_year_end _ _ _ Hv). lia. }
    destruct Hend as [Hend Eord].
    destruct (getLunarDateByBetween_inside t ly between rl Hrl Hend)
      as (j & Hj & Hjb & Ej).
    rewrite Edate in Ej. injection Ej as Emo Eday.
    exists j, leapL, zmL, zdL, bitsL, rl.
    split; [exact Emo|]. split; [exact Hyy|]. split; [exact HrowL|].
    split; [exact Hrl|]. split; [exact Hj|].
    rewrite (prefix_S _ j Hj) in Hjb. split; lia.
Qed.

(** X1 (round trip from the solar side).  On a consistent table, for a date
    no earlier than the first lunar day of the 1891 record and no later than
    2100, [solarToLunar] returns a lunar date that [lunarToSolar] maps back
    to the solar date. *)
Theorem solar_lunar_solar_roundtrip (t : list (list Z)) (cache : cache_t)
        (y m d leap1 zm1 zd1 bits1 : Z) :
  table_ok t = true ->
  table_consistent t = true ->
  cache_ok cache ->
  valid_date y m d ->
  y <= maxYear ->
  py_index t (1891 - minYear) = Ok [leap1; zm1; zd1; bits1] ->
  Gregorian.ymd2ord 1891 zm1 zd1 <= Gregorian.ymd2ord y m d ->
  exists (r : LunarInfo) (cache' : cache_t),
    solarToLunar t cache y m d = (Ok (Value r), cache')
    /\ lunarToSolar t (lunarYear r) (lunarMonth r) (lunarDay r)
       = Ok (Value (mkSolarInfo y m d)).
Proof.
  intros Ht Hcons Hc Hv Hmax Hrow1 Hord.
  destruct (table_ok_row t 1891 Ht ltac:(unfold minYear, maxYear; lia))
    as (l1 & zm1' & zd1' & b1 & Hrow1' & _ & Hz1).
  rewrite Hrow1 in Hrow1'. injection Hrow1' as <- <- <- <-.
  pose proof (ymd2ord_in_year _ _ _ Hz1) as Hz1b.
  assert (Hy : minYear + 1 <= y).
  { destruct (Z.lt_ge_cases y (minYear + 1)) as [Hlt|?]; [exfalso|assumption].
    pose proof (ymd2ord_le_year_end _ _ _ Hv) as Hb.
    assert (1 <= y) by (destruct Hv as ((? & _) & _); assumption).
    rewrite ymd2ord_year_end in Hb by assumption.
    unfold minYear in Hlt.
    pose proof (days_before_year_mono (y + 1) (1891 - (y + 1))
                  ltac:(lia) ltac:(lia)) as Hm.
    replace (y + 1 + (1891 - (y + 1))) with 1891 in Hm by lia. lia. }
  assert (Hy' : minYear <= y <= maxYear) by lia.
  destruct (solarToLunar_total t cache y m d Ht Hc Hy' Hv)
    as (r & cache' & sp & E & _ & _ & _ & Eld & _).
  exists r, cache'. split; [exact E|].
  assert (Hv' : valid_date y (m - 1 + 1) d)
    by (replace (m - 1 + 1) with m by lia; exact Hv).
  destruct (getLunarByBetween_total t y (m - 1) d Ht Hy' Hv')
    as (leap & zm & zd & bits & between & ly & mo & day & leap'
        & Hrow & Hz & Hb & Ely & Eld' & _).
  replace (m - 1 + 1) with m in Hb by lia.
  rewrite Eld in Eld'. unfold lunarDateOf in Eld'.
  injection Eld' as Ey Em Ed.
  assert (Hly : minYear + 1 <= lunarYear r).
  { rewrite Ey, Ely. destruct (Z.ltb_spec between 0) as [Hneg|?]; [|lia].
    destruct (Z.eq_dec y 1891) as [->|?]; [|unfold minYear in *; lia].
    rewrite Hrow1 in Hrow. injection Hrow as <- <- <- <-. lia. }
  destruct (getLunarByBetween_located t y m d _ _ _ Ht Hcons Hy' Hv Eld
              ltac:(lia))
    as (j & leapL & zmL & zdL & bitsL & rl & Emo & Hyy & HrowL & Hrl & Hj
        & Hday & Eord).
  replace (lunarMonth r) with (Z.of_nat j + 1) by lia.
  assert (Hmd : List.nth j (monthDays rl) 0 <= 30).
  { destruct (getLunarYearDays_shape _ _ _ Hrl) as (_ & Hval & _).
    destruct (Hval (List.nth j (monthDays rl) 0));
      [apply List.nth_In; exact Hj|..]; lia. }
  rewrite (lunarToSolar_of_offset t (lunarYear r) j (lunarDay r)
             _ _ _ _ rl Ht ltac:(lia) HrowL Hrl) by lia.
  cbv zeta. rewrite Eord, (fromordinal_ymd2ord _ _ _ Hv). reflexivity.
Qed.

(** 10 February 2024 on the sample table, whose 1891 record puts the new
    year on 9 February 1891. *)
Lemma solar_lunar_solar_roundtrip_witness :
  exists (r : LunarInfo) (cache' : cache_t),
    solarToLunar Sample.lunarInfo ∅ 2024 2 10 = (Ok (Value r), cache')
    /\ lunarToSolar Sample.lunarInfo (lunarYear r) (lunarMonth r) (lunarDay r)
       = Ok (Value (mkSolarInfo 2024 2 10)).
Proof.
  apply (solar_lunar_solar_roundtrip Sample.lunarInfo ∅ 2024 2 10
           0 2 9 21936).
  - vm_compute. reflexivity.
  - exact sample_consistent.
  - exact cache_ok_empty.
  - unfold valid_date, Gregorian.MINYEAR, Gregorian.MAXYEAR.
    change (Gregorian.days_in_month 2024 2) with 29. lia.
  - unfold maxYear. lia.
  - reflexivity.
  - vm_compute. discriminate.
Defined.

(** X3 (the lunar date returned is a date).  On a consistent table, for
    every date of the years 1891 to 2100, [solarToLunar] returns a date of
    the lunar calendar: the lunar year is the solar year or the one before,
    the month is one of the months that [__getLunarYearDays] gives that
    lunar year, and the day is between 1 and the length of that month. *)
Theorem solarToLunar_lunar_date_valid (t : list (list Z)) (cache : cache_t)
        (y m d : Z) :
  table_ok t = true ->
  table_consistent t = true ->
  cache_ok cache ->
  minYear + 1 <= y <= maxYear ->
  valid_date y m d ->
  exists (r : LunarInfo) (cache' : cache_t) (yd : LunarYearDays) (md : Z),
    solarToLunar t cache y m d = (Ok (Value r), cache')
    /\ y - 1 <= lunarYear r <= y
    /\ getLunarYearDays t (lunarYear r) = Ok yd
    /\ 1 <= lunarMonth r <= py_len (monthDays yd)
    /\ py_index (monthDays yd) (lunarMonth r - 1) = Ok md
    /\ 1 <= lunarDay r <= md.
Proof.
  intros Ht Hcons Hc Hy Hv.
  assert (Hy' : minYear <= y <= maxYear) by lia.
  destruct (solarToLunar_total t cache y m d Ht Hc Hy' Hv)
    as (r & cache' & sp & E & _ & _ & _ & Eld & _).
  assert (Hv' : valid_date y (m - 1 + 1) d)
    by (replace (m - 1 + 1) with m by lia; exact Hv).
  destruct (getLunarByBetween_total t y (m - 1) d Ht Hy' Hv')
    as (leap & zm & zd & bits & between & ly & mo & day & leap'
        & _ & _ & _ & Ely & Eld' & _).
  rewrite Eld in Eld'. unfold lunarDateOf in Eld'.
  injection Eld' as Ey Em Ed.
  assert (Hly : minYear <= lunarYear r)
    by (rewrite Ey, Ely; destruct (between <? 0); lia).
  destruct (getLunarByBetween_located t y m d _ _ _ Ht Hcons Hy' Hv Eld Hly)
    as (j & leapL & zmL & zdL & bitsL & rl & Emo & Hyy & HrowL & Hrl & Hj
        & Hday & _).
  exists r, cache', rl, (List.nth j (monthDays rl) 0).
  split; [exact E|]. split; [exact Hyy|]. split; [exact Hrl|].
  split; [unfold py_len; lia|]. split; [|exact Hday].
  rewrite Emo. rewrite (py_index_nth _ _ 0) by (unfold py_len; lia).
  now rewrite Nat2Z.id.
Qed.

(** 10 February 2024 on the sample table. *)
Lemma solarToLunar_lunar_date_valid_witness :
  exists (r : LunarInfo) (cache' : cache_t) (yd : LunarYearDays) (md : Z),
    solarToLunar Sample.lunarInfo ∅ 2024 2 10 = (Ok (Value r), cache')
    /\ 2024 - 1 <= lunarYear r <= 2024
    /\ getLunarYearDays Sample.lunarInfo (lunarYear r) = Ok yd
    /\ 1 <= lunarMonth r <= py_len (monthDays yd)
    /\ py_index (monthDays yd) (lunarMonth r - 1) = Ok md
    /\ 1 <= lunarDay r <= md.
Proof.
  apply (solarToLunar_lunar_date_valid Sample.lunarInfo ∅ 2024 2 10).
  - vm_compute. reflexivity.
  - exact sample_consistent.
  - exact cache_ok_empty.
  - unfold minYear, maxYear. lia.
  - unfold valid_date, Gregorian.MINYEAR, Gregorian.MAXYEAR.
    change (Gregorian.days_in_month 2024 2) with 29. lia.
Defined.

(** X4 (the first lunar day of a year).  The first day of the first month of
    a lunar year from 1891 to 2100 is the date in that year's record:
    [lunarToSolar] returns the record's month and day, and [solarToLunar] on
    that date returns the first day of the first month of the year. *)
Theorem lunar_new_year_anchor (t : list (list Z)) (cache : cache_t)
        (y leap zm zd bits : Z) :
  table_ok t = true ->
  cache_ok cache ->
  minYear + 1 <= y <= maxYear ->
  py_index t (y - minYear) = Ok [leap; zm; zd; bits] ->
  lunarToSolar t y 1 1 = Ok (Value (mkSolarInfo y zm zd))
  /\ exists (r : LunarInfo) (cache' : cache_t),
       solarToLunar t cache y zm zd = (Ok (Value r), cache')
       /\ lunarYear r = y /\ lunarMonth r = 1 /\ lunarDay r = 1.
Proof.
  intros Ht Hc Hy Hrow.
  assert (Hy' : minYear <= y <= maxYear) by lia.
  destruct (table_ok_row t y Ht Hy')
    as (leap0 & zm0 & zd0 & bits0 & Hrow0 & _ & Hz).
  rewrite Hrow in Hrow0. injection Hrow0 as <- <- <- <-.
  destruct (getLunarYearDays_decode t y _ leap bits Hrow eq_refl eq_refl)
    as (rl & Hrl & _).
  split.
  - change (lunarToSolar t y 1 1) with (lunarToSolar t y (Z.of_nat 0 + 1) 1).
    rewrite (lunarToSolar_of_offset t y 0 1 _ _ _ _ rl Ht Hy Hrow Hrl
               ltac:(lia)).
    cbv zeta. change (py_sum (List.firstn 0 (monthDays rl))) with 0.
    replace (Gregorian.ymd2ord y zm zd + (0 + 1 - 1))
      with (Gregorian.ymd2ord y zm zd) by lia.
    rewrite (fromordinal_ymd2ord _ _ _ Hz). reflexivity.
  - destruct (solarToLunar_total t cache y zm zd Ht Hc Hy' Hz)
      as (r & cache' & sp & E & _ & _ & _ & Eld & _).
    exists r, cache'. split; [exact E|].
    assert (Hv' : valid_date y (zm - 1 + 1) zd)
      by (replace (zm - 1 + 1) with zm by lia; exact Hz).
    destruct (getLunarByBetween_total t y (zm - 1) zd Ht Hy' Hv')
      as (leap0 & zm0 & zd0 & bits0 & between & ly & mo & day & leap'
          & Hrow0 & _ & Hb & Ely & Eld' & _ & Ezero & _).
    rewrite Hrow in Hrow0. injection Hrow0 as <- <- <- <-.
    replace (zm - 1 + 1) with zm in Hb by lia.
    assert (E0 : between = 0) by lia.
    destruct (Ezero E0) as [-> ->]. rewrite E0 in Ely. cbn in Ely.
    rewrite Eld in Eld'. unfold lunarDateOf in Eld'.
    injection Eld' as Ey Em Ed. repeat split; lia.
Qed.

(** The lunar year 2024 of the sample table, whose record puts the new year
    on 15 February. *)
Lemma lunar_new_year_anchor_witness :
  lunarToSolar Sample.lunarInfo 2024 1 1 = Ok (Value (mkSolarInfo 2024 2 15))
  /\ exists (r : LunarInfo) (cache' : cache_t),
       solarToLunar Sample.lunarInfo ∅ 2024 2 15 = (Ok (Value r), cache')
       /\ lunarYear r = 2024 /\ lunarMonth r = 1 /\ lunarDay r = 1.
Proof.
  apply (lunar_new_year_anchor Sample.lunarInfo ∅ 2024 0 2 15 43680).
  - vm_compute. reflexivity.
  - exact cache_ok_empty.
  - unfold minYear, maxYear. lia.
  - reflexivity.
Defined.

(** X6 (offsets past the end of the lunar year).  [__getLunarDateByBetween]
    does not check the offset against the length of the lunar year: on a
    positive offset that is not inside the year the loop ends without its
    [break], and the method returns the month index 0 with the day counted
    from the end of the year. *)
Theorem getLunarDateByBetween_past_year_end (t : list (list Z))
        (y between : Z) (r : LunarYearDays) :
  getLunarYearDays t y = Ok r ->
  0 < between ->
  yearDays r <= between ->
  getLunarDateByBetween t y between = Ok (y, 0, between - yearDays r + 1).
Proof.
  intros Hr Hp Hb.
  destruct (getLunarYearDays_shape _ _ _ Hr) as (Hsum & Hval & _).
  assert (Hpos : forall x, List.In x (monthDays r) -> 0 < x).
  { intros x Hx. destruct (Hval x Hx); lia. }
  unfold getLunarDateByBetween. rewrite Hr. cbn [rbind].
  destruct (Z.gtb_spec between 0) as [_|?]; [|lia].
  rewrite range_py_len.
  destruct (find_month_from (monthDays r) Hpos between
              (List.length (monthDays r)) 0 0 eq_refl)
    as [(j & Hj & Hjb & E)|[_ E]].
  - change (py_sum (List.firstn 0 (monthDays r))) with 0. lia.
  - exfalso.
    pose proof (prefix_le _ Hpos (S j) (List.length (monthDays r))
                  ltac:(lia)) as Hle.
    rewrite prefix_all in Hle. lia.
  - change (py_sum (List.firstn 0 (monthDays r))) with 0 in E.
    rewrite E. cbn [rbind]. rewrite Hsum. reflexivity.
Qed.

(** The offset 400 in the lunar year 2024 of the sample table, which has
    354 days. *)
Lemma getLunarDateByBetween_past_year_end_witness :
  getLunarDateByBetween Sample.lunarInfo 2024 400
  = Ok (2024, 0,
        400 - yearDays
                (mkLunarYearDays
                   354 [30; 29; 30; 29; 30; 29; 30; 29; 30; 29; 30; 29]) + 1).
Proof.
  apply (getLunarDateByBetween_past_year_end Sample.lunarInfo 2024 400
           (mkLunarYearDays
              354 [30; 29; 30; 29; 30; 29; 30; 29; 30; 29; 30; 29])).
  - vm_compute. reflexivity.
  - lia.
  - cbn [yearDays]. lia.
Defined.

(** X5 (days past the end of a lunar month).  [lunarToSolar] does not check
    the day against the length of the month: the day [k] past the end of a
    month is taken for the day [k] of the month that follows (of the next
    year's first month, after the last one). *)
Theorem lunarToSolar_day_spill (t : list (list Z)) (y m k md : Z)
        (r : LunarYearDays) :
  table_ok t = true ->
  minYear + 1 <= y <= maxYear ->
  getLunarYearDays t y = Ok r ->
  1 <= m ->
  py_index (monthDays r) (m - 1) = Ok md ->
  - 99000 <= k <= 99000 ->
  lunarToSolar t y m (md + k) = lunarToSolar t y (m + 1) k.
Proof.
  intros Ht Hy Hr Hm Hmd Hk.
  destruct (table_ok_row t y Ht ltac:(lia))
    as (leap & zm & zd & bits & Hrow & _ & _).
  destruct (getLunarYearDays_shape _ _ _ Hr) as (_ & Hval & _).
  apply py_index_ok_inv in Hmd. destruct Hmd as [Hlen Hnth].
  destruct (Z.ltb_spec (m - 1) 0) as [?|_]; [lia|].
  assert (Hj : (Z.to_nat (m - 1) < List.length (monthDays r))%nat)
    by (unfold py_len in Hlen; lia).
  assert (Hmdv : md = 29 \/ md = 30)
    by (apply Hval; eapply List.nth_error_In; eauto).
  replace m with (Z.of_nat (Z.to_nat (m - 1)) + 1) at 1 by lia.
  replace (m + 1) with (Z.of_nat (S (Z.to_nat (m - 1))) + 1) by lia.
  rewrite (lunarToSolar_of_offset t y _ (md + k) _ _ _ _ r Ht Hy Hrow Hr)
    by lia.
  rewrite (lunarToSolar_of_offset t y _ k _ _ _ _ r Ht Hy Hrow Hr) by lia.
  rewrite (prefix_S _ _ Hj), (List.nth_error_nth _ _ 0 Hnth).
  replace (py_sum (List.firstn (Z.to_nat (m - 1)) (monthDays r)) + md + k - 1)
    with (py_sum (List.firstn (Z.to_nat (m - 1)) (monthDays r))
          + (md + k) - 1) by lia.
  reflexivity.
Qed.

(** The thirtieth day of the first month of 1891, a month of 29 days on the
    sample table. *)
Lemma lunarToSolar_day_spill_witness :
  lunarToSolar Sample.lunarInfo 1891 1 (29 + 1)
  = lunarToSolar Sample.lunarInfo 1891 (1 + 1) 1.
Proof.
  apply (lunarToSolar_day_spill Sample.lunarInfo 1891 1 1 29
           (mkLunarYearDays
              355 [29; 30; 29; 30; 29; 30; 29; 30; 30; 29; 30; 30])).
  - vm_compute. reflexivity.
  - unfold minYear, maxYear. lia.
  - vm_compute. reflexivity.
  - lia.
  - reflexivity.
  - lia.
Defined.

(** The fifteenth day of the third month of 2024 on the sample table, which
    is 28 April 2024. *)
Lemma lunar_solar_lunar_roundtrip_witness :
  exists (r' : LunarInfo) (cache' : cache_t),
    solarToLunar Sample.lunarInfo ∅ 2024 4 28 = (Ok (Value r'), cache')
    /\ lunarYear r' = 2024 /\ lunarMonth r' = 3 /\ lunarDay r' = 15.
Proof.
  apply (lunar_solar_lunar_roundtrip Sample.lunarInfo ∅ 2024 3 15 30
           (mkLunarYearDays
              354 [30; 29; 30; 29; 30; 29; 30; 29; 30; 29; 30; 29])
           (mkSolarInfo 2024 4 28)).
  - vm_compute. reflexivity.
  - exact sample_consistent.
  - exact cache_ok_empty.
  - unfold minYear, maxYear. lia.
  - vm_compute. reflexivity.
  - lia.
  - reflexivity.
  - lia.
  - vm_compute. reflexivity.
  - cbn [year]. unfold maxYear. lia.
Defined.

(** X7 (month indices outside the lunar year).  [__getDaysBetweenZheng] does
    not check the month index: an index of 0 or below counts no month, so
    the offset is the one of the first month, and an index at or past the
    number of months of the year counts them all, so the offset is the one
    of a day after the end of the year. *)
Theorem getDaysBetweenZheng_month_clamp (t : list (list Z))
        (y month day : Z) (r : LunarYearDays) :
  getLunarYearDays t y = Ok r ->
  (month <= 0 -> getDaysBetweenZheng t y month day = Ok (day - 1))
  /\ (py_len (monthDays r) <= month ->
      getDaysBetweenZheng t y month day = Ok (yearDays r + day - 1)).
Proof.
  intros Hr. rewrite (getDaysBetweenZheng_eq t y r month day Hr).
  destruct (getLunarYearDays_shape _ _ _ Hr) as (Hsum & _).
  split; intros Hm.
  - replace (Z.to_nat month) with 0%nat by lia.
    change (py_sum (List.firstn 0 (monthDays r))) with 0. reflexivity.
  - rewrite List.firstn_all2 by (unfold py_len in Hm; lia).
    rewrite Hsum. reflexivity.
Qed.

(** The month index 20 in the lunar year 2024 of the sample table, which
    has twelve months and 354 days. *)
Lemma getDaysBetweenZheng_month_clamp_witness :
  (20 <= 0 -> getDaysBetweenZheng Sample.lunarInfo 2024 20 1 = Ok (1 - 1))
  /\ (py_len [30; 29; 30; 29; 30; 29; 30; 29; 30; 29; 30; 29] <= 20 ->
      getDaysBetweenZheng Sample.lunarInfo 2024 20 1 = Ok (354 + 1 - 1)).
Proof.
  apply (getDaysBetweenZheng_month_clamp Sample.lunarInfo 2024 20 1
           (mkLunarYearDays
              354 [30; 29; 30; 29; 30; 29; 30; 29; 30; 29; 30; 29])).
  vm_compute. reflexivity.
Defined.

(** ** The cache of term tables *)

Lemma cachedYearTerm_fst (cache : cache_t) (y : Z) :
  cache_ok cache -> fst (cachedYearTerm cache y) = getYearTerm y.
Proof.
  intros Hc. unfold cachedYearTerm.
  destruct (cache !! y) as [termList|] eqn:E.
  - symmetry. exact (Hc _ _ E).
  - destruct (getYearTerm y); reflexivity.
Qed.

Lemma solarToLunar_fst (t : list (list Z)) (cache : cache_t) (y m d : Z) :
  fst (solarToLunar t cache y m d)
  = match formatDate y m d (Some minYear) with
    | ErrorDict code msg => Ok (ErrorDict code msg)
    | Value (year, month, day) =>
        let* termList := fst (cachedYearTerm cache year) in
        let* r := solarToLunar_body t termList year month day in
        Ok (Value r)
    end.
Proof.
  unfold solarToLunar.
  destruct (formatDate y m d (Some minYear)) as [code msg|[[year month] day]];
    [reflexivity|].
  destruct (cachedYearTerm cache year) as [[termList|e] cache'];
    reflexivity.
Qed.

(** X9 (the cache is transparent).  What [solarToLunar] returns does not
    depend on which term tables the object has cached. *)
Theorem solarToLunar_cache_independent (t : list (list Z))
        (cache1 cache2 : cache_t) (y m d : Z) :
  cache_ok cache1 ->
  cache_ok cache2 ->
  fst (solarToLunar t cache1 y m d) = fst (solarToLunar t cache2 y m d).
Proof.
  intros H1 H2. rewrite !solarToLunar_fst.
  destruct (formatDate y m d (Some minYear)) as [code msg|[[year month] day]];
    [reflexivity|].
  rewrite !cachedYearTerm_fst by assumption. reflexivity.
Qed.

(** The same call on the cache that one call of [solarToLunar] has filled,
    against the call on a new object's empty cache. *)
Lemma solarToLunar_cache_independent_witness :
  fst (solarToLunar Sample.lunarInfo ∅ 2024 2 10)
  = fst (solarToLunar Sample.lunarInfo
           (snd (solarToLunar Sample.lunarInfo ∅ 2024 3 1)) 2024 2 10).
Proof.
  apply (solarToLunar_cache_independent Sample.lunarInfo ∅
           (snd (solarToLunar Sample.lunarInfo ∅ 2024 3 1)) 2024 2 10).
  - exact cache_ok_empty.
  - apply solarToLunar_cache_ok. exact cache_ok_empty.
Defined.

(** X10 (repeated calls).  A call of [solarToLunar] stores at most the term
    table of its year, and the same call made again returns the same result
    and leaves the cache as it is. *)
Theorem solarToLunar_repeat (t : list (list Z)) (cache : cache_t) (y m d : Z) :
  solarToLunar t (snd (solarToLunar t cache y m d)) y m d
  = solarToLunar t cache y m d
  /\ (snd (solarToLunar t cache y m d) = cache
      \/ exists termList,
           cache !! y = None
           /\ getYearTerm y = Ok termList
           /\ snd (solarToLunar t cache y m d) = <[ y := termList ]> cache).
Proof.
  unfold solarToLunar.
  destruct (formatDate y m d (Some minYear)) as [code msg|[[year month] day]]
    eqn:Ef.
  - cbn [snd]. auto.
  - assert (Ey : year = y).
    { unfold formatDate in Ef.
      destruct ((y <? minYear) || (y >? maxYear)); [discriminate|].
      now injection Ef. }
    subst year. unfold cachedYearTerm.
    destruct (cache !! y) as [termList|] eqn:E.
    + cbn [snd]. rewrite E. auto.
    + destruct (getYearTerm y) as [termList|e] eqn:Eg.
      * cbn [snd]. rewrite lookup_insert_eq. split; [reflexivity|].
        right. exists termList. auto.
      * cbn [snd]. rewrite E. auto.
Qed.

(** ** The sixty-name cycle *)

Lemma cyclical_mod_60 (num : Z) : cyclical num = cyclical (num mod 60).
Proof.
  unfold cyclical.
  replace ((num mod 60) mod 10) with (num mod 10)
    by (Z.div_mod_to_equations; lia).
  replace ((num mod 60) mod 12) with (num mod 12)
    by (Z.div_mod_to_equations; lia).
  reflexivity.
Qed.

Lemma cyclical_distinct_all : cyclical_distinct = true.
Proof. vm_compute. reflexivity. Qed.

(** X16 (the cycle of sixty names).  [__cyclical] never raises, whatever the
    sign of the number (the remainders of Python's [%] by 10 and 12 are
    indices of the two tables), and two numbers get the same name exactly
    when they differ by a multiple of 60. *)
Theorem cyclical_period_60 (a b : Z) :
  (exists s, cyclical a = Ok s)
  /\ (cyclical a = cyclical b <-> a mod 60 = b mod 60).
Proof.
  split; [apply cyclical_ok|]. split.
  - intros H. rewrite (cyclical_mod_60 a), (cyclical_mod_60 b) in H.
    pose proof (Z.mod_pos_bound a 60 ltac:(lia)) as Ha.
    pose proof (Z.mod_pos_bound b 60 ltac:(lia)) as Hb.
    pose proof cyclical_distinct_all as Hd. unfold cyclical_distinct in Hd.
    pose proof (forallb_range _ _ Hd (a mod 60) Ha) as Hd'. cbv beta in Hd'.
    pose proof (forallb_range _ _ Hd' (b mod 60) Hb) as Hd''.
    cbv beta in Hd''.
    destruct (Z.eqb_spec (a mod 60) (b mod 60)) as [E|_]; [exact E|].
    exfalso. cbn [orb] in Hd''.
    destruct (cyclical_ok (a mod 60)) as (s & Es).
    rewrite <- H, Es in Hd''. cbn [on_ok2] in Hd''.
    rewrite String.eqb_refl in Hd''. discriminate.
  - intros H. rewrite (cyclical_mod_60 a), (cyclical_mod_60 b), H.
    reflexivity.
Qed.

(** ** Days of the solar month *)

Lemma isLeapYear_is_leap (year : Z) : isLeapYear year = Gregorian.is_leap year.
Proof.
  unfold isLeapYear, Gregorian.is_leap.
  destruct (Z.eqb_spec (year mod 4) 0), (Z.eqb_spec (year mod 100) 0),
    (Z.eqb_spec (year mod 400) 0); cbn; try reflexivity; exfalso;
    Z.div_mod_to_equations; lia.
Qed.

(** X18 (days of a solar month).  [__getSolarMonthDays], for a month index
    from 0 to 11, returns the number of days that [datetime] gives the
    month, in every year. *)
Theorem getSolarMonthDays_calendar (year month : Z) :
  0 <= month <= 11 ->
  getSolarMonthDays year month
  = Ok (Gregorian.days_in_month year (month + 1)).
Proof.
  intros Hm. unfold getSolarMonthDays, Gregorian.days_in_month.
  rewrite isLeapYear_is_leap.
  assert (C : month = 0 \/ month = 1 \/ month = 2 \/ month = 3 \/ month = 4
              \/ month = 5 \/ month = 6 \/ month = 7 \/ month = 8
              \/ month = 9 \/ month = 10 \/ month = 11) by lia.
  destruct (Gregorian.is_leap year);
    repeat (destruct C as [->|C]; [reflexivity|]); subst month; reflexivity.
Qed.

(** February of 2024. *)
Lemma getSolarMonthDays_calendar_witness :
  getSolarMonthDays 2024 1 = Ok (Gregorian.days_in_month 2024 (1 + 1)).
Proof. apply (getSolarMonthDays_calendar 2024 1). lia. Defined.

Lemma py_index_raise_iff {A : Type} (l : list A) (i : Z) :
  py_index l i = Raise IndexError <-> i < - py_len l \/ py_len l <= i.
Proof.
  split.
  - intros H.
    destruct (Z.lt_ge_cases i (- py_len l)) as [?|Hlo]; [left; assumption|].
    destruct (Z.lt_ge_cases i (py_len l)) as [Hhi|?]; [|right; assumption].
    destruct (py_index_total l i ltac:(lia)) as (a & E).
    rewrite E in H. discriminate.
  - intros H. unfold py_index.
    assert (0 <= py_len l) by (unfold py_len; lia).
    destruct (Z.ltb_spec i 0).
    + destruct (Z.leb_spec 0 (i + py_len l)); [|reflexivity].
      destruct (Z.ltb_spec (i + py_len l) (py_len l)); [lia | reflexivity].
    + destruct (Z.leb_spec 0 i); [|reflexivity].
      destruct (Z.ltb_spec i (py_len l)); [lia | reflexivity].
Qed.

(** X19 (month indices of the solar month table).  [__getSolarMonthDays]
    takes the indices from -12 to -1 for the months counted from the end of
    the year, and raises [IndexError] on any other index outside 0 to 11. *)
Theorem getSolarMonthDays_index (year month : Z) :
  (- 12 <= month < 0 ->
   getSolarMonthDays year month = getSolarMonthDays year (month + 12))
  /\ (getSolarMonthDays year month = Raise IndexError
      <-> month < - 12 \/ 11 < month).
Proof.
  unfold getSolarMonthDays.
  assert (E : py_len [31; if isLeapYear year then 29 else 28;
                      31; 30; 31; 30; 31; 31; 30; 31; 30; 31] = 12)
    by reflexivity.
  split.
  - intros Hm. rewrite py_index_neg by (rewrite ?E; lia). rewrite E.
    reflexivity.
  - rewrite py_index_raise_iff, E. lia.
Qed.

(** ** Days between two solar dates *)

(** X8 (signed day count).  When [__getDaysBetweenSolar] returns, both dates
    are dates of the calendar, the count is the difference of their
    ordinals, the call with the dates exchanged returns the opposite count,
    and the count is zero only for a date and itself. *)
Theorem getDaysBetweenSolar_signed (y m d y1 m1 d1 n : Z) :
  getDaysBetweenSolar y m d y1 m1 d1 = Ok n ->
  valid_date y (m + 1) d /\ valid_date y1 (m1 + 1) d1
  /\ n = Gregorian.ymd2ord y1 (m1 + 1) d1 - Gregorian.ymd2ord y (m + 1) d
  /\ getDaysBetweenSolar y1 m1 d1 y m d = Ok (- n)
  /\ (n = 0 <-> (y, m, d) = (y1, m1, d1)).
Proof.
  intros H. unfold getDaysBetweenSolar in H.
  apply rbind_ok in H. destruct H as (dt0 & E0 & H).
  apply rbind_ok in H. destruct H as (dt1 & E1 & H).
  apply date_new_inv in E0, E1.
  destruct E0 as [H0 ->]. destruct E1 as [H1 ->].
  unfold Gregorian.date_sub, Gregorian.toordinal in H.
  cbn [Gregorian.d_year Gregorian.d_month Gregorian.d_day] in H.
  rewrite td_days_of_days in H. injection H as <-.
  split; [exact H0|]. split; [exact H1|]. split; [reflexivity|]. split.
  - unfold getDaysBetweenSolar.
    rewrite (date_new_ok _ _ _ H0), (date_new_ok _ _ _ H1). cbn [rbind].
    unfold Gregorian.date_sub, Gregorian.toordinal.
    cbn [Gregorian.d_year Gregorian.d_month Gregorian.d_day].
    rewrite td_days_of_days. f_equal. lia.
  - split.
    + intros E.
      assert (Eo : Gregorian.ymd2ord y1 (m1 + 1) d1
                   = Gregorian.ymd2ord y (m + 1) d) by lia.
      pose proof (ord2ymd_ymd2ord _ _ _ H0) as R0.
      pose proof (ord2ymd_ymd2ord _ _ _ H1) as R1.
      rewrite Eo, R0 in R1. injection R1 as -> Em ->.
      f_equal. f_equal. lia.
    + intros E. injection E as -> -> ->. lia.
Qed.

(** From 29 February 2024 to 1 March 2024. *)
Lemma getDaysBetweenSolar_signed_witness :
  valid_date 2024 (1 + 1) 29 /\ valid_date 2024 (2 + 1) 1
  /\ 1 = Gregorian.ymd2ord 2024 (2 + 1) 1 - Gregorian.ymd2ord 2024 (1 + 1) 29
  /\ getDaysBetweenSolar 2024 2 1 2024 1 29 = Ok (- 1)
  /\ (1 = 0 <-> (2024, 1, 29) = (2024, 2, 1)).
Proof.
  apply (getDaysBetweenSolar_signed 2024 1 29 2024 2 1 1).
  vm_compute. reflexivity.
Defined.

(** ** The name of the day *)

Lemma toordinal_fromordinal (o : Z) :
  1 <= o <= Gregorian.MAXORDINAL ->
  Gregorian.toordinal (Gregorian.fromordinal o) = o.
Proof.
  intros Ho. destruct (ymd2ord_ord2ymd o Ho) as (y & m & d & E & _ & Eo).
  unfold Gregorian.toordinal, Gregorian.fromordinal. rewrite E. exact Eo.
Qed.

Lemma getLunarDayName_eq (y m d : Z) :
  valid_date y (m + 1) d ->
  Gregorian.ymd2ord y (m + 1) d + 29237 <= Gregorian.MAXORDINAL ->
  getLunarDayName y m d
  = cyclical (Gregorian.ymd2ord y (m + 1) d - Gregorian.ymd2ord 1890 1 1 + 18).
Proof.
  intros Hv Hmax. unfold getLunarDayName.
  rewrite (date_new_ok _ _ _ Hv). cbn [rbind].
  rewrite timedelta_days_ok by (unfold Gregorian.MAX_DELTA_DAYS; lia).
  cbn [rbind].
  assert (Ho : 1 <= Gregorian.ymd2ord y (m + 1) d).
  { pose proof (ymd2ord_in_year _ _ _ Hv) as Hb.
    destruct Hv as ((Hy & _) & _). unfold Gregorian.MINYEAR in Hy.
    assert (0 <= Gregorian.days_before_year y).
    { unfold Gregorian.days_before_year. cbv zeta.
      Z.div_mod_to_equations. lia. }
    lia. }
  assert (Et : Gregorian.toordinal (Gregorian.mkdate y (m + 1) d)
               = Gregorian.ymd2ord y (m + 1) d) by reflexivity.
  rewrite date_add_ok by (rewrite Et; lia).
  cbn [rbind]. rewrite Et.
  change (Gregorian.date_new 1970 1 1) with (Ok (Gregorian.mkdate 1970 1 1)).
  cbn [rbind]. unfold Gregorian.date_sub.
  rewrite toordinal_fromordinal by lia.
  rewrite td_days_of_days. f_equal.
  change (Gregorian.toordinal (Gregorian.mkdate 1970 1 1)) with 719163.
  change (Gregorian.ymd2ord 1890 1 1) with 689944. lia.
Qed.

(** X14 (the day name counts days).  [__getLunarDayName] names the day by
    its count of days from 1 January 1890, which has position 18 in the
    cycle: the name is that of the position [18 + days since 1890-01-01], so
    that each day's name follows the one of the day before. *)
Theorem getLunarDayName_day_count (y m d : Z) :
  valid_date y (m + 1) d ->
  Gregorian.ymd2ord y (m + 1) d + 29237 <= Gregorian.MAXORDINAL ->
  getLunarDayName y m d
  = cyclical (Gregorian.ymd2ord y (m + 1) d - Gregorian.ymd2ord 1890 1 1 + 18).
Proof. exact (getLunarDayName_eq y m d). Qed.

(** 10 February 2024. *)
Lemma getLunarDayName_day_count_witness :
  getLunarDayName 2024 1 10
  = cyclical (Gregorian.ymd2ord 2024 (1 + 1) 10
              - Gregorian.ymd2ord 1890 1 1 + 18).
Proof.
  apply (getLunarDayName_day_count 2024 1 10).
  - unfold valid_date, Gregorian.MINYEAR, Gregorian.MAXYEAR.
    change (Gregorian.days_in_month 2024 (1 + 1)) with 29. lia.
  - vm_compute. discriminate.
Defined.

(** X15 (overflow of the intermediate date).  The intermediate date [date +
    timedelta(days=29219+18)] must itself be a date: on a date less than
    29237 days before the end of the year 9999, [__getLunarDayName] raises
    [OverflowError]. *)
Theorem getLunarDayName_overflow (y m d : Z) :
  valid_date y (m + 1) d ->
  Gregorian.MAXORDINAL < Gregorian.ymd2ord y (m + 1) d + 29237 ->
  getLunarDayName y m d = Raise OverflowError.
Proof.
  intros Hv Hmax. unfold getLunarDayName.
  rewrite (date_new_ok _ _ _ Hv). cbn [rbind].
  rewrite timedelta_days_ok by (unfold Gregorian.MAX_DELTA_DAYS; lia).
  cbn [rbind]. unfold Gregorian.date_add. rewrite td_days_of_days.
  unfold Gregorian.toordinal.
  cbn [Gregorian.d_year Gregorian.d_month Gregorian.d_day].
  change (29219 + 18) with 29237.
  destruct (Z.leb_spec (Gregorian.ymd2ord y (m + 1) d + 29237)
              Gregorian.MAXORDINAL) as [?|_]; [lia|].
  rewrite andb_false_r. reflexivity.
Qed.

(** 1 January 9950. *)
Lemma getLunarDayName_overflow_witness :
  getLunarDayName 9950 0 1 = Raise OverflowError.
Proof.
  apply (getLunarDayName_overflow 9950 0 1).
  - unfold valid_date, Gregorian.MINYEAR, Gregorian.MAXYEAR.
    change (Gregorian.days_in_month 9950 (0 + 1)) with 31. lia.
  - vm_compute. reflexivity.
Defined.

(** ** The term table of a year *)

Lemma check_formatDayD4_all : check_formatDayD4 = true.
Proof. vm_compute. reflexivity. Qed.

Lemma parseDayD4_formatDayD4 (m d : Z) :
  0 <= m <= 11 -> 1 <= d <= 31 ->
  parseDayD4 (formatDayD4 m d) = Some (m, d).
Proof.
  intros Hm Hd. pose proof check_formatDayD4_all as H.
  unfold check_formatDayD4 in H.
  pose proof (forallb_range _ _ H m ltac:(lia)) as H1. cbv beta in H1.
  pose proof (forallb_range _ _ H1 (d - 1) ltac:(lia)) as H2. cbv beta in H2.
  replace (d - 1 + 1) with d in H2 by lia.
  destruct (parseDayD4 (formatDayD4 m d)) as [[m' d']|]; [|discriminate].
  apply andb_prop in H2. destruct H2 as [E1 E2].
  apply Z.eqb_eq in E1, E2. now subst.
Qed.

Lemma formatDayD4_inj (m d m' d' : Z) :
  0 <= m <= 11 -> 1 <= d <= 31 ->
  0 <= m' <= 11 -> 1 <= d' <= 31 ->
  formatDayD4 m d = formatDayD4 m' d' ->
  m = m' /\ d = d'.
Proof.
  intros Hm Hd Hm' Hd' E.
  pose proof (parseDayD4_formatDayD4 m d Hm Hd) as P.
  rewrite E, (parseDayD4_formatDayD4 m' d' Hm' Hd') in P.
  injection P as -> ->. split; reflexivity.
Qed.

(** X17 (keys of the term table).  The keys that [__formatDayD4] builds for
    the twelve month indices and the days 1 to 31 differ from one another: a
    key names one day of the year. *)
Theorem formatDayD4_injective (m d m' d' : Z) :
  0 <= m <= 11 -> 1 <= d <= 31 ->
  0 <= m' <= 11 -> 1 <= d' <= 31 ->
  formatDayD4 m d = formatDayD4 m' d' ->
  m = m' /\ d = d'.
Proof. exact (formatDayD4_inj m d m' d'). Qed.

(** 4 February, twice. *)
Lemma formatDayD4_injective_witness : 1 = 1 /\ 4 = 4.
Proof.
  apply (formatDayD4_injective 1 4 1 4); try lia. reflexivity.
Defined.

Lemma dict_get_set (dct : dict) (k v k' : string) :
  dict_get (dict_set dct k v) k'
  = if String.eqb k k' then Some v else dict_get dct k'.
Proof.
  induction dct as [|[k0 v0] dct IH]; cbn [dict_set dict_get].
  - reflexivity.
  - destruct (String.eqb_spec k0 k) as [->|Hne]; cbn [dict_get].
    + destruct (String.eqb k k'); reflexivity.
    + rewrite IH. destruct (String.eqb_spec k0 k') as [->|Hne'].
      * destruct (String.eqb_spec k k') as [->|_]; [contradiction|].
        reflexivity.
      * reflexivity.
Qed.

Lemma termInfo_bounds (n t : Z) :
  py_index termInfo n = Ok t -> 0 <= t <= 504758.
Proof.
  intros H. apply py_index_ok_inv in H. destruct H as [_ H].
  apply List.nth_error_In in H.
  assert (F : List.Forall (fun t => 0 <= t <= 504758) termInfo)
    by (unfold termInfo; repeat constructor; lia).
  rewrite List.Forall_forall in F. exact (F _ H).
Qed.

(** The day of a term of a supported year is a day of a month. *)
Lemma getTerm_day (y n : Z) :
  minYear <= y <= maxYear -> 0 <= n <= 23 ->
  getTerm y n = Ok (termDayOf y n) /\ 1 <= termDayOf y n <= 31.
Proof.
  intros Hy Hn.
  destruct (termDay_spec_ok y n Hn) as (t & Ht & E).
  rewrite <- getTerm_spec in E by assumption.
  unfold termDayOf. rewrite E. split; [reflexivity|].
  apply termInfo_bounds in Ht.
  unfold dayOfInstant.
  assert (Ho : 1 <= termInstant y t / Gregorian.US_PER_DAY
               <= Gregorian.MAXORDINAL).
  { unfold termInstant, Gregorian.US_PER_DAY, Gregorian.MAXORDINAL.
    change (Gregorian.ymd2ord 1890 1 5) with 689948.
    unfold minYear, maxYear in Hy. split.
    - apply Z.div_le_lower_bound; lia.
    - apply Z.lt_succ_r. apply Z.div_lt_upper_bound; lia. }
  destruct (ymd2ord_ord2ymd _ Ho) as (yy & mm & dd & Eo & Hv & _).
  unfold Gregorian.fromordinal. rewrite Eo.
  cbn [Gregorian.d_day]. destruct Hv as (_ & _ & Hd).
  pose proof (days_in_month_le yy mm). lia.
Qed.

(** The loop of [__getYearTerm] from the index [s] on: a key of a month and
    a day is in the table it leaves exactly when the day is the one of the
    even-indexed term of that month, or when it was there before. *)
Lemma getYearTerm_loop_lookup (year : Z) (len s : nat) (res : dict)
      (month : Z) :
  minYear <= year <= maxYear ->
  (s + len <= 24)%nat ->
  exists (res' : dict) (month' : Z),
    for_each
      (fun '(res, month) i =>
         let* day := getTerm year i in
         if i mod 2 =? 0 then
           let* name := py_index solarTerm i in
           Ok (dict_set res (formatDayD4 (i / 2) day) name, month + 1)
         else Ok (res, month))
      (List.map Z.of_nat (List.seq s len)) (res, month)
    = Ok (res', month')
    /\ forall m d : Z,
         0 <= m <= 11 -> 1 <= d <= 31 ->
         dict_get res' (formatDayD4 m d)
         = if (Z.of_nat s <=? 2 * m) && (2 * m <? Z.of_nat (s + len))
              && (d =? termDayOf year (2 * m))
           then Some (List.nth (Z.to_nat (2 * m)) solarTerm "")
           else dict_get res (formatDayD4 m d).
Proof.
  intros Hy. revert s res month.
  induction len as [|len IH]; intros s res month Hs.
  - exists res, month. split; [reflexivity|]. intros m d Hm Hd.
    destruct (Z.leb_spec (Z.of_nat s) (2 * m)),
      (Z.ltb_spec (2 * m) (Z.of_nat (s + 0))); try reflexivity. lia.
  - cbn [List.seq List.map for_each].
    destruct (getTerm_day year (Z.of_nat s) Hy ltac:(lia)) as [Eg Hday].
    rewrite Eg. cbn [rbind].
    destruct (Z.eqb_spec (Z.of_nat s mod 2) 0) as [Heven|Hodd].
    + rewrite (py_index_nth solarTerm (Z.of_nat s) "")
        by (change (py_len solarTerm) with 24; lia).
      cbn [rbind].
      destruct (IH (S s)
                  (dict_set res
                     (formatDayD4 (Z.of_nat s / 2)
                        (termDayOf year (Z.of_nat s)))
                     (List.nth (Z.to_nat (Z.of_nat s)) solarTerm ""))
                  (month + 1) ltac:(lia))
        as (res' & month' & E & Hget).
      exists res', month'. split; [exact E|]. intros m d Hm Hd.
      rewrite (Hget m d Hm Hd), dict_get_set.
      replace (Z.of_nat (S s + len)) with (Z.of_nat (s + S len)) by lia.
      destruct (Z.eq_dec (2 * m) (Z.of_nat s)) as [E2|N2].
      * rewrite <- E2.
        replace (2 * m / 2) with m by (Z.div_mod_to_equations; lia).
        destruct (Z.leb_spec (Z.of_nat (S s)) (2 * m)) as [?|_]; [lia|].
        cbn [andb].
        destruct (Z.leb_spec (2 * m) (2 * m)) as [_|?]; [|lia].
        destruct (Z.ltb_spec (2 * m) (Z.of_nat (s + S len))) as [_|?];
          [|lia].
        cbn [andb].
        destruct (Z.eqb_spec d (termDayOf year (2 * m))) as [->|Hne].
        -- now rewrite String.eqb_refl.
        -- destruct (String.eqb_spec
                       (formatDayD4 m (termDayOf year (2 * m)))
                       (formatDayD4 m d)) as [Ek|_]; [|reflexivity].
           apply formatDayD4_inj in Ek; try lia.
           rewrite E2. exact Hday.
      * destruct (String.eqb_spec
                    (formatDayD4 (Z.of_nat s / 2)
                       (termDayOf year (Z.of_nat s)))
                    (formatDayD4 m d)) as [Ek|_].
        -- apply formatDayD4_inj in Ek; try lia;
             [|Z.div_mod_to_equations; lia].
           exfalso. Z.div_mod_to_equations. lia.
        -- destruct (Z.leb_spec (Z.of_nat (S s)) (2 * m)),
             (Z.leb_spec (Z.of_nat s) (2 * m)); try lia; reflexivity.
    + destruct (IH (S s) res month ltac:(lia))
        as (res' & month' & E & Hget).
      exists res', month'. split; [exact E|]. intros m d Hm Hd.
      rewrite (Hget m d Hm Hd).
      replace (Z.of_nat (S s + len)) with (Z.of_nat (s + S len)) by lia.
      assert (N2 : 2 * m <> Z.of_nat s)
        by (intros E2; apply Hodd; rewrite <- E2;
            Z.div_mod_to_equations; lia).
      destruct (Z.leb_spec (Z.of_nat (S s)) (2 * m)),
        (Z.leb_spec (Z.of_nat s) (2 * m)); try lia; reflexivity.
Qed.

Lemma getYearTerm_get (year m d : Z) :
  minYear <= year <= maxYear ->
  0 <= m <= 11 ->
  1 <= d <= 31 ->
  exists (termList : dict) (ft : Z) (name : string),
    getYearTerm year = Ok termList
    /\ getTerm year (2 * m) = Ok ft
    /\ py_index solarTerm (2 * m) = Ok name
    /\ dict_get termList (formatDayD4 m d)
       = (if d =? ft then Some name else None).
Proof.
  intros Hy Hm Hd.
  destruct (getYearTerm_loop_lookup year 24 0 [] 0 Hy ltac:(lia))
    as (res' & month' & E & Hget).
  destruct (getTerm_day year (2 * m) Hy ltac:(lia)) as [Eg _].
  exists res', (termDayOf year (2 * m)),
    (List.nth (Z.to_nat (2 * m)) solarTerm "").
  split.
  - rewrite getYearTerm_anchor.
    change (range 24) with (List.map Z.of_nat (List.seq 0 24)).
    match goal with
    | |- rbind ?c _ = _ =>
        replace c with (@Ok (dict * Z) (res', month'))
          by (symmetry; exact E)
    end.
    reflexivity.
  - split; [exact Eg|]. split.
    + apply py_index_nth. change (py_len solarTerm) with 24. lia.
    + rewrite (Hget m d Hm Hd).
      destruct (Z.leb_spec (Z.of_nat 0) (2 * m)); [|lia].
      destruct (Z.ltb_spec (2 * m) (Z.of_nat (0 + 24))); [|lia].
      reflexivity.
Qed.

(** X11 (the term table holds one term per month).  In a year from 1890 to
    2100 the table of [__getYearTerm] holds, for each month, only the first
    of its two terms: the key of a month and a day is in the table exactly
    when the day is the one of the month's even-indexed term, and its value
    is the name of that term; the odd-indexed terms are not recorded. *)
Theorem getYearTerm_lookup (year m d : Z) :
  minYear <= year <= maxYear ->
  0 <= m <= 11 ->
  1 <= d <= 31 ->
  exists (termList : dict) (ft : Z) (name : string),
    getYearTerm year = Ok termList
    /\ getTerm year (2 * m) = Ok ft
    /\ py_index solarTerm (2 * m) = Ok name
    /\ dict_get termList (formatDayD4 m d)
       = (if d =? ft then Some name else None).
Proof. exact (getYearTerm_get year m d). Qed.

(** February 2024 and the day 4. *)
Lemma getYearTerm_lookup_witness :
  exists (termList : dict) (ft : Z) (name : string),
    getYearTerm 2024 = Ok termList
    /\ getTerm 2024 (2 * 1) = Ok ft
    /\ py_index solarTerm (2 * 1) = Ok name
    /\ dict_get termList (formatDayD4 1 4)
       = (if 4 =? ft then Some name else None).
Proof.
  apply (getYearTerm_lookup 2024 1 4); unfold minYear, maxYear; lia.
Defined.

(** ** The fields of the result of [solarToLunar] *)

Lemma solarToLunar_body_inv (t : list (list Z)) (termList : dict)
      (y m d : Z) (r : LunarInfo) :
  solarToLunar_body t termList y m d = Ok r ->
  exists firstTerm : Z,
    getTerm y (m * 2) = Ok firstTerm
    /\ term r = dict_get termList (formatDayD4 m d)
    /\ getLunarMonthName y (if d >=? firstTerm then m + 1 else m) 0
       = Ok (GanZhiMonth r)
    /\ getLunarDayName y m d = Ok (GanZhiDay r).
Proof.
  unfold solarToLunar_body. intros H.
  apply rbind_ok in H. destruct H as (term2 & _ & H).
  apply rbind_ok in H. destruct H as (firstTerm & Eft & H).
  cbv zeta in H.
  apply rbind_ok in H. destruct H as ([[ld0 ld1] ld2] & _ & H).
  apply rbind_ok in H. destruct H as (leapMonth & _ & H).
  apply rbind_ok in H. destruct H as (monthName & _ & H).
  apply rbind_ok in H. destruct H as (zo & _ & H).
  apply rbind_ok in H. destruct H as (gzy & _ & H).
  apply rbind_ok in H. destruct H as (gzm & Egm & H).
  apply rbind_ok in H. destruct H as (gzd & Egd & H).
  apply rbind_ok in H. destruct H as (dn & _ & H).
  injection H as <-. cbn [term GanZhiMonth GanZhiDay].
  exists firstTerm. repeat split; assumption.
Qed.

Lemma solarToLunar_fields (t : list (list Z)) (cache : cache_t) (y m d : Z) :
  table_ok t = true ->
  cache_ok cache ->
  minYear <= y <= maxYear ->
  valid_date y m d ->
  exists (r : LunarInfo) (cache' : cache_t) (termList : dict)
         (firstTerm : Z),
    solarToLunar t cache y m d = (Ok (Value r), cache')
    /\ getYearTerm y = Ok termList
    /\ getTerm y ((m - 1) * 2) = Ok firstTerm
    /\ term r = dict_get termList (formatDayD4 (m - 1) d)
    /\ getLunarMonthName y (if d >=? firstTerm then m - 1 + 1 else m - 1) 0
       = Ok (GanZhiMonth r)
    /\ getLunarDayName y (m - 1) d = Ok (GanZhiDay r).
Proof.
  intros Ht Hc Hy Hv.
  destruct (cachedYearTerm_ok cache y Hc Hy)
    as (termList & cache' & sp & Ec & _ & Eg & _ & Ep & _).
  assert (Hv' : valid_date y (m - 1 + 1) d)
    by (replace (m - 1 + 1) with m by lia; exact Hv).
  destruct (solarToLunar_body_total t termList y (m - 1) d sp Ht Hy Hv' Ep)
    as (r & Er & _).
  destruct (solarToLunar_body_inv _ _ _ _ _ _ Er)
    as (firstTerm & Eft & Eterm & Egm & Egd).
  exists r, cache', termList, firstTerm.
  split.
  - unfold solarToLunar.
    rewrite (formatDate_value y m d (Some minYear)) by (cbn; lia).
    rewrite Ec, Er. reflexivity.
  - repeat split; assumption.
Qed.

(** X12 (the term field).  The [term] field of the result of [solarToLunar],
    for a date of a year from 1890 to 2100: it is the name of the first term
    of the date's month, [solarTerm[2 * (month - 1)]], when the day is the
    day of that term, and [None] on every other day, the day of the month's
    second term included. *)
Theorem solarToLunar_term (t : list (list Z)) (cache : cache_t) (y m d : Z) :
  table_ok t = true ->
  cache_ok cache ->
  minYear <= y <= maxYear ->
  valid_date y m d ->
  exists (r : LunarInfo) (cache' : cache_t) (ft : Z) (name : string),
    solarToLunar t cache y m d = (Ok (Value r), cache')
    /\ getTerm y (2 * (m - 1)) = Ok ft
    /\ py_index solarTerm (2 * (m - 1)) = Ok name
    /\ term r = (if d =? ft then Some name else None).
Proof.
  intros Ht Hc Hy Hv.
  destruct (solarToLunar_fields t cache y m d Ht Hc Hy Hv)
    as (r & cache' & termList & firstTerm & E & Eg & _ & Eterm & _).
  pose proof Hv as (_ & Hm & Hd). pose proof (days_in_month_le y m).
  destruct (getYearTerm_get y (m - 1) d Hy ltac:(lia) ltac:(lia))
    as (termList' & ft & name & Eg' & Eft & En & Eget).
  rewrite Eg in Eg'. injection Eg' as <-.
  exists r, cache', ft, name.
  split; [exact E|]. split; [exact Eft|]. split; [exact En|].
  rewrite Eterm. exact Eget.
Qed.

(** 4 February 2024, on the sample table and a new object's empty cache. *)
Lemma solarToLunar_term_witness :
  exists (r : LunarInfo) (cache' : cache_t) (ft : Z) (name : string),
    solarToLunar Sample.lunarInfo ∅ 2024 2 4 = (Ok (Value r), cache')
    /\ getTerm 2024 (2 * (2 - 1)) = Ok ft
    /\ py_index solarTerm (2 * (2 - 1)) = Ok name
    /\ term r = (if 4 =? ft then Some name else None).
Proof.
  apply (solarToLunar_term Sample.lunarInfo ∅ 2024 2 4).
  - vm_compute. reflexivity.
  - exact cache_ok_empty.
  - unfold minYear, maxYear. lia.
  - unfold valid_date, Gregorian.MINYEAR, Gregorian.MAXYEAR.
    change (Gregorian.days_in_month 2024 2) with 29. lia.
Defined.

(** X13 (stem-branch month and day).  The stem-branch names of the month and
    of the day in the result of [solarToLunar], for a date of a year from
    1890 to 2100.  The month name is the one of the position [(year - 1890)
    * 12 + 12 + G], where [G] is the month number from the day of the
    month's first term on and the month number less one before it.  The day
    name is the one of the position 18 plus the days since 1 January 1890. *)
Theorem solarToLunar_GanZhi_month_day (t : list (list Z)) (cache : cache_t)
        (y m d : Z) :
  table_ok t = true ->
  cache_ok cache ->
  minYear <= y <= maxYear ->
  valid_date y m d ->
  exists (r : LunarInfo) (cache' : cache_t) (ft : Z),
    solarToLunar t cache y m d = (Ok (Value r), cache')
    /\ getTerm y (2 * (m - 1)) = Ok ft
    /\ cyclical ((y - 1890) * 12 + (if ft <=? d then m else m - 1) + 12)
       = Ok (GanZhiMonth r)
    /\ cyclical (Gregorian.ymd2ord y m d - Gregorian.ymd2ord 1890 1 1 + 18)
       = Ok (GanZhiDay r).
Proof.
  intros Ht Hc Hy Hv.
  destruct (solarToLunar_fields t cache y m d Ht Hc Hy Hv)
    as (r & cache' & termList & ft & E & _ & Eft & _ & Egm & Egd).
  exists r, cache', ft. split; [exact E|].
  split; [replace (2 * (m - 1)) with ((m - 1) * 2) by lia; exact Eft|].
  split.
  - unfold getLunarMonthName in Egm. rewrite <- Egm. f_equal.
    destruct (Z.geb_spec d ft), (Z.leb_spec ft d); lia.
  - assert (Hv' : valid_date y (m - 1 + 1) d)
      by (replace (m - 1 + 1) with m by lia; exact Hv).
    rewrite getLunarDayName_eq in Egd.
    + replace (m - 1 + 1) with m in Egd by lia. exact Egd.
    + exact Hv'.
    + pose proof (ymd2ord_in_year _ _ _ Hv') as Ho.
      pose proof (days_before_year_supported y ltac:(lia)) as Hb.
      unfold Gregorian.MAXORDINAL. lia.
Qed.

(** 10 February 2024, on the sample table and a new object's empty
    cache. *)
Lemma solarToLunar_GanZhi_month_day_witness :
  exists (r : LunarInfo) (cache' : cache_t) (ft : Z),
    solarToLunar Sample.lunarInfo ∅ 2024 2 10 = (Ok (Value r), cache')
    /\ getTerm 2024 (2 * (2 - 1)) = Ok ft
    /\ cyclical ((2024 - 1890) * 12 + (if ft <=? 10 then 2 else 2 - 1) + 12)
       = Ok (GanZhiMonth r)
    /\ cyclical (Gregorian.ymd2ord 2024 2 10 - Gregorian.ymd2ord 1890 1 1
                 + 18)
       = Ok (GanZhiDay r).
Proof.
  apply (solarToLunar_GanZhi_month_day Sample.lunarInfo ∅ 2024 2 10).
  - vm_compute. reflexivity.
  - exact cache_ok_empty.
  - unfold minYear, maxYear. lia.
  - unfold valid_date, Gregorian.MINYEAR, Gregorian.MAXYEAR.
    change (Gregorian.days_in_month 2024 2) with 29. lia.
Defined.

(** ** The record that the year before the table reads *)

Lemma find_month_before_start (l : list Z) (end_ : Z) :
  (forall x, List.In x l -> 0 < x) ->
  l <> [] ->
  end_ < 0 ->
  find_month l end_ (range (py_len l)) 0 0 = Ok (0, 0).
Proof.
  intros Hpos Hne Hneg. rewrite range_py_len.
  destruct l as [|x l']; [congruence|].
  cbn [List.length List.seq List.map find_month].
  change (py_index (x :: l') (Z.of_nat 0)) with (Ok x). cbn [rbind].
  pose proof (Hpos x (or_introl eq_refl)).
  destruct (Z.gtb_spec (0 + x) end_); [|lia].
  do 2 f_equal. lia.
Qed.

(** C9 (negative index at the lower bound).  [solarToLunar] accepts the year
    1890.  For a date of 1890 before the first lunar day of the 1890 record,
    the call returns a result dictionary whose lunar year is 1889; the
    lookups for 1889 use the index [-1], which reads the last row of the
    table, the record of 2100.  The lunar fields of the result come from
    that row: the leap month is the row's first field, the month lengths
    are the ones decoded from the row's mask, and the lunar month and day
    are the position, in these month lengths, of the offset counted back
    from their sum. *)
Theorem C9_wraparound_at_1890 (t : list (list Z)) (cache : cache_t)
        (m d leap zenMonth zenDay monthData
           leap' zenMonth' zenDay' monthData' : Z) :
  table_ok t = true ->
  cache_ok cache ->
  valid_date 1890 m d ->
  py_index t (1890 - minYear) = Ok [leap; zenMonth; zenDay; monthData] ->
  py_index t (2100 - minYear) = Ok [leap'; zenMonth'; zenDay'; monthData'] ->
  Gregorian.ymd2ord 1890 m d < Gregorian.ymd2ord 1890 zenMonth zenDay ->
  exists (r : LunarInfo) (cache' : cache_t),
    solarToLunar t cache 1890 m d = (Ok (Value r), cache')
    /\ lunarYear r = 1889
    /\ 1889 - minYear = -1
    /\ py_index t (-1) = Ok [leap'; zenMonth'; zenDay'; monthData']
    /\ lunarLeapMonth r = leap'
    /\ let months :=
         List.map (monthLength monthData')
                  (range (if leap' =? 0 then 12 else 13)) in
       let end_ :=
         py_sum months
         + (Gregorian.ymd2ord 1890 m d
            - Gregorian.ymd2ord 1890 zenMonth zenDay) in
       getLunarLeapYear t 1889 = Ok leap'
       /\ getLunarYearDays t 1889 = Ok (mkLunarYearDays (py_sum months) months)
       /\ (exists tempDays : Z,
              find_month months end_ (range (py_len months)) 0 0
              = Ok (tempDays, lunarMonth r - 1)
              /\ lunarDay r = end_ - tempDays + 1)
       /\ (0 <= end_ ->
           exists j : nat,
             (j < List.length months)%nat
             /\ py_sum (List.firstn j months) <= end_
                < py_sum (List.firstn (S j) months)
             /\ lunarMonth r = Z.of_nat j + 1
             /\ lunarDay r = end_ - py_sum (List.firstn j months) + 1)
       /\ (end_ < 0 -> lunarMonth r = 1 /\ lunarDay r = end_ + 1).
Proof.
  intros Ht Hc Hv Hrow Hrow' Hlt.
  assert (Hy : minYear <= 1890 <= maxYear) by (unfold minYear, maxYear; lia).
  destruct (solarToLunar_total t cache 1890 m d Ht Hc Hy Hv)
    as (r & cache' & sp & E & _ & _ & _ & Eld & Eleap & _ & _).
  assert (Hv' : valid_date 1890 (m - 1 + 1) d)
    by (replace (m - 1 + 1) with m by lia; exact Hv).
  destruct (getLunarByBetween_total t 1890 (m - 1) d Ht Hy Hv')
    as (leap0 & zm & zd & bits & between & ly & mo & day & leap1
        & Hrow0 & _ & Hb & Hly & Eld' & Edate & _ & _ & _ & _ & _).
  rewrite Hrow in Hrow0. injection Hrow0 as <- <- <- <-.
  replace (m - 1 + 1) with m in Hb by lia.
  assert (Hneg : between < 0) by lia.
  destruct (Z.ltb_spec between 0) as [_|?]; [|lia].
  rewrite Eld in Eld'. injection Eld' as Ey Em Ed.
  specialize (Edate ltac:(lia)). subst ly.
  change (1890 - 1) with 1889 in *.
  pose proof (table_ok_wraparound t Ht) as Hw.
  change (minYear - 1 - minYear) with (-1) in Hw.
  change (maxYear - minYear) with (2100 - minYear) in Hw.
  rewrite Hrow' in Hw.
  assert (Hrow89 : py_index t (1889 - minYear)
                   = Ok [leap'; zenMonth'; zenDay'; monthData'])
    by exact Hw.
  pose proof (getLunarYearDays_eq t 1889 _ leap' monthData' Hrow89
                eq_refl eq_refl) as Hyd.
  assert (Ell : getLunarLeapYear t 1889 = Ok leap')
    by (apply (getLunarLeapYear_row _ _ _ _ Hrow89); reflexivity).
  destruct (getLunarYearDays_shape _ _ _ Hyd) as (_ & Hval & Hlen).
  cbn [monthDays] in Hval, Hlen.
  unfold getLunarDateByBetween in Edate. rewrite Hyd in Edate.
  cbn [rbind yearDays monthDays] in Edate.
  destruct (Z.gtb_spec between 0) as [?|_]; [lia|].
  exists r, cache'.
  split; [exact E|]. split; [exact Ey|]. split; [reflexivity|].
  split; [exact Hw|].
  split; [rewrite Ey, Ell in Eleap; now injection Eleap|].
  cbv zeta. rewrite <- Hb.
  remember (List.map (monthLength monthData')
              (range (if leap' =? 0 then 12 else 13))) as months eqn:Emonths.
  remember (py_sum months + between) as end_ eqn:Eend.
  assert (Hpos : forall x, List.In x months -> 0 < x).
  { intros x Hx. destruct (Hval x Hx); lia. }
  assert (Hne : months <> []).
  { intros En. rewrite En in Hlen. cbn in Hlen. lia. }
  apply rbind_ok in Edate. destruct Edate as ([tempDays month] & Ef & Ed').
  injection Ed' as Emo Eday.
  split; [exact Ell|]. split; [exact Hyd|]. split; [|split].
  - exists tempDays. split; [|lia].
    rewrite Ef. do 2 f_equal. lia.
  - intros Hnn.
    destruct (find_month_from months Hpos end_ (List.length months) 0 0
                eq_refl)
      as [(j & Hj & Hjb & Ej)|[Hge _]].
    + change (py_sum (List.firstn 0 months)) with 0. exact Hnn.
    + change (py_sum (List.firstn 0 months)) with 0 in Ej.
      rewrite range_py_len, Ej in Ef. injection Ef as Et Emonth.
      exists j. split; [lia|]. split; [exact Hjb|]. split; lia.
    + lia.
  - intros Hlt0.
    rewrite (find_month_before_start months end_ Hpos Hne Hlt0) in Ef.
    injection Ef as Et Emonth. split; lia.
Qed.

(** The theorem at 10 January 1890, on the sample table (whose 1890 record
    starts the lunar year on 21 January, and whose last row is the record
    of 2100) and a new object's empty cache. *)
Lemma C9_wraparound_at_1890_witness :
  exists (r : LunarInfo) (cache' : cache_t),
    solarToLunar Sample.lunarInfo ∅ 1890 1 10 = (Ok (Value r), cache')
    /\ lunarYear r = 1889
    /\ 1889 - minYear = -1
    /\ py_index Sample.lunarInfo (-1) = Ok [6; 1; 31; 43688]
    /\ lunarLeapMonth r = 6
    /\ let months :=
         List.map (monthLength 43688) (range (if 6 =? 0 then 12 else 13)) in
       let end_ :=
         py_sum months
         + (Gregorian.ymd2ord 1890 1 10 - Gregorian.ymd2ord 1890 1 21) in
       getLunarLeapYear Sample.lunarInfo 1889 = Ok 6
       /\ getLunarYearDays Sample.lunarInfo 1889
          = Ok (mkLunarYearDays (py_sum months) months)
       /\ (exists tempDays : Z,
              find_month months end_ (range (py_len months)) 0 0
              = Ok (tempDays, lunarMonth r - 1)
              /\ lunarDay r = end_ - tempDays + 1)
       /\ (0 <= end_ ->
           exists j : nat,
             (j < List.length months)%nat
             /\ py_sum (List.firstn j months) <= end_
                < py_sum (List.firstn (S j) months)
             /\ lunarMonth r = Z.of_nat j + 1
             /\ lunarDay r = end_ - py_sum (List.firstn j months) + 1)
       /\ (end_ < 0 -> lunarMonth r = 1 /\ lunarDay r = end_ + 1).
Proof.
  apply (C9_wraparound_at_1890 Sample.lunarInfo ∅ 1 10 2 1 21 22184
           6 1 31 43688).
  - vm_compute. reflexivity.
  - exact cache_ok_empty.
  - unfold valid_date, Gregorian.MINYEAR, Gregorian.MAXYEAR.
    change (Gregorian.days_in_month 1890 1) with 31. lia.
  - reflexivity.
  - vm_compute. reflexivity.
  - vm_compute. reflexivity.
Defined.

(** ** The day of the start of spring, as [solarToLunar] reads it *)

(** [parseTerm2] on a term table whose first entry named start of spring
    has the key of the day [d0]: the last digit of [d0]. *)
Lemma parseTerm2_key (pre rest : dict) (k d0 : Z) :
  (forall kv, List.In kv pre -> snd kv <> "立春") ->
  1 <= d0 <= 31 ->
  parseTerm2 (pre ++ (formatDayD4 k d0, "立春") :: rest)%list
  = Ok (d0 mod 10).
Proof.
  intros Hpre Hd. unfold parseTerm2.
  assert (F : List.filter (fun '(_, v) => String.eqb v "立春")
                (pre ++ (formatDayD4 k d0, "立春") :: rest)%list
              = (formatDayD4 k d0, "立春")
                  :: List.filter (fun '(_, v) => String.eqb v "立春") rest).
  { induction pre as [|[k0 v0] pre IH].
    - cbn [List.app List.filter]. rewrite String.eqb_refl. reflexivity.
    - cbn [List.app List.filter].
      destruct (String.eqb_spec v0 "立春") as [Ev|_].
      + exfalso. exact (Hpre (k0, v0) (or_introl eq_refl) Ev).
      + apply IH. intros kv Hkv. apply Hpre. right. exact Hkv. }
  rewrite F. cbn [List.map fst].
  rewrite (py_index_nth _ 0 "") by (unfold py_len; cbn [List.length]; lia).
  cbn [rbind Z.to_nat List.nth].
  apply formatDayD4_last_digit. exact Hd.
Qed.

Lemma ganzhi_year_test (y m d sp : Z) :
  (if (m - 1 >? 1) || ((m - 1 =? 1) && (d >=? sp)) then y + 1 else y)
  = (if (3 <=? m) || ((m =? 2) && (sp <=? d)) then y + 1 else y).
Proof.
  destruct (Z.gtb_spec (m - 1) 1), (Z.leb_spec 3 m); try lia;
    cbn [orb]; try reflexivity.
  destruct (Z.eqb_spec (m - 1) 1), (Z.eqb_spec m 2); try lia;
    cbn [andb]; try reflexivity.
  destruct (Z.geb_spec d sp), (Z.leb_spec sp d); try lia; reflexivity.
Qed.

(** C10 (single-digit cutover parse).  [solarToLunar] recovers the day of
    the start of spring from the term table by the last character of the
    key of the entry named start of spring: on a table whose first such
    entry has the key of the day [d0], the parse yields [d0 mod 10], which
    is [d0] exactly when [d0] is below 10.  The value parsed from the table
    that the cache holds for the year is the cutover day that
    [solarToLunar] uses for the zodiac and the stem-branch year.  In a year
    from 1890 to 2100 the table of the year has the key of the day
    [__getTerm(year, 2)] for the start of spring, the parse yields that day
    modulo 10, the day is below 10, and [solarToLunar] computes the cutover
    from it. *)
Theorem C10_single_digit_cutover (t : list (list Z)) (y m d : Z) :
  table_ok t = true ->
  minYear <= y <= maxYear ->
  valid_date y m d ->
  (forall (pre rest : dict) (k d0 : Z),
      (forall kv, List.In kv pre -> snd kv <> "立春") ->
      1 <= d0 <= 31 ->
      parseTerm2 (pre ++ (formatDayD4 k d0, "立春") :: rest)%list
      = Ok (d0 mod 10)
      /\ int_of_last_char (formatDayD4 k d0) = Ok (d0 mod 10)
      /\ (d0 mod 10 = d0 <-> d0 < 10))
  /\ (forall (cache : cache_t) (termList : dict) (term2 : Z),
         cache !! y = Some termList ->
         parseTerm2 termList = Ok term2 ->
         exists r : LunarInfo,
           solarToLunar t cache y m d = (Ok (Value r), cache)
           /\ let G := if (3 <=? m) || ((m =? 2) && (term2 <=? d))
                       then y + 1 else y in
              py_index zodiacTable ((G - 1890 + 25) mod 12) = Ok (zodiac r)
              /\ cyclical (G - 1890 + 25) = Ok (GanZhiYear r))
  /\ exists (termList : dict) (sp : Z),
       getYearTerm y = Ok termList
       /\ getTerm y 2 = Ok sp
       /\ dict_get termList (formatDayD4 1 sp) = Some "立春"
       /\ parseTerm2 termList = Ok (sp mod 10)
       /\ (sp mod 10 = sp <-> sp < 10)
       /\ sp < 10
       /\ forall cache : cache_t,
            cache_ok cache ->
            exists (r : LunarInfo) (cache' : cache_t),
              solarToLunar t cache y m d = (Ok (Value r), cache')
              /\ let G := if (3 <=? m) || ((m =? 2) && (sp mod 10 <=? d))
                          then y + 1 else y in
                 py_index zodiacTable ((G - 1890 + 25) mod 12)
                 = Ok (zodiac r)
                 /\ cyclical (G - 1890 + 25) = Ok (GanZhiYear r).
Proof.
  intros Ht Hy Hv.
  assert (Hmod : forall d0, 1 <= d0 <= 31 -> d0 mod 10 = d0 <-> d0 < 10).
  { intros d0 Hd0. split; intros H.
    - pose proof (Z.mod_pos_bound d0 10 ltac:(lia)). lia.
    - apply Z.mod_small. lia. }
  assert (Hv' : valid_date y (m - 1 + 1) d)
    by (replace (m - 1 + 1) with m by lia; exact Hv).
  split; [|split].
  - intros pre rest k d0 Hpre Hd0.
    split; [now apply parseTerm2_key|].
    split; [now apply formatDayD4_last_digit | now apply Hmod].
  - intros cache termList term2 Hcache Hp.
    destruct (solarToLunar_body_total t termList y (m - 1) d term2
                Ht Hy Hv' Hp)
      as (r & Er & _ & _ & Ezo & Egy & _).
    exists r. split.
    + unfold solarToLunar.
      rewrite (formatDate_value y m d (Some minYear)) by (cbn; lia).
      unfold cachedYearTerm. rewrite Hcache, Er. reflexivity.
    + rewrite ganzhi_year_test in Ezo, Egy. cbv zeta.
      unfold getYearZodiac in Ezo. unfold getLunarYearName in Egy.
      rewrite Z.add_0_r in Egy. split; assumption.
  - destruct (check_term2_spec y Hy) as (termList & sp & Eg & Esp & Ep & Hsp).
    exists termList, sp.
    split; [exact Eg|]. split; [exact Esp|]. split.
    { destruct (getYearTerm_get y 1 sp Hy ltac:(lia) ltac:(lia))
        as (termList' & ft & name & Eg' & Eft & En & Eget).
      rewrite Eg in Eg'. injection Eg' as <-.
      change (2 * 1) with 2 in Eft, En.
      rewrite Esp in Eft. injection Eft as <-.
      change (py_index solarTerm 2) with (@Ok string "立春") in En.
      injection En as <-. rewrite Eget, Z.eqb_refl. reflexivity. }
    split; [exact Ep|]. split; [apply Hmod; lia|]. split; [lia|].
    intros cache Hc.
    destruct (solarToLunar_total t cache y m d Ht Hc Hy Hv)
      as (r & cache' & sp' & E & _ & Esp' & _ & _ & _ & Ezo & Egy).
    rewrite Esp in Esp'. injection Esp' as Es. subst sp'.
    exists r, cache'. split; [exact E|].
    rewrite ganzhi_year_test in Ezo, Egy. cbv zeta.
    rewrite (Z.mod_small sp 10) by lia.
    unfold getYearZodiac in Ezo. unfold getLunarYearName in Egy.
    rewrite Z.add_0_r in Egy. split; assumption.
Qed.

(** The theorem at 10 February 2024, on the sample table. *)
Lemma C10_single_digit_cutover_witness :
  (forall (pre rest : dict) (k d0 : Z),
      (forall kv, List.In kv pre -> snd kv <> "立春") ->
      1 <= d0 <= 31 ->
      parseTerm2 (pre ++ (formatDayD4 k d0, "立春") :: rest)%list
      = Ok (d0 mod 10)
      /\ int_of_last_char (formatDayD4 k d0) = Ok (d0 mod 10)
      /\ (d0 mod 10 = d0 <-> d0 < 10))
  /\ (forall (cache : cache_t) (termList : dict) (term2 : Z),
         cache !! 2024 = Some termList ->
         parseTerm2 termList = Ok term2 ->
         exists r : LunarInfo,
           solarToLunar Sample.lunarInfo cache 2024 2 10
           = (Ok (Value r), cache)
           /\ let G := if (3 <=? 2) || ((2 =? 2) && (term2 <=? 10))
                       then 2024 + 1 else 2024 in
              py_index zodiacTable ((G - 1890 + 25) mod 12) = Ok (zodiac r)
              /\ cyclical (G - 1890 + 25) = Ok (GanZhiYear r))
  /\ exists (termList : dict) (sp : Z),
       getYearTerm 2024 = Ok termList
       /\ getTerm 2024 2 = Ok sp
       /\ dict_get termList (formatDayD4 1 sp) = Some "立春"
       /\ parseTerm2 termList = Ok (sp mod 10)
       /\ (sp mod 10 = sp <-> sp < 10)
       /\ sp < 10
       /\ forall cache : cache_t,
            cache_ok cache ->
            exists (r : LunarInfo) (cache' : cache_t),
              solarToLunar Sample.lunarInfo cache 2024 2 10
              = (Ok (Value r), cache')
              /\ let G := if (3 <=? 2) || ((2 =? 2) && (sp mod 10 <=? 10))
                          then 2024 + 1 else 2024 in
                 py_index zodiacTable ((G - 1890 + 25) mod 12)
                 = Ok (zodiac r)
                 /\ cyclical (G - 1890 + 25) = Ok (GanZhiYear r).
Proof.
  apply (C10_single_digit_cutover Sample.lunarInfo 2024 2 10).
  - vm_compute. reflexivity.
  - unfold minYear, maxYear. lia.
  - unfold valid_date, Gregorian.MINYEAR, Gregorian.MAXYEAR.
    change (Gregorian.days_in_month 2024 2) with 29. lia.
Defined.

(** ** What [datetime.date] raises *)

Lemma date_new_overflow (y m d : Z) :
  Gregorian.INT_MIN <= y <= Gregorian.INT_MAX ->
  Gregorian.INT_MIN <= m <= Gregorian.INT_MAX ->
  ~ (Gregorian.INT_MIN <= d <= Gregorian.INT_MAX) ->
  Gregorian.date_new y m d = Raise OverflowError.
Proof.
  unfold Gregorian.INT_MIN, Gregorian.INT_MAX. intros Hy Hm Hd.
  unfold Gregorian.date_new. rewrite !c_int_small by lia. cbn [rbind].
  unfold Gregorian.c_int, Gregorian.INT_MIN, Gregorian.INT_MAX.
  destruct (Z.leb_spec (- 2 ^ 31) d), (Z.leb_spec d (2 ^ 31 - 1));
    try reflexivity.
  lia.
Qed.

Lemma date_new_value_error (y m d : Z) :
  Gregorian.INT_MIN <= y <= Gregorian.INT_MAX ->
  Gregorian.INT_MIN <= m <= Gregorian.INT_MAX ->
  Gregorian.INT_MIN <= d <= Gregorian.INT_MAX ->
  ~ valid_date y m d ->
  Gregorian.date_new y m d = Raise ValueError.
Proof.
  unfold Gregorian.INT_MIN, Gregorian.INT_MAX. intros Hy Hm Hd Hn.
  unfold Gregorian.date_new. rewrite !c_int_small by lia. cbn [rbind].
  destruct (Z.leb_spec Gregorian.MINYEAR y),
    (Z.leb_spec y Gregorian.MAXYEAR); try reflexivity.
  destruct (Z.leb_spec 1 m), (Z.leb_spec m 12); try reflexivity.
  destruct (Z.leb_spec 1 d), (Z.leb_spec d (Gregorian.days_in_month y m));
    try reflexivity.
  exfalso. apply Hn. unfold valid_date. lia.
Qed.

(** ** [__getTerm] on any index *)

Lemma of_int_supported (y : Z) :
  minYear <= y <= maxYear -> exists f, Float.of_int (y - 1890) = Ok f.
Proof.
  intros Hy. destruct (getTerm_day y 0 Hy ltac:(lia)) as [E _].
  unfold getTerm in E. apply rbind_ok in E. destruct E as (f & Ef & _).
  eauto.
Qed.

Lemma getTerm_index_error (y n : Z) :
  minYear <= y <= maxYear ->
  n < - 24 \/ 23 < n ->
  getTerm y n = Raise IndexError.
Proof.
  intros Hy Hn. destruct (of_int_supported y Hy) as (f & Ef).
  unfold getTerm. rewrite Ef. cbn [rbind].
  assert (E : py_index termInfo n = Raise IndexError).
  { apply py_index_raise_iff. change (py_len termInfo) with 24. lia. }
  rewrite E. reflexivity.
Qed.

Lemma getTerm_wrap (y n : Z) :
  minYear <= y <= maxYear ->
  - 24 <= n <= 23 ->
  exists ft, getTerm y n = Ok ft.
Proof.
  intros Hy Hn. destruct (Z.lt_ge_cases n 0) as [Hneg|Hpos].
  - destruct (getTerm_day y (n + 24) Hy ltac:(lia)) as [E _].
    exists (termDayOf y (n + 24)). rewrite <- E. unfold getTerm.
    rewrite (py_index_neg termInfo n)
      by (change (py_len termInfo) with 24; lia).
    reflexivity.
  - destruct (getTerm_day y n Hy ltac:(lia)) as [E _]. eauto.
Qed.

(** ** The exceptions of [solarToLunar] *)

Lemma getLunarByBetween_exn (t : list (list Z)) (y m d : Z) (e : exn) :
  table_ok t = true ->
  minYear <= y <= maxYear ->
  Gregorian.date_new y (m + 1) d = Raise e ->
  getLunarByBetween t y m d = Raise e.
Proof.
  intros Ht Hy He.
  destruct (table_ok_row t y Ht Hy)
    as (leap & zm & zd & bits & Hrow & _ & Hz).
  unfold getLunarByBetween. rewrite Hrow. cbn [rbind].
  change (py_index [leap; zm; zd; bits] 1) with (Ok zm).
  change (py_index [leap; zm; zd; bits] 2) with (Ok zd). cbn [rbind].
  unfold getDaysBetweenSolar.
  replace (zm - 1 + 1) with zm by lia.
  rewrite (date_new_ok _ _ _ Hz). cbn [rbind]. rewrite He. reflexivity.
Qed.

(** [solarToLunar] on a year it accepts, as the body run on the year's term
    table. *)
Lemma solarToLunar_fst_body (t : list (list Z)) (cache : cache_t)
      (y m d : Z) :
  cache_ok cache ->
  minYear <= y <= maxYear ->
  exists (termList : dict) (sp : Z),
    parseTerm2 termList = Ok sp
    /\ fst (solarToLunar t cache y m d)
       = (let* r := solarToLunar_body t termList y (m - 1) d in
          Ok (Value r)).
Proof.
  intros Hc Hy.
  destruct (cachedYearTerm_ok cache y Hc Hy)
    as (termList & cache' & sp & Ec & _ & _ & _ & Ep & _).
  exists termList, sp. split; [exact Ep|].
  unfold solarToLunar.
  rewrite (formatDate_value y m d (Some minYear)) by (cbn; lia).
  rewrite Ec. reflexivity.
Qed.

Lemma solarToLunar_body_raise_term (t : list (list Z)) (termList : dict)
      (y m d sp : Z) (e : exn) :
  parseTerm2 termList = Ok sp ->
  getTerm y (m * 2) = Raise e ->
  solarToLunar_body t termList y m d = Raise e.
Proof.
  intros Hp He. unfold solarToLunar_body.
  rewrite Hp. cbn [rbind]. rewrite He. reflexivity.
Qed.

Lemma solarToLunar_body_raise_date (t : list (list Z)) (termList : dict)
      (y m d sp ft : Z) (e : exn) :
  parseTerm2 termList = Ok sp ->
  getTerm y (m * 2) = Ok ft ->
  getLunarByBetween t y m d = Raise e ->
  solarToLunar_body t termList y m d = Raise e.
Proof.
  intros Hp Hft He. unfold solarToLunar_body.
  rewrite Hp. cbn [rbind]. rewrite Hft. cbn [rbind]. cbv zeta.
  rewrite He. reflexivity.
Qed.

Lemma solarToLunar_exn (t : list (list Z)) (cache : cache_t) (y m d : Z) :
  table_ok t = true ->
  cache_ok cache ->
  minYear <= y <= maxYear ->
  (m <= - 12 \/ 13 <= m ->
   fst (solarToLunar t cache y m d) = Raise IndexError)
  /\ (- 11 <= m <= 12 ->
      ~ (Gregorian.INT_MIN <= d <= Gregorian.INT_MAX) ->
      fst (solarToLunar t cache y m d) = Raise OverflowError)
  /\ (- 11 <= m <= 12 ->
      Gregorian.INT_MIN <= d <= Gregorian.INT_MAX ->
      ~ valid_date y m d ->
      fst (solarToLunar t cache y m d) = Raise ValueError).
Proof.
  intros Ht Hc Hy.
  destruct (solarToLunar_fst_body t cache y m d Hc Hy)
    as (termList & sp & Ep & ->).
  assert (Hyi : Gregorian.INT_MIN <= y <= Gregorian.INT_MAX)
    by (unfold Gregorian.INT_MIN, Gregorian.INT_MAX, minYear, maxYear in *;
        lia).
  assert (Hraise : forall e,
             - 11 <= m <= 12 ->
             Gregorian.date_new y (m - 1 + 1) d = Raise e ->
             solarToLunar_body t termList y (m - 1) d = Raise e).
  { intros e Hm He.
    destruct (getTerm_wrap y ((m - 1) * 2) Hy ltac:(lia)) as (ft & Eft).
    apply (solarToLunar_body_raise_date t termList y (m - 1) d sp ft e Ep Eft).
    exact (getLunarByBetween_exn t y (m - 1) d e Ht Hy He). }
  split; [|split].
  - intros Hm.
    rewrite (solarToLunar_body_raise_term t termList y (m - 1) d sp
               IndexError Ep); [reflexivity|].
    apply getTerm_index_error; [exact Hy | lia].
  - intros Hm Hd. rewrite (Hraise OverflowError Hm); [reflexivity|].
    apply date_new_overflow; [exact Hyi | | exact Hd].
    unfold Gregorian.INT_MIN, Gregorian.INT_MAX. lia.
  - intros Hm Hd Hn. rewrite (Hraise ValueError Hm); [reflexivity|].
    apply date_new_value_error; [exact Hyi | | exact Hd |].
    + unfold Gregorian.INT_MIN, Gregorian.INT_MAX. lia.
    + replace (m - 1 + 1) with m by lia. exact Hn.
Qed.

(** ** [lunarToSolar] on any month and day *)

Lemma lunarToSolar_exact (t : list (list Z)) (y m d : Z) :
  table_ok t = true ->
  minYear + 1 <= y <= maxYear ->
  exists leap zenMonth zenDay monthData,
    py_index t (y - minYear) = Ok [leap; zenMonth; zenDay; monthData]
    /\ let months :=
         List.map (monthLength monthData)
                  (range (if leap =? 0 then 12 else 13)) in
       let between :=
         py_sum (List.firstn (Z.to_nat (m - 1)) months) + d - 1 in
       let o := Gregorian.ymd2ord y zenMonth zenDay + between in
       getDaysBetweenZheng t y (m - 1) d = Ok between
       /\ lunarToSolar t y m d
          = if (1 <=? o) && (o <=? Gregorian.MAXORDINAL)
            then Ok (Value
                       (let dt := Gregorian.fromordinal o in
                        mkSolarInfo (Gregorian.d_year dt)
                                    (Gregorian.d_month dt)
                                    (Gregorian.d_day dt)))
            else Raise OverflowError.
Proof.
  intros Ht Hy.
  destruct (table_ok_row t y Ht ltac:(lia))
    as (leap & zm & zd & bits & Hrow & _ & Hz).
  pose proof (getLunarYearDays_eq t y _ leap bits Hrow eq_refl eq_refl) as Hr.
  pose proof (getDaysBetweenZheng_eq t y _ (m - 1) d Hr) as Eb.
  cbn [monthDays] in Eb.
  exists leap, zm, zd, bits. split; [exact Hrow|]. cbv zeta.
  split; [exact Eb|].
  remember (py_sum
              (List.firstn (Z.to_nat (m - 1))
                 (List.map (monthLength bits)
                    (range (if leap =? 0 then 12 else 13)))) + d - 1)
    as between eqn:Ebt.
  unfold lunarToSolar.
  rewrite (formatDate_value y m d None) by (cbn; lia).
  rewrite Eb. cbn [rbind]. rewrite Hrow. cbn [rbind].
  change (py_index [leap; zm; zd; bits] 1) with (Ok zm).
  change (py_index [leap; zm; zd; bits] 2) with (Ok zd). cbn [rbind].
  rewrite (date_new_ok _ _ _ Hz). cbn [rbind].
  pose proof (ymd2ord_in_year _ _ _ Hz) as Ho.
  pose proof (days_before_year_supported y ltac:(lia)) as Hb.
  unfold Gregorian.timedelta_days, Gregorian.timedelta_of_us.
  rewrite td_days_of_days.
  destruct (Z.leb_spec (- Gregorian.MAX_DELTA_DAYS) between),
    (Z.leb_spec between Gregorian.MAX_DELTA_DAYS); cbn [andb rbind];
    unfold Gregorian.MAX_DELTA_DAYS, Gregorian.MAXORDINAL in *.
  - unfold Gregorian.date_add. rewrite td_days_of_days.
    unfold Gregorian.toordinal, Gregorian.MAXORDINAL.
    cbn [Gregorian.d_year Gregorian.d_month Gregorian.d_day].
    destruct ((1 <=? Gregorian.ymd2ord y zm zd + between)
              && (Gregorian.ymd2ord y zm zd + between <=? 3652059));
      reflexivity.
  - destruct (Z.leb_spec (Gregorian.ymd2ord y zm zd + between) 3652059);
      [lia|]. rewrite andb_false_r. reflexivity.
  - destruct (Z.leb_spec 1 (Gregorian.ymd2ord y zm zd + between));
      [lia|]. reflexivity.
  - lia.
Qed.

(** ** Months and days that are not dates *)

(** C6 (no day-of-month validation), as the code has it.  [lunarToSolar],
    in a year that it accepts, takes every month and every day without
    checking them: it returns the solar date at the computed offset from
    the first lunar day of the year's record whenever that date is a date
    of [datetime.date], and raises [OverflowError] otherwise.
    [solarToLunar], in a year that it accepts, returns a result exactly
    when the month and day are a date of the Gregorian calendar; on any
    other pair it raises: [IndexError] when the month is above 12 or below
    -11 (the lookup of the month's first term), [OverflowError] when the
    day does not fit a C [int], and [ValueError] from [datetime.date] in
    the remaining cases, such as 30 February. *)
Theorem C6_day_validation (t : list (list Z)) (cache : cache_t) (y m d : Z) :
  table_ok t = true ->
  cache_ok cache ->
  minYear <= y <= maxYear ->
  (minYear + 1 <= y ->
   exists leap zenMonth zenDay monthData,
     py_index t (y - minYear) = Ok [leap; zenMonth; zenDay; monthData]
     /\ let months :=
          List.map (monthLength monthData)
                   (range (if leap =? 0 then 12 else 13)) in
        let between :=
          py_sum (List.firstn (Z.to_nat (m - 1)) months) + d - 1 in
        let o := Gregorian.ymd2ord y zenMonth zenDay + between in
        getDaysBetweenZheng t y (m - 1) d = Ok between
        /\ lunarToSolar t y m d
           = if (1 <=? o) && (o <=? Gregorian.MAXORDINAL)
             then Ok (Value
                        (let dt := Gregorian.fromordinal o in
                         mkSolarInfo (Gregorian.d_year dt)
                                     (Gregorian.d_month dt)
                                     (Gregorian.d_day dt)))
             else Raise OverflowError)
  /\ ((exists r, fst (solarToLunar t cache y m d) = Ok (Value r))
      <-> valid_date y m d)
  /\ (m <= - 12 \/ 13 <= m ->
      fst (solarToLunar t cache y m d) = Raise IndexError)
  /\ (- 11 <= m <= 12 ->
      ~ (Gregorian.INT_MIN <= d <= Gregorian.INT_MAX) ->
      fst (solarToLunar t cache y m d) = Raise OverflowError)
  /\ (- 11 <= m <= 12 ->
      Gregorian.INT_MIN <= d <= Gregorian.INT_MAX ->
      ~ valid_date y m d ->
      fst (solarToLunar t cache y m d) = Raise ValueError).
Proof.
  intros Ht Hc Hy.
  split; [intros Hy1; apply lunarToSolar_exact; [exact Ht | lia]|].
  split; [|exact (solarToLunar_exn t cache y m d Ht Hc Hy)].
  split.
  - intros (r & Er).
    destruct (Gregorian.date_new y m d) as [dt|e] eqn:E.
    + apply date_new_inv in E. tauto.
    + destruct (solarToLunar_raise t cache y m d Hy) as (e' & Ee).
      * intros Hv. rewrite (date_new_ok _ _ _ Hv) in E. discriminate.
      * rewrite Ee in Er. discriminate.
  - intros Hv.
    destruct (solarToLunar_total t cache y m d Ht Hc Hy Hv)
      as (r & cache' & sp & E & _).
    exists r. now rewrite E.
Qed.

(** The theorem at the thirtieth day of the second month of 2023, on the
    sample table and a new object's empty cache. *)
Lemma C6_day_validation_witness :
  (minYear + 1 <= 2023 ->
   exists leap zenMonth zenDay monthData,
     py_index Sample.lunarInfo (2023 - minYear)
     = Ok [leap; zenMonth; zenDay; monthData]
     /\ let months :=
          List.map (monthLength monthData)
                   (range (if leap =? 0 then 12 else 13)) in
        let between :=
          py_sum (List.firstn (Z.to_nat (2 - 1)) months) + 30 - 1 in
        let o := Gregorian.ymd2ord 2023 zenMonth zenDay + between in
        getDaysBetweenZheng Sample.lunarInfo 2023 (2 - 1) 30 = Ok between
        /\ lunarToSolar Sample.lunarInfo 2023 2 30
           = if (1 <=? o) && (o <=? Gregorian.MAXORDINAL)
             then Ok (Value
                        (let dt := Gregorian.fromordinal o in
                         mkSolarInfo (Gregorian.d_year dt)
                                     (Gregorian.d_month dt)
                                     (Gregorian.d_day dt)))
             else Raise OverflowError)
  /\ ((exists r, fst (solarToLunar Sample.lunarInfo ∅ 2023 2 30)
                 = Ok (Value r))
      <-> valid_date 2023 2 30)
  /\ (2 <= - 12 \/ 13 <= 2 ->
      fst (solarToLunar Sample.lunarInfo ∅ 2023 2 30) = Raise IndexError)
  /\ (- 11 <= 2 <= 12 ->
      ~ (Gregorian.INT_MIN <= 30 <= Gregorian.INT_MAX) ->
      fst (solarToLunar Sample.lunarInfo ∅ 2023 2 30) = Raise OverflowError)
  /\ (- 11 <= 2 <= 12 ->
      Gregorian.INT_MIN <= 30 <= Gregorian.INT_MAX ->
      ~ valid_date 2023 2 30 ->
      fst (solarToLunar Sample.lunarInfo ∅ 2023 2 30) = Raise ValueError).
Proof.
  apply (C6_day_validation Sample.lunarInfo ∅ 2023 2 30).
  - vm_compute. reflexivity.
  - exact cache_ok_empty.
  - unfold minYear, maxYear. lia.
Defined.

(** C6 as stated fails.  On the solar side the year 2023 passes the range
    validation, and [solarToLunar(2023, 2, 30)] raises [ValueError] and
    [solarToLunar(2023, 13, 1)] raises [IndexError].  On the lunar side the
    thirtieth day of a month of 29 days is taken for the first day of the
    next month, and a day far enough from the year raises
    [OverflowError]. *)
Lemma C6_counterexample_feb_30 :
  formatDate 2023 2 30 (Some minYear) = Value (2023, 1, 30)
  /\ fst (solarToLunar Sample.lunarInfo ∅ 2023 2 30) = Raise ValueError
  /\ fst (solarToLunar Sample.lunarInfo ∅ 2023 13 1) = Raise IndexError
  /\ getLunarYearDays Sample.lunarInfo 1891
     = Ok (mkLunarYearDays
             355 [29; 30; 29; 30; 29; 30; 29; 30; 30; 29; 30; 30])
  /\ lunarToSolar Sample.lunarInfo 1891 1 30
     = Ok (Value (mkSolarInfo 1891 3 10))
  /\ lunarToSolar Sample.lunarInfo 1891 2 1
     = Ok (Value (mkSolarInfo 1891 3 10))
  /\ lunarToSolar Sample.lunarInfo 2023 1 3000000 = Raise OverflowError.
Proof.
  repeat split; vm_compute; reflexivity.
Qed.
